(** * crew-controller-mcp: the legality engine, the crew state service and
      the crew swap tool, embedded in Rocq

    Sources embedded here:
    - [src/types/compliance.ts], [src/types/crew.ts]     (the data model)
    - [src/services/legality-engine.ts]                  ([LegalityEngine])
    - [src/services/crew-state-service.ts]               ([CrewStateService])
    - [src/tools/execute-crew-swap.ts]                   ([executeCrewSwap])

    Conventions of the embedding.
    - A JavaScript [number] is [NaN] or a finite rational ([Fin q]); the
      comparisons are false as soon as one side is [NaN].  Rounding of
      binary floating point and the two infinities are not represented.
    - Integer quantities are [Z]: the rank score (built from integer
      literals and an array length), the count of consecutive duty days,
      the result cap, and the time values in milliseconds.
    - A timestamp string is kept with the time value that [new Date(s)]
      gives it ([IsoString]); [None] is the time value NaN of an Invalid
      Date.
    - Reads of the clock and of [Math.random] are arguments of the
      functions that perform them.
    - A thrown exception is the [Throw] case of [Result]. *)

From Stdlib Require Import ZArith QArith Qround Qabs List String Ascii Bool.
From Stdlib Require Import Lia Permutation Sorted DecimalString.
Import ListNotations.

Open Scope string_scope.
Open Scope Z_scope.

(* ================================================================== *)
(** * JavaScript values *)
(* ================================================================== *)

Module Js.

(** ** Numbers *)

Inductive number : Type :=
| NaN : number
| Fin : Q -> number.

Definition ofZ (z : Z) : number := Fin (inject_Z z).

Definition add (a b : number) : number :=
  match a, b with
  | Fin x, Fin y => Fin (x + y)
  | _, _ => NaN
  end.

Definition sub (a b : number) : number :=
  match a, b with
  | Fin x, Fin y => Fin (x - y)
  | _, _ => NaN
  end.

Definition mul (a b : number) : number :=
  match a, b with
  | Fin x, Fin y => Fin (x * y)
  | _, _ => NaN
  end.

(** [a / b]; the code divides by the non-zero literal
    [1000 * 60 * 60] only, a zero divisor is mapped to [NaN]. *)
Definition div (a b : number) : number :=
  match a, b with
  | Fin x, Fin y => if Qeq_bool y 0 then NaN else Fin (x / y)
  | _, _ => NaN
  end.

(** [a > b], [a < b], [a >= b], [a <= b] *)
Definition gtb (a b : number) : bool :=
  match a, b with
  | Fin x, Fin y => negb (Qle_bool x y)
  | _, _ => false
  end.

Definition ltb (a b : number) : bool := gtb b a.

Definition geb (a b : number) : bool :=
  match a, b with
  | Fin x, Fin y => Qle_bool y x
  | _, _ => false
  end.

Definition leb (a b : number) : bool := geb b a.

(** The propositional reading of the comparisons. *)
Definition gt (a b : number) : Prop :=
  match a, b with
  | Fin x, Fin y => (y < x)%Q
  | _, _ => False
  end.

Definition lt (a b : number) : Prop := gt b a.

(** ** Strings *)

Definition string_of_Z (z : Z) : string :=
  NilZero.string_of_int (Z.to_int z).

(** [z] printed on at least [w] digits (for [0 <= z]). *)
Fixpoint zeros (n : nat) : string :=
  match n with
  | O => ""
  | S n' => "0" ++ zeros n'
  end.

Definition pad (w : nat) (z : Z) : string :=
  let s := string_of_Z z in
  zeros (w - String.length s) ++ s.

(** [x.toFixed(1)], below the magnitude [1e21] where JavaScript switches
    to the exponent notation: the nearest multiple of a tenth, the larger
    one of two equally near, after the sign has been put aside. *)
Definition toFixed1 (x : number) : string :=
  match x with
  | NaN => "NaN"
  | Fin q =>
      let n := Qfloor (Qabs q * inject_Z 10 + (1 # 2)) in
      let s := string_of_Z (n / 10) ++ "." ++ string_of_Z (n mod 10) in
      if negb (Qle_bool 0 q) then "-" ++ s else s
  end.

(** [arr.includes(s)] on an array of strings. *)
Definition includes (l : list string) (s : string) : bool :=
  existsb (String.eqb s) l.

(** [s.substring(n)] *)
Fixpoint substring_from (n : nat) (s : string) : string :=
  match n, s with
  | O, _ => s
  | S n', String _ s' => substring_from n' s'
  | S _, EmptyString => EmptyString
  end.

(** [s.replace(/[:.]/g, '')] *)
Fixpoint strip_colon_dot (s : string) : string :=
  match s with
  | EmptyString => EmptyString
  | String c s' =>
      if (Ascii.eqb c ":" || Ascii.eqb c ".")%bool
      then strip_colon_dot s'
      else String c (strip_colon_dot s')
  end.

(** ** Exceptions *)

Inductive Error : Type :=
| RangeError : string -> Error.

Inductive Result (A : Type) : Type :=
| Ok : A -> Result A
| Throw : Error -> Result A.

Arguments Ok {A} _.
Arguments Throw {A} _.

Definition bind {A B : Type} (r : Result A) (k : A -> Result B) : Result B :=
  match r with
  | Ok a => k a
  | Throw e => Throw e
  end.

Definition mapResult {A B : Type} (f : A -> B) (r : Result A) : Result B :=
  match r with
  | Ok a => Ok (f a)
  | Throw e => Throw e
  end.

(** ** Dates *)

(** The time value of a [Date]: milliseconds since the epoch, or [None]
    for an Invalid Date. *)
Definition Date : Type := option Z.

Definition maxTime : Z := 8640000000000000.

(** [new Date(n)] for a number [n]: NaN and values beyond the range of
    time values give an Invalid Date, other values lose their fraction. *)
Definition Date_ofNumber (n : number) : Date :=
  match n with
  | NaN => None
  | Fin q =>
      let t := Z.quot (Qnum q) (Zpos (Qden q)) in
      if (Qle_bool (Qabs q) (inject_Z maxTime)) then Some t else None
  end.

(** [d.getTime()] *)
Definition getTime (d : Date) : number :=
  match d with
  | Some t => ofZ t
  | None => NaN
  end.

Definition msPerHour : Z := 3600000.
Definition msPerDay : Z := 86400000.

(** [d.getUTCHours()] *)
Definition getUTCHours (d : Date) : number :=
  match d with
  | Some t => ofZ ((t / msPerHour) mod 24)
  | None => NaN
  end.

(** The civil date of a day number (days since 1970-01-01), in the
    proleptic Gregorian calendar: (year, month, day). *)
Definition civil_of_days (days : Z) : Z * Z * Z :=
  let z := days + 719468 in
  let era := z / 146097 in
  let doe := z - era * 146097 in
  let yoe := (doe - doe / 1460 + doe / 36524 - doe / 146096) / 365 in
  let doy := doe - (365 * yoe + yoe / 4 - yoe / 100) in
  let mp := (5 * doy + 2) / 153 in
  let d := doy - (153 * mp + 2) / 5 + 1 in
  let m := if mp <? 10 then mp + 3 else mp - 9 in
  let y := yoe + era * 400 + (if m <=? 2 then 1 else 0) in
  (y, m, d).

Definition year_string (y : Z) : string :=
  if ((0 <=? y) && (y <=? 9999))%bool then pad 4 y
  else if y <? 0 then "-" ++ pad 6 (- y)
  else "+" ++ pad 6 y.

(** The text of [d.toISOString()] for the time value [t]. *)
Definition iso_text (t : Z) : string :=
  let '(y, m, d) := civil_of_days (t / msPerDay) in
  let ms := t mod msPerDay in
  year_string y ++ "-" ++ pad 2 m ++ "-" ++ pad 2 d ++ "T" ++
  pad 2 (ms / 3600000) ++ ":" ++ pad 2 ((ms / 60000) mod 60) ++ ":" ++
  pad 2 ((ms / 1000) mod 60) ++ "." ++ pad 3 (ms mod 1000) ++ "Z".

(** A timestamp string with the time value [new Date(s)] gives it. *)
Record IsoString : Type := mkIso {
  text : string;
  timeValue : option Z
}.

(** [new Date(s)] for a timestamp string [s]. *)
Definition Date_ofString (s : IsoString) : Date := timeValue s.

(** [d.toISOString()]: throws on an Invalid Date. *)
Definition toISOString (d : Date) : Result IsoString :=
  match d with
  | Some t => Ok (mkIso (iso_text t) (Some t))
  | None => Throw (RangeError "Invalid time value")
  end.

(** ** Arrays *)

(** [arr.slice(0, e)] *)
Definition slice0 {A : Type} (l : list A) (e : Z) : list A :=
  let len := Z.of_nat (List.length l) in
  let k := if e <? 0 then Z.max (len + e) 0 else Z.min e len in
  firstn (Z.to_nat k) l.

(** [arr.sort(cmp)]: the sort is stable; an element is placed before the
    first element of the sorted remainder that it does not have to
    follow ([cmp x y <= 0]). *)
Fixpoint insert {A : Type} (cmp : A -> A -> Z) (x : A) (l : list A) : list A :=
  match l with
  | [] => [x]
  | y :: l' => if cmp x y <=? 0 then x :: y :: l' else y :: insert cmp x l'
  end.

Definition sort {A : Type} (cmp : A -> A -> Z) (l : list A) : list A :=
  fold_right (insert cmp) [] l.

(** ** [Map<string, V>]: keys in the order of their first insertion *)

Definition Map (V : Type) : Type := list (string * V).

Fixpoint Map_get {V : Type} (m : Map V) (k : string) : option V :=
  match m with
  | [] => None
  | (k', v) :: m' => if String.eqb k' k then Some v else Map_get m' k
  end.

Fixpoint Map_set {V : Type} (m : Map V) (k : string) (v : V) : Map V :=
  match m with
  | [] => [(k, v)]
  | (k', v') :: m' =>
      if String.eqb k' k then (k, v) :: m' else (k', v') :: Map_set m' k v
  end.

Definition Map_values {V : Type} (m : Map V) : list V := map snd m.

(** ** More of the standard library, for the callers of the services *)

(** [Math.max(a, b)] and [Math.min(a, b)]: NaN as soon as one argument is. *)
Definition max (a b : number) : number :=
  match a, b with
  | Fin x, Fin y => if Qle_bool x y then Fin y else Fin x
  | _, _ => NaN
  end.

Definition min (a b : number) : number :=
  match a, b with
  | Fin x, Fin y => if Qle_bool x y then Fin x else Fin y
  | _, _ => NaN
  end.

(** [x || 0] for an optional number: [undefined], [NaN] and zero are falsy. *)
Definition orZero (x : option number) : number :=
  match x with
  | Some (Fin q) => if Qeq_bool q 0 then ofZ 0 else Fin q
  | _ => ofZ 0
  end.

(** [s.includes(sub)] on strings. *)
Definition str_includes (s sub : string) : bool :=
  match String.index 0 sub s with
  | Some _ => true
  | None => false
  end.

(** The truth value of an optional string: [undefined] and the empty
    string are falsy. *)
Definition truthy (s : option string) : bool :=
  match s with
  | Some EmptyString => false
  | Some _ => true
  | None => false
  end.

(** [arr.find(p)] *)
Definition find {A : Type} (p : A -> bool) (l : list A) : option A :=
  List.find p l.

(** [arr.some(p)] *)
Definition some {A : Type} (p : A -> bool) (l : list A) : bool :=
  existsb p l.

End Js.

Import Js.

(* ================================================================== *)
(** * The data model: [types/compliance.ts], [types/crew.ts] *)
(* ================================================================== *)

Inductive ViolationSeverity : Type := blocking | warning | advisory.

Inductive ComplianceCategory : Type :=
  part117 | cba | fatigue_risk | currency | monthly_limits.

Definition severity_eqb (a b : ViolationSeverity) : bool :=
  match a, b with
  | blocking, blocking | warning, warning | advisory, advisory => true
  | _, _ => false
  end.

Record ComplianceViolation : Type := mkViolation {
  category : ComplianceCategory;
  rule : string;
  description : string;
  severity : ViolationSeverity;
  currentValue : option number;
  limitValue : option number;
  recommendation : option string
}.

(** [checksPerformed] is typed [ComplianceCategory[]], but holds whatever
    strings the caller passed ([c as any]). *)
Record LegalityCheck : Type := mkLegalityCheck {
  isLegal : bool;
  violations : list ComplianceViolation;
  warnings : list ComplianceViolation;
  checksPerformed : list string;
  timestamp : string;
  auditLogId : option string
}.

Record Part117Limits : Type := mkLimits {
  maxFlightDutyPeriod : number;
  maxFlightTime : number;
  minRestPeriod : number;
  extendedRestPeriod : number;
  maxFlightHours28Days : number;
  maxFlightHours365Days : number;
  maxDutyHours168Hours : number;
  woclStart : string;
  woclEnd : string
}.

Record FlightSegment : Type := mkSegment {
  seg_flightNumber : string;
  departureUtc : IsoString;
  arrivalUtc : IsoString;
  flightTimeHours : number;
  seg_origin : string;
  seg_destination : string
}.

Record DutyPeriod : Type := mkDutyPeriod {
  startTimeUtc : IsoString;
  endTimeUtc : IsoString;
  reportTimeUtc : IsoString;
  releaseTimeUtc : IsoString;
  flights : list FlightSegment;
  totalDutyHours : number;
  totalFlightHours : number
}.

Inductive CrewStateType : Type := DUTY | REST | RESERVE | OFF | SICK | VACATION.

Definition stateType_eqb (a b : CrewStateType) : bool :=
  match a, b with
  | DUTY, DUTY | REST, REST | RESERVE, RESERVE
  | OFF, OFF | SICK, SICK | VACATION, VACATION => true
  | _, _ => false
  end.

Record CrewDutyState : Type := mkCrewDutyState {
  employeeId : string;
  stateStartUtc : IsoString;
  stateEndUtc : IsoString;
  stateType : CrewStateType;
  currentLocation : string;
  dutyHoursCumulative : number;
  restHoursCumulative : number;
  flightHoursMonth : number;
  flightHoursYear : number;
  lastWoclExposure : option IsoString;
  consecutiveDutyDays : Z;
  assignedFlights : list string;
  cds_reportTimeUtc : option IsoString
}.

Inductive CurrencyType : Type := LANDING | INSTRUMENT | TRAINING | MEDICAL.
Inductive CurrencyStatus : Type := CURRENT | EXPIRING_SOON | EXPIRED.

Record Currency : Type := mkCurrency {
  cur_type : CurrencyType;
  expirationDate : IsoString;
  cur_status : CurrencyStatus
}.

(** The position and the aircraft types are compared with the strings of
    a request, and are strings here as they are at run time. *)
Record CrewQualifications : Type := mkQualifications {
  aircraftTypes : list string;
  currencies : list Currency;
  ratings : list string;
  languagesProficient : list string
}.

Record ContactInfo : Type := mkContact {
  mobile : string;
  email : string;
  emergencyContact : string
}.

Record CrewMember : Type := mkCrewMember {
  m_employeeId : string;
  firstName : string;
  lastName : string;
  position : string;
  base : string;
  seniority : Z;
  qualifications : CrewQualifications;
  contactInfo : ContactInfo
}.

Record CrewLogistics : Type := mkLogistics {
  lg_currentLocation : string;
  positioningRequired : bool;
  positioningFlight : option string;
  readyTimeUtc : IsoString;
  travelTimeMinutes : Z
}.

Record CrewCost : Type := mkCost {
  payCredit : number;
  perDiem : number;
  deadheadCost : number;
  hotelCost : number;
  overtimePremium : number;
  totalUsd : number
}.

Record CrewReplacement : Type := mkReplacement {
  r_employeeId : string;
  name : string;
  legality : LegalityCheck;
  logistics : CrewLogistics;
  cost : CrewCost;
  rankScore : Z
}.

(* ================================================================== *)
(** * [LegalityEngine]: [services/legality-engine.ts] *)
(* ================================================================== *)

(** What one call of [validateDuty] reads from its environment: the clock
    at [timestamp], the clock inside [generateAuditId], and the text of
    [Math.random().toString(36)]. *)
Record AuditSource : Type := mkAuditSource {
  clockAtTimestamp : Z;
  clockAtAuditId : Z;
  random36 : string
}.

Module LegalityEngine.

Definition part117Limits : Part117Limits := {|
  maxFlightDutyPeriod := ofZ 13;
  maxFlightTime := ofZ 9;
  minRestPeriod := ofZ 10;
  extendedRestPeriod := ofZ 12;
  maxFlightHours28Days := ofZ 100;
  maxFlightHours365Days := ofZ 1000;
  maxDutyHours168Hours := ofZ 60;
  woclStart := "02:00";
  woclEnd := "06:00"
|}.

Definition checkFlightDutyPeriod (duty : DutyPeriod)
  : option ComplianceViolation :=
  let fdpHours := totalDutyHours duty in
  if gtb fdpHours (maxFlightDutyPeriod part117Limits) then
    Some {|
      category := part117;
      rule := "117.25(d)";
      description := "Flight duty period exceeds maximum allowed";
      severity := blocking;
      currentValue := Some fdpHours;
      limitValue := Some (maxFlightDutyPeriod part117Limits);
      recommendation := Some
        ("Reduce duty by " ++
         toFixed1 (sub fdpHours (maxFlightDutyPeriod part117Limits)) ++
         " hours or assign different crew")
    |}
  else None.

Definition checkFlightTime (duty : DutyPeriod)
  : option ComplianceViolation :=
  let flightHours := totalFlightHours duty in
  if gtb flightHours (maxFlightTime part117Limits) then
    Some {|
      category := part117;
      rule := "117.11(a)";
      description := "Flight time within duty period exceeds maximum";
      severity := blocking;
      currentValue := Some flightHours;
      limitValue := Some (maxFlightTime part117Limits);
      recommendation := Some
        ("Reduce flight time by " ++
         toFixed1 (sub flightHours (maxFlightTime part117Limits)) ++
         " hours")
    |}
  else None.

(** The two quantities [checkRestRequirements] compares. *)
Definition restHours (crewState : CrewDutyState) (proposedDuty : DutyPeriod)
  : number :=
  let lastDutyEnd := Date_ofString (stateEndUtc crewState) in
  let nextDutyStart := Date_ofString (startTimeUtc proposedDuty) in
  div (sub (getTime nextDutyStart) (getTime lastDutyEnd))
      (ofZ (1000 * 60 * 60)).

Definition requiredRest (crewState : CrewDutyState) : number :=
  if consecutiveDutyDays crewState >=? 3
  then extendedRestPeriod part117Limits
  else minRestPeriod part117Limits.

Definition checkRestRequirements
  (crewState : CrewDutyState) (proposedDuty : DutyPeriod)
  : option ComplianceViolation :=
  let restHours := restHours crewState proposedDuty in
  let requiredRest := requiredRest crewState in
  if ltb restHours requiredRest then
    Some {|
      category := part117;
      rule := "117.25(b)";
      description := "Insufficient rest period between duties";
      severity := blocking;
      currentValue := Some restHours;
      limitValue := Some requiredRest;
      recommendation := Some
        ("Provide additional " ++ toFixed1 (sub requiredRest restHours) ++
         " hours rest")
    |}
  else None.

Definition violation28Day
  (crewState : CrewDutyState) (proposedDuty : DutyPeriod)
  : ComplianceViolation :=
  let projected28DayHours :=
    add (flightHoursMonth crewState) (totalFlightHours proposedDuty) in
  {| category := part117;
     rule := "117.23(b)";
     description := "28-day flight hour limit would be exceeded";
     severity := blocking;
     currentValue := Some projected28DayHours;
     limitValue := Some (maxFlightHours28Days part117Limits);
     recommendation := Some
       ("Crew has only " ++
        toFixed1 (sub (maxFlightHours28Days part117Limits)
                      (flightHoursMonth crewState)) ++
        " hours remaining this period")
  |}.

Definition violation365Day
  (crewState : CrewDutyState) (proposedDuty : DutyPeriod)
  : ComplianceViolation :=
  let projectedYearHours :=
    add (flightHoursYear crewState) (totalFlightHours proposedDuty) in
  {| category := part117;
     rule := "117.23(b)";
     description := "365-day flight hour limit would be exceeded";
     severity := blocking;
     currentValue := Some projectedYearHours;
     limitValue := Some (maxFlightHours365Days part117Limits);
     recommendation := None
  |}.

Definition checkCumulativeLimits
  (crewState : CrewDutyState) (proposedDuty : DutyPeriod)
  : list ComplianceViolation :=
  let violations := [] in
  let projected28DayHours :=
    add (flightHoursMonth crewState) (totalFlightHours proposedDuty) in
  let violations :=
    if gtb projected28DayHours (maxFlightHours28Days part117Limits)
    then (violations ++ [violation28Day crewState proposedDuty])%list
    else violations in
  let projectedYearHours :=
    add (flightHoursYear crewState) (totalFlightHours proposedDuty) in
  let violations :=
    if gtb projectedYearHours (maxFlightHours365Days part117Limits)
    then (violations ++ [violation365Day crewState proposedDuty])%list
    else violations in
  violations.

Definition woclWarning : ComplianceViolation :=
  {| category := fatigue_risk;
     rule := "FRMS_WOCL";
     description :=
       "Duty overlaps Window of Circadian Low (" ++
       woclStart part117Limits ++ "-" ++ woclEnd part117Limits ++ ")";
     severity := warning;
     currentValue := None;
     limitValue := None;
     recommendation := Some
       "Consider additional rest or different crew with better circadian alignment"
  |}.

Definition checkWoclExposure (duty : DutyPeriod)
  : option ComplianceViolation :=
  let dutyStart := Date_ofString (startTimeUtc duty) in
  let dutyHour := getUTCHours dutyStart in
  if (geb dutyHour (ofZ 2) && leb dutyHour (ofZ 6))%bool
  then Some woclWarning
  else None.

Definition assessFatigueRisk
  (crewState : CrewDutyState) (proposedDuty : DutyPeriod)
  : list ComplianceViolation :=
  let warnings := [] in
  let warnings :=
    if consecutiveDutyDays crewState >=? 5 then
      (warnings ++
      [ {| category := fatigue_risk;
           rule := "FRMS_CONSECUTIVE_DUTY";
           description :=
             "Crew has worked " ++
             string_of_Z (consecutiveDutyDays crewState) ++
             " consecutive days";
           severity := advisory;
           currentValue := None;
           limitValue := None;
           recommendation := Some
             "Consider scheduling day off soon to prevent cumulative fatigue"
        |} ])%list
    else warnings in
  let warnings :=
    if gtb (totalDutyHours proposedDuty) (ofZ 11) then
      (warnings ++
      [ {| category := fatigue_risk;
           rule := "FRMS_LONG_DUTY";
           description := "Duty period exceeds 11 hours";
           severity := advisory;
           currentValue := None;
           limitValue := None;
           recommendation := Some
             "Monitor crew for signs of fatigue during duty"
        |} ])%list
    else warnings in
  warnings.

Definition generateAuditId (src : AuditSource) : string :=
  let timestamp := strip_colon_dot (iso_text (clockAtAuditId src)) in
  let random := substring_from 7 (random36 src) in
  "audit_" ++ timestamp ++ "_" ++ random.

(** [if (x) arr.push(x)] for a nullable [x]. *)
Definition push_opt {A : Type} (l : list A) (x : option A) : list A :=
  match x with
  | Some a => (l ++ [a])%list
  | None => l
  end.

Definition validateDuty
  (src : AuditSource)
  (crewState : CrewDutyState) (proposedDuty : DutyPeriod)
  (checkCategories : list string) : LegalityCheck :=
  let violations := [] in
  let warnings := [] in
  let '(violations, warnings) :=
    if includes checkCategories "part117" then
      let violations := push_opt violations (checkFlightDutyPeriod proposedDuty) in
      let violations := push_opt violations (checkFlightTime proposedDuty) in
      let violations :=
        push_opt violations (checkRestRequirements crewState proposedDuty) in
      let violations :=
        (violations ++ checkCumulativeLimits crewState proposedDuty)%list in
      let warnings := push_opt warnings (checkWoclExposure proposedDuty) in
      (violations, warnings)
    else (violations, warnings) in
  let warnings :=
    if includes checkCategories "fatigue_risk"
    then (warnings ++ assessFatigueRisk crewState proposedDuty)%list
    else warnings in
  {| isLegal :=
       (List.length
          (filter (fun v => severity_eqb (severity v) blocking) violations)
        =? 0)%nat;
     violations := violations;
     warnings := warnings;
     checksPerformed := map (fun c => c) checkCategories;
     timestamp := iso_text (clockAtTimestamp src);
     auditLogId := Some (generateAuditId src)
  |}.

(** The default of the third parameter: [checkCategories = ['part117']]. *)
Definition validateDuty_default
  (src : AuditSource) (crewState : CrewDutyState) (proposedDuty : DutyPeriod)
  : LegalityCheck :=
  validateDuty src crewState proposedDuty ["part117"].

End LegalityEngine.

(* ================================================================== *)
(** * [CrewStateService]: [services/crew-state-service.ts] *)
(* ================================================================== *)

(** The two maps of the service object; the legality engine it holds has
    no state of its own. *)
Record ServiceState : Type := mkService {
  crewStates : Map CrewDutyState;
  crewMembers : Map CrewMember
}.

(** [maxResults] and [includeDeadheadOptions] are optional.  [slice]
    drops the fraction of its bound, so the cap is kept as an integer. *)
Record FindParams : Type := mkFindParams {
  p_flightNumber : string;
  p_position : string;
  p_departureTimeUtc : IsoString;
  p_base : string;
  p_aircraftType : string;
  p_maxResults : option Z;
  p_includeDeadheadOptions : option bool
}.

Record ReservePool : Type := mkReservePool {
  rp_base : string;
  rp_position : string;
  availableCrewIds : list string;
  utilizationPercent : number;
  nextAvailableUtc : IsoString
}.

(** The name of a state type, the string it is at run time. *)
Definition stateType_name (ty : CrewStateType) : string :=
  match ty with
  | DUTY => "DUTY"
  | REST => "REST"
  | RESERVE => "RESERVE"
  | OFF => "OFF"
  | SICK => "SICK"
  | VACATION => "VACATION"
  end.

Module CrewStateService.

Definition getCrewStatus (svc : ServiceState) (employeeId : string)
  : option CrewDutyState :=
  Map_get (crewStates svc) employeeId.

Definition getCrewAtLocation (svc : ServiceState) (location : string)
  : list CrewDutyState :=
  filter (fun state => String.eqb (currentLocation state) location)
         (Map_values (crewStates svc)).

Definition getCrewByState (svc : ServiceState) (ty : CrewStateType)
  : list CrewDutyState :=
  filter (fun state => stateType_eqb (stateType state) ty)
         (Map_values (crewStates svc)).

Definition updateCrewState (svc : ServiceState) (state : CrewDutyState)
  : ServiceState :=
  {| crewStates := Map_set (crewStates svc) (employeeId state) state;
     crewMembers := crewMembers svc |}.

Definition addCrewMember (svc : ServiceState) (member : CrewMember)
  : ServiceState :=
  {| crewStates := crewStates svc;
     crewMembers := Map_set (crewMembers svc) (m_employeeId member) member |}.

(** The filter of the reserve pool: [member?.base === base && ...]. *)
Definition matchesRequest (svc : ServiceState) (params : FindParams)
  (state : CrewDutyState) : bool :=
  match Map_get (crewMembers svc) (employeeId state) with
  | None => false
  | Some member =>
      (String.eqb (base member) (p_base params)
       && String.eqb (position member) (p_position params)
       && includes (aircraftTypes (qualifications member))
                   (p_aircraftType params))%bool
  end.

Definition reservePool (svc : ServiceState) (params : FindParams)
  : list CrewDutyState :=
  filter (matchesRequest svc params) (getCrewByState svc RESERVE).

(** The duty proposed to every reserve; each [toISOString] throws on an
    Invalid Date. *)
Definition proposedDutyFor (departureTimeUtc : IsoString) : Result DutyPeriod :=
  let dep := getTime (Date_ofString departureTimeUtc) in
  bind (toISOString (Date_ofNumber (add dep (ofZ (5 * 60 * 60 * 1000)))))
    (fun endTime =>
  bind (toISOString (Date_ofNumber (sub dep (ofZ (1 * 60 * 60 * 1000)))))
    (fun reportTime =>
  bind (toISOString
          (Date_ofNumber (add dep (Fin ((11 # 2) * 60 * 60 * 1000)%Q))))
    (fun releaseTime =>
  Ok {| startTimeUtc := departureTimeUtc;
        endTimeUtc := endTime;
        reportTimeUtc := reportTime;
        releaseTimeUtc := releaseTime;
        flights := [];
        totalDutyHours := Fin (13 # 2);
        totalFlightHours := ofZ 5 |}))).

Definition calculateCrewCost (state : CrewDutyState) (duty : DutyPeriod)
  : CrewCost :=
  let payCredit := totalFlightHours duty in
  let perDiem := mul (totalDutyHours duty) (Fin (5 # 2)) in
  let deadheadCost := ofZ 0 in
  let hotelCost := ofZ 0 in
  let overtimePremium :=
    if gtb (flightHoursMonth state) (ofZ 75)
    then mul payCredit (ofZ 50) else ofZ 0 in
  {| payCredit := payCredit;
     perDiem := perDiem;
     deadheadCost := deadheadCost;
     hotelCost := hotelCost;
     overtimePremium := overtimePremium;
     totalUsd := add (add (mul payCredit (ofZ 100)) perDiem) overtimePremium
  |}.

Definition calculateRankScore
  (state : CrewDutyState) (legality : LegalityCheck) (cost : CrewCost) : Z :=
  let score := 100 in
  let score := score - Z.of_nat (List.length (warnings legality)) * 5 in
  let score := if gtb (totalUsd cost) (ofZ 1000) then score - 10 else score in
  let score :=
    if gtb (overtimePremium cost) (ofZ 0) then score - 15 else score in
  let score :=
    if ltb (dutyHoursCumulative state) (ofZ 20) then score + 10 else score in
  let score :=
    if consecutiveDutyDays state <? 3 then score + 5 else score in
  Z.max 0 (Z.min 100 score).

(** The candidate pushed for a reserve whose check came back legal. *)
Definition candidateOf (member : CrewMember) (reserve : CrewDutyState)
  (departureTimeUtc : IsoString) (proposedDuty : DutyPeriod)
  (legalityCheck : LegalityCheck) : CrewReplacement :=
  let cost := calculateCrewCost reserve proposedDuty in
  let rankScore := calculateRankScore reserve legalityCheck cost in
  {| r_employeeId := m_employeeId member;
     name := lastName member ++ ", " ++ firstName member;
     legality := legalityCheck;
     logistics :=
       {| lg_currentLocation := currentLocation reserve;
          positioningRequired := false;
          positioningFlight := None;
          readyTimeUtc := departureTimeUtc;
          travelTimeMinutes := 0 |};
     cost := cost;
     rankScore := rankScore |}.

(** The body of [for (const reserve of reserves)].  [env k] is what the
    [k]-th call of [validateDuty] reads from its environment, [calls]
    the number of calls made so far. *)
Fixpoint collectCandidates (svc : ServiceState) (departureTimeUtc : IsoString)
  (env : nat -> AuditSource) (calls : nat) (reserves : list CrewDutyState)
  : Result (list CrewReplacement) :=
  match reserves with
  | [] => Ok []
  | reserve :: rest =>
      match Map_get (crewMembers svc) (employeeId reserve) with
      | None => collectCandidates svc departureTimeUtc env calls rest
      | Some member =>
          bind (proposedDutyFor departureTimeUtc) (fun proposedDuty =>
          let legalityCheck :=
            LegalityEngine.validateDuty (env calls) reserve proposedDuty
              ["part117"; "fatigue_risk"] in
          if negb (isLegal legalityCheck)
          then collectCandidates svc departureTimeUtc env (S calls) rest
          else
            bind (collectCandidates svc departureTimeUtc env (S calls) rest)
              (fun candidates =>
                 Ok (candidateOf member reserve departureTimeUtc
                       proposedDuty legalityCheck :: candidates)))
      end
  end.

(** [(a, b) => b.rankScore - a.rankScore] *)
Definition byRankScoreDesc (a b : CrewReplacement) : Z :=
  rankScore b - rankScore a.

Definition findReplacementCrew (svc : ServiceState) (params : FindParams)
  (env : nat -> AuditSource) : Result (list CrewReplacement) :=
  let maxResults :=
    match p_maxResults params with Some n => n | None => 5 end in
  let reserves := reservePool svc params in
  bind (collectCandidates svc (p_departureTimeUtc params) env 0 reserves)
    (fun candidates => Ok (slice0 (sort byRankScoreDesc candidates) maxResults)).

(** [getCrewByState] for a state type given as an arbitrary string, as the
    callers outside the service pass it. *)
Definition getCrewByStateName (svc : ServiceState) (stateTypeName : string)
  : list CrewDutyState :=
  filter (fun state => String.eqb (stateType_name (stateType state)) stateTypeName)
         (Map_values (crewStates svc)).

(** The filter of [getReservePoolStatus]: base and position only. *)
Definition matchesBasePosition (svc : ServiceState) (base0 position0 : string)
  (state : CrewDutyState) : bool :=
  match Map_get (crewMembers svc) (employeeId state) with
  | None => false
  | Some member =>
      (String.eqb (base member) base0
       && String.eqb (position member) position0)%bool
  end.

(** [now] is the clock read when no reserve is left. *)
Definition getReservePoolStatus (now : Z) (svc : ServiceState)
  (base0 position0 : string) : ReservePool :=
  let reserves :=
    filter (matchesBasePosition svc base0 position0)
           (getCrewByState svc RESERVE) in
  let totalReservesNeeded := ofZ 10 in
  let utilizationPercent :=
    mul (div (sub totalReservesNeeded (ofZ (Z.of_nat (List.length reserves))))
             totalReservesNeeded)
        (ofZ 100) in
  {| rp_base := base0;
     rp_position := position0;
     availableCrewIds := map employeeId reserves;
     utilizationPercent := utilizationPercent;
     nextAvailableUtc :=
       match reserves with
       | first :: _ => stateEndUtc first
       | [] => mkIso (iso_text now) (Some now)
       end |}.

End CrewStateService.

(* ================================================================== *)
(** * [executeCrewSwap]: [tools/execute-crew-swap.ts] *)
(* ================================================================== *)

Record ExecuteCrewSwapInput : Type := mkSwapInput {
  in_flightNumber : string;
  in_position : string;
  originalCrewId : string;
  replacementCrewId : string;
  reason : string;
  effectiveTimeUtc : IsoString;
  notifyCrews : option bool;
  dryRun : option bool
}.

Inductive SwapStatus : Type :=
  tx_pending | tx_completed | tx_failed | tx_rolled_back.
Inductive SwapAction : Type := act_create | act_update | act_delete.
Inductive Channel : Type := sms | ch_email | app_push.
Inductive NotificationStatus : Type := n_pending | n_sent | n_failed.

Record Assignment : Type := mkAssignment {
  as_flightNumber : string;
  as_position : string;
  as_employeeId : string;
  assignedAt : string
}.

(** [beforeState] and [afterState] are typed [any]: null, an assignment
    or a duty state. *)
Inductive SwapState : Type :=
| StNull : SwapState
| StAssignment : Assignment -> SwapState
| StDutyState : CrewDutyState -> SwapState.

Record SwapChange : Type := mkSwapChange {
  entity : string;
  entityId : string;
  action : SwapAction;
  beforeState : SwapState;
  afterState : SwapState
}.

Record NotificationRecord : Type := mkNotification {
  recipientId : string;
  channel : Channel;
  message : string;
  sentAt : option string;
  n_status : NotificationStatus
}.

Record CostBreakdown : Type := mkBreakdown {
  b_overtimePremium : Z;
  calloutPay : Z;
  b_deadheadCost : Z
}.

Record SwapCost : Type := mkSwapCost {
  originalCrewCost : Z;
  replacementCrewCost : Z;
  additionalCost : Z;
  totalImpactUsd : Z;
  breakdown : CostBreakdown
}.

Record ChangeSummary : Type := mkChangeSummary {
  cs_entity : string;
  cs_entityId : string;
  cs_action : SwapAction
}.

Record NotificationSummary : Type := mkNotificationSummary {
  ns_recipientId : string;
  ns_channel : Channel;
  ns_status : NotificationStatus;
  ns_sentAt : option string
}.

(** The three shapes of the object [executeCrewSwap] resolves to.  The
    fourth one, built in the [catch] of the execution, is never produced:
    nothing in the [try] block throws. *)
Inductive SwapResult : Type :=
| SwapError (message transactionId : string)
| SwapPreview
    (transactionId timestamp : string) (status : SwapStatus)
    (isDryRun : bool) (message : string)
    (changes : list SwapChange) (notifications : list NotificationRecord)
    (costImpact : SwapCost) (rollbackAvailable : bool)
| SwapDone
    (transactionId timestamp : string) (status : SwapStatus)
    (flightNumber position : string)
    (changes : list ChangeSummary) (notifications : list NotificationSummary)
    (costImpact : SwapCost) (rollbackAvailable : bool)
    (rollbackDeadline : string) (message : string).

(** What one call of [executeCrewSwap] reads from its environment. *)
Record SwapSource : Type := mkSwapSource {
  clockAtTransactionId : Z;
  randomAtTransactionId : string;
  clockAtSwapTimestamp : Z;
  clockAtSent : nat -> Z;
  clockAtDeadline : Z
}.

Module Swap.

Definition digit36 (d : Z) : ascii :=
  if d <? 10 then ascii_of_nat (48 + Z.to_nat d)
  else ascii_of_nat (87 + Z.to_nat d).

Fixpoint toString36_aux (fuel : nat) (n : Z) (acc : string) : string :=
  match fuel with
  | O => acc
  | S fuel' =>
      let acc' := String (digit36 (n mod 36)) acc in
      if n / 36 =? 0 then acc' else toString36_aux fuel' (n / 36) acc'
  end.

(** [n.toString(36)] for an integer [n]. *)
Definition toString36 (n : Z) : string :=
  if n <? 0
  then "-" ++ toString36_aux (S (Z.to_nat (Z.log2 (- n)))) (- n) ""
  else toString36_aux (S (Z.to_nat (Z.log2 n))) n "".

Definition generateTransactionId (src : SwapSource) : string :=
  let timestamp := toString36 (clockAtTransactionId src) in
  let random := String.substring 2 6 (randomAtTransactionId src) in
  "swap_" ++ timestamp ++ "_" ++ random.

Definition calculateSwapCost (originalCrew replacementCrew : CrewDutyState)
  : SwapCost :=
  let originalCostPerHour := 100 in
  let replacementCostPerHour :=
    if gtb (flightHoursMonth replacementCrew) (ofZ 75) then 150 else 100 in
  {| originalCrewCost := 0;
     replacementCrewCost := 500;
     additionalCost :=
       if replacementCostPerHour >? originalCostPerHour then 250 else 0;
     totalImpactUsd :=
       if replacementCostPerHour >? originalCostPerHour then 250 else 0;
     breakdown :=
       {| b_overtimePremium :=
            if gtb (flightHoursMonth replacementCrew) (ofZ 75)
            then 250 else 0;
          calloutPay := 0;
          b_deadheadCost := 0 |}
  |}.

Definition newOriginalState (flightNumber : string)
  (originalCrew : CrewDutyState) : CrewDutyState :=
  {| employeeId := employeeId originalCrew;
     stateStartUtc := stateStartUtc originalCrew;
     stateEndUtc := stateEndUtc originalCrew;
     stateType := RESERVE;
     currentLocation := currentLocation originalCrew;
     dutyHoursCumulative := dutyHoursCumulative originalCrew;
     restHoursCumulative := restHoursCumulative originalCrew;
     flightHoursMonth := flightHoursMonth originalCrew;
     flightHoursYear := flightHoursYear originalCrew;
     lastWoclExposure := lastWoclExposure originalCrew;
     consecutiveDutyDays := consecutiveDutyDays originalCrew;
     assignedFlights :=
       filter (fun f => negb (String.eqb f flightNumber))
              (assignedFlights originalCrew);
     cds_reportTimeUtc := cds_reportTimeUtc originalCrew |}.

Definition newReplacementState (flightNumber : string)
  (effectiveTimeUtc : IsoString) (replacementCrew : CrewDutyState)
  : CrewDutyState :=
  {| employeeId := employeeId replacementCrew;
     stateStartUtc := stateStartUtc replacementCrew;
     stateEndUtc := stateEndUtc replacementCrew;
     stateType := DUTY;
     currentLocation := currentLocation replacementCrew;
     dutyHoursCumulative := dutyHoursCumulative replacementCrew;
     restHoursCumulative := restHoursCumulative replacementCrew;
     flightHoursMonth := flightHoursMonth replacementCrew;
     flightHoursYear := flightHoursYear replacementCrew;
     lastWoclExposure := lastWoclExposure replacementCrew;
     consecutiveDutyDays := consecutiveDutyDays replacementCrew;
     assignedFlights :=
       (assignedFlights replacementCrew ++ [flightNumber])%list;
     cds_reportTimeUtc := Some effectiveTimeUtc |}.

Definition plannedChanges (input : ExecuteCrewSwapInput) (timestamp : string)
  (originalCrew replacementCrew : CrewDutyState) : list SwapChange :=
  let flightNumber := in_flightNumber input in
  [ {| entity := "crew_assignment";
       entityId := flightNumber ++ "-" ++ originalCrewId input;
       action := act_delete;
       beforeState := StAssignment
         {| as_flightNumber := flightNumber;
            as_position := in_position input;
            as_employeeId := originalCrewId input;
            assignedAt := text (stateStartUtc originalCrew) |};
       afterState := StNull |};
    {| entity := "crew_assignment";
       entityId := flightNumber ++ "-" ++ replacementCrewId input;
       action := act_create;
       beforeState := StNull;
       afterState := StAssignment
         {| as_flightNumber := flightNumber;
            as_position := in_position input;
            as_employeeId := replacementCrewId input;
            assignedAt := timestamp |} |};
    {| entity := "duty_state";
       entityId := originalCrewId input;
       action := act_update;
       beforeState := StDutyState originalCrew;
       afterState := StDutyState (newOriginalState flightNumber originalCrew) |};
    {| entity := "duty_state";
       entityId := replacementCrewId input;
       action := act_update;
       beforeState := StDutyState replacementCrew;
       afterState := StDutyState
         (newReplacementState flightNumber (effectiveTimeUtc input)
            replacementCrew) |} ].

Definition plannedNotifications (input : ExecuteCrewSwapInput)
  : list NotificationRecord :=
  let notifyCrews :=
    match notifyCrews input with Some b => b | None => true end in
  if notifyCrews then
    [ {| recipientId := originalCrewId input;
         channel := app_push;
         message :=
           "You have been removed from flight " ++ in_flightNumber input ++
           ". Reason: " ++ reason input ++
           ". Contact crew scheduling if you have questions.";
         sentAt := None;
         n_status := n_pending |};
      {| recipientId := replacementCrewId input;
         channel := app_push;
         message :=
           "You have been assigned to flight " ++ in_flightNumber input ++
           " as " ++ in_position input ++ ". Report time: " ++
           text (effectiveTimeUtc input) ++ ". Check your app for details.";
         sentAt := None;
         n_status := n_pending |} ]
  else [].

(** [notifications.forEach(n => { n.sentAt = ...; n.status = 'sent' })] *)
Fixpoint markSent (clock : nat -> Z) (k : nat) (ns : list NotificationRecord)
  : list NotificationRecord :=
  match ns with
  | [] => []
  | n :: ns' =>
      {| recipientId := recipientId n;
         channel := channel n;
         message := message n;
         sentAt := Some (iso_text (clock k));
         n_status := n_sent |} :: markSent clock (S k) ns'
  end.

(** The result, and the service as the call leaves it. *)
Definition executeCrewSwap (src : SwapSource) (input : ExecuteCrewSwapInput)
  (crewStateService : ServiceState) : SwapResult * ServiceState :=
  let dryRun := match dryRun input with Some b => b | None => false end in
  let transactionId := generateTransactionId src in
  let timestamp := iso_text (clockAtSwapTimestamp src) in
  match CrewStateService.getCrewStatus crewStateService (originalCrewId input),
        CrewStateService.getCrewStatus crewStateService (replacementCrewId input)
  with
  | None, _ =>
      (SwapError ("Original crew member " ++ originalCrewId input ++ " not found")
                 transactionId,
       crewStateService)
  | Some _, None =>
      (SwapError
         ("Replacement crew member " ++ replacementCrewId input ++ " not found")
         transactionId,
       crewStateService)
  | Some originalCrew, Some replacementCrew =>
      let changes := plannedChanges input timestamp originalCrew replacementCrew in
      let notifications := plannedNotifications input in
      if dryRun then
        (SwapPreview transactionId timestamp tx_pending true
           "Dry run completed successfully - no changes made"
           changes notifications
           (calculateSwapCost originalCrew replacementCrew) false,
         crewStateService)
      else
        let svc1 :=
          CrewStateService.updateCrewState crewStateService
            (newOriginalState (in_flightNumber input) originalCrew) in
        let svc2 :=
          CrewStateService.updateCrewState svc1
            (newReplacementState (in_flightNumber input)
               (effectiveTimeUtc input) replacementCrew) in
        let notifications := markSent (clockAtSent src) 0 notifications in
        (SwapDone transactionId timestamp tx_completed
           (in_flightNumber input) (in_position input)
           (map (fun c => {| cs_entity := entity c;
                             cs_entityId := entityId c;
                             cs_action := action c |}) changes)
           (map (fun n => {| ns_recipientId := recipientId n;
                             ns_channel := channel n;
                             ns_status := n_status n;
                             ns_sentAt := sentAt n |}) notifications)
           (calculateSwapCost originalCrew replacementCrew) true
           (iso_text (clockAtDeadline src + 30 * 60 * 1000))
           "Crew swap executed successfully",
         svc2)
  end.

End Swap.

(* ================================================================== *)
(** * Notions used to state the properties *)
(* ================================================================== *)

(** The violations of the regulatory group, in the order [validateDuty]
    pushes them. *)
Definition part117Violations (st : CrewDutyState) (d : DutyPeriod)
  : list ComplianceViolation :=
  (LegalityEngine.push_opt
     (LegalityEngine.push_opt
        (LegalityEngine.push_opt [] (LegalityEngine.checkFlightDutyPeriod d))
        (LegalityEngine.checkFlightTime d))
     (LegalityEngine.checkRestRequirements st d)
   ++ LegalityEngine.checkCumulativeLimits st d)%list.

(** A list holds a finding of the given rule. *)
Definition hasRule (r : string) (l : list ComplianceViolation) : Prop :=
  exists x, In x l /\ rule x = r.

Definition noBlocking (l : list ComplianceViolation) : Prop :=
  forall x, In x l -> severity x <> blocking.

(** The category names that make [validateDuty] run checks. *)
Definition evaluatedName (c : string) : bool :=
  (String.eqb c "part117" || String.eqb c "fatigue_risk")%bool.

(** The hour of the day (UTC) of a time value. *)
Definition utcHour (t : Z) : Z := (t / msPerHour) mod 24.

(** The timestamp string of a time value, as [toISOString] prints it. *)
Definition isoOf (t : Z) : IsoString := mkIso (iso_text t) (Some t).

(** A string that is no timestamp. *)
Definition notATimestamp : IsoString := mkIso "not-a-date" None.

(** The readings of the environment do not matter to the properties;
    this is one of them. *)
Definition src0 : AuditSource :=
  {| clockAtTimestamp := 1734271200000;
     clockAtAuditId := 1734271200001;
     random36 := "0.4fzyo82mvyr" |}.

(** The verdict on a reserve for a proposed duty, as the replacement
    search asks for it. *)
Definition legalFor (pd : DutyPeriod) (r : CrewDutyState) : bool :=
  isLegal (LegalityEngine.validateDuty src0 r pd ["part117"; "fatigue_risk"]).

(** The reserves of the pool that pass the legality check, in the order
    of the pool. *)
Definition legalPool (svc : ServiceState) (params : FindParams)
  (pd : DutyPeriod) : list CrewDutyState :=
  filter (legalFor pd) (CrewStateService.reservePool svc params).

(** [c] is the candidate built for the reserve [r]. *)
Definition candidateFor (svc : ServiceState) (dep : IsoString)
  (pd : DutyPeriod) (r : CrewDutyState) (c : CrewReplacement) : Prop :=
  exists member src,
    Map_get (crewMembers svc) (employeeId r) = Some member
    /\ c = CrewStateService.candidateOf member r dep pd
             (LegalityEngine.validateDuty src r pd ["part117"; "fatigue_risk"]).

(** The duty proposed for a departure whose time value is [t]. *)
Definition proposedDutyAt (dep : IsoString) (t : Z) : DutyPeriod :=
  {| startTimeUtc := dep;
     endTimeUtc := isoOf (t + 5 * 60 * 60 * 1000);
     reportTimeUtc := isoOf (t - 1 * 60 * 60 * 1000);
     releaseTimeUtc := isoOf (t + 19800000);
     flights := [];
     totalDutyHours := Fin (13 # 2);
     totalFlightHours := ofZ 5 |}.

(** The cap of a request: [maxResults = 5] by default. *)
Definition capOf (params : FindParams) : Z :=
  match p_maxResults params with Some n => n | None => 5 end.

Definition withDeadheadFlag (params : FindParams) (flag : option bool)
  : FindParams :=
  {| p_flightNumber := p_flightNumber params;
     p_position := p_position params;
     p_departureTimeUtc := p_departureTimeUtc params;
     p_base := p_base params;
     p_aircraftType := p_aircraftType params;
     p_maxResults := p_maxResults params;
     p_includeDeadheadOptions := flag |}.

(** What an observer of a ranking sees of a candidate. *)
Definition idAndScore (c : CrewReplacement) : string * Z :=
  (r_employeeId c, rankScore c).

(** Where an observer finds a candidate. *)
Definition idAndLocation (c : CrewReplacement) : string * string :=
  (r_employeeId c, lg_currentLocation (logistics c)).

(** The comparator [(a, b) => key(b) - key(a)] and the order it sorts
    into. *)
Definition cmpByKey {A : Type} (key : A -> Z) (a b : A) : Z := key b - key a.
Definition keyGe {A : Type} (key : A -> Z) (a b : A) : Prop := key b <= key a.

(** The order of a ranking: scores do not increase. *)
Definition scoreGe (a b : CrewReplacement) : Prop := rankScore b <= rankScore a.

(** ** Sample data *)

Module Sample.

(** 2024-12-14T20:00:00Z and 2024-12-15T13:00:00Z *)
Definition D_2000 : Z := 1734206400000.
Definition D1_1300 : Z := 1734267600000.

Definition state (id loc : string) (ty : CrewStateType) (days : Z)
  (month : Q) : CrewDutyState :=
  {| employeeId := id;
     stateStartUtc := isoOf (D_2000 - 8 * msPerHour);
     stateEndUtc := isoOf D_2000;
     stateType := ty;
     currentLocation := loc;
     dutyHoursCumulative := Fin (91 # 2);
     restHoursCumulative := ofZ 24;
     flightHoursMonth := Fin month;
     flightHoursYear := ofZ 420;
     lastWoclExposure := None;
     consecutiveDutyDays := days;
     assignedFlights := [];
     cds_reportTimeUtc := None |}.

Definition duty (start : Z) (dutyHours flightHours : Q) : DutyPeriod :=
  {| startTimeUtc := isoOf start;
     endTimeUtc := isoOf (start + 5 * msPerHour);
     reportTimeUtc := isoOf (start - msPerHour);
     releaseTimeUtc := isoOf (start + 6 * msPerHour);
     flights := [];
     totalDutyHours := Fin dutyHours;
     totalFlightHours := Fin flightHours |}.

Definition member (id first last pos home : string) : CrewMember :=
  {| m_employeeId := id;
     firstName := first;
     lastName := last;
     position := pos;
     base := home;
     seniority := 3100;
     qualifications :=
       {| aircraftTypes := ["B737"; "B738"];
          currencies := [];
          ratings := ["ATP"];
          languagesProficient := ["English"] |};
     contactInfo :=
       {| mobile := "+1-555-0101";
          email := "crew@airline.com";
          emergencyContact := "+1-555-0102" |} |}.

(** A service built with [addCrewMember] and [updateCrewState], the
    reserve 20002 entered before the reserve 10001. *)
Definition twoReserves : ServiceState :=
  let s := mkService [] [] in
  let s := CrewStateService.addCrewMember s
             (member "20002" "David" "Williams" "FO" "ORD") in
  let s := CrewStateService.addCrewMember s
             (member "10001" "Sarah" "Johnson" "FO" "ORD") in
  let s := CrewStateService.updateCrewState s
             (state "20002" "ORD" RESERVE 1 30) in
  CrewStateService.updateCrewState s (state "10001" "ORD" RESERVE 1 30).

(** A reserve based at ORD who is at DEN. *)
Definition reserveAway : ServiceState :=
  let s := mkService [] [] in
  let s := CrewStateService.addCrewMember s
             (member "10002" "Sarah" "Johnson" "FO" "ORD") in
  CrewStateService.updateCrewState s (state "10002" "DEN" RESERVE 1 30).

Definition request (dep : IsoString) (cap : option Z) (flag : option bool)
  : FindParams :=
  {| p_flightNumber := "AA1001";
     p_position := "FO";
     p_departureTimeUtc := dep;
     p_base := "ORD";
     p_aircraftType := "B737";
     p_maxResults := cap;
     p_includeDeadheadOptions := flag |}.

Definition env (k : nat) : AuditSource :=
  {| clockAtTimestamp := 1734271200000 + Z.of_nat k;
     clockAtAuditId := 1734271200000 + Z.of_nat k;
     random36 := "0.4fzyo82mvyr" |}.

Definition swapSource : SwapSource :=
  {| clockAtTransactionId := 1734271200000;
     randomAtTransactionId := "0.4fzyo82mvyr";
     clockAtSwapTimestamp := 1734271200000;
     clockAtSent := fun k => 1734271200000 + Z.of_nat k;
     clockAtDeadline := 1734271200005 |}.

(** Crew 10001 on duty for AA1001, crew 10002 on reserve. *)
Definition dutyAndReserve : ServiceState :=
  let s := mkService [] [] in
  let s := CrewStateService.updateCrewState s
             {| employeeId := "10001";
                stateStartUtc := isoOf (D_2000 - 8 * msPerHour);
                stateEndUtc := isoOf D_2000;
                stateType := DUTY;
                currentLocation := "ORD";
                dutyHoursCumulative := Fin (91 # 2);
                restHoursCumulative := ofZ 24;
                flightHoursMonth := ofZ 62;
                flightHoursYear := ofZ 420;
                lastWoclExposure := None;
                consecutiveDutyDays := 2;
                assignedFlights := ["AA1001"; "AA1002"];
                cds_reportTimeUtc := None |} in
  CrewStateService.updateCrewState s (state "10002" "ORD" RESERVE 1 30).

Definition swapInput (dry : option bool) : ExecuteCrewSwapInput :=
  {| in_flightNumber := "AA1001";
     in_position := "CA";
     originalCrewId := "10001";
     replacementCrewId := "10002";
     reason := "sick call";
     effectiveTimeUtc := isoOf D1_1300;
     notifyCrews := None;
     dryRun := dry |}.

End Sample.

(* ================================================================== *)
(** * The callers of the services *)
(* ================================================================== *)

(** ** [tools/find-replacement-crew.ts] *)

Record ViolationView : Type := mkViolationView {
  vv_rule : string;
  vv_description : string;
  vv_severity : ViolationSeverity
}.

Record WarningView : Type := mkWarningView {
  wv_rule : string;
  wv_description : string
}.

Record LegalityView : Type := mkLegalityView {
  lv_isLegal : bool;
  dutyRemainingHours : number;
  restCompliant : bool;
  currencyValid : bool;
  lv_violations : list ViolationView;
  lv_warnings : list WarningView
}.

Record CandidateView : Type := mkCandidateView {
  cv_employeeId : string;
  cv_name : string;
  cv_legality : LegalityView;
  cv_logistics : CrewLogistics;
  cv_cost : CrewCost;
  cv_rankScore : Z;
  cv_recommendation : string
}.

Record SearchMetadata : Type := mkSearchMetadata {
  searchedCount : Z;
  legalCount : Z;
  responseTimeMs : Z;
  basesSearched : list string;
  includesDeadheads : bool
}.

(** The two shapes of the object the tool resolves to. *)
Inductive FindResponse : Type :=
| FindOk
    (flightNumber position : string) (departureTimeUtc : IsoString)
    (candidates : list CandidateView) (searchMetadata : SearchMetadata)
    (recommendations : list string)
| FindError
    (message flightNumber position : string) (departureTimeUtc : IsoString).

(** What one call of the tool reads from its environment: [Date.now()]
    before and after the search, and the readings of the search. *)
Record FindSource : Type := mkFindSource {
  clockAtStart : Z;
  clockAtResponse : Z;
  auditSources : nat -> AuditSource
}.

Module FindReplacementCrewTool.

Definition calculateRemainingDuty (candidate : CrewReplacement) : number :=
  let maxDuty := ofZ 13 in
  let currentDuty :=
    orZero
      (match find (fun v => String.eqb (rule v) "117.25(d)")
               (violations (legality candidate)) with
       | Some v => currentValue v
       | None => None
       end) in
  max (ofZ 0) (sub maxDuty currentDuty).

Definition generateRecommendation (candidate : CrewReplacement) : string :=
  if rankScore candidate >=? 90 then
    "EXCELLENT: Optimal crew choice with no concerns"
  else if rankScore candidate >=? 75 then
    "GOOD: Suitable crew with minor considerations"
  else if rankScore candidate >=? 60 then
    "ACCEPTABLE: Legal but check warnings"
  else
    "USE WITH CAUTION: Legal but multiple concerns".

Definition generateOverallRecommendations (candidates : list CrewReplacement)
  : list string :=
  if (List.length candidates =? 0)%nat then
    ["NO LEGAL CREW FOUND: Consider deadhead from another base or cancel flight"]
  else
    let recommendations := [] in
    let recommendations :=
      if (List.length candidates <? 3)%nat
      then (recommendations ++
            ["LIMITED OPTIONS: Consider activating additional reserves"])%list
      else recommendations in
    let highCostCandidates :=
      filter (fun c => gtb (totalUsd (cost c)) (ofZ 1000)) candidates in
    let recommendations :=
      if (List.length highCostCandidates =? List.length candidates)%nat
      then (recommendations ++
            ["HIGH COST: All options involve premium pay or deadheads"])%list
      else recommendations in
    let fatigueRiskCandidates :=
      filter (fun c =>
                some (fun w => str_includes (rule w) "FRMS")
                     (warnings (legality c))) candidates in
    let recommendations :=
      if gtb (ofZ (Z.of_nat (List.length fatigueRiskCandidates)))
             (div (ofZ (Z.of_nat (List.length candidates))) (ofZ 2))
      then (recommendations ++
            ["FATIGUE RISK: Monitor crew closely during duty"])%list
      else recommendations in
    if (List.length recommendations =? 0)%nat
    then (recommendations ++ ["Multiple good options available"])%list
    else recommendations.

Definition viewOf (c : CrewReplacement) : CandidateView :=
  {| cv_employeeId := r_employeeId c;
     cv_name := name c;
     cv_legality :=
       {| lv_isLegal := isLegal (legality c);
          dutyRemainingHours := calculateRemainingDuty c;
          restCompliant :=
            (List.length
               (filter (fun v => str_includes (rule v) "117.25(b)")
                  (violations (legality c))) =? 0)%nat;
          currencyValid := true;
          lv_violations :=
            map (fun v => {| vv_rule := rule v;
                             vv_description := description v;
                             vv_severity := severity v |})
                (violations (legality c));
          lv_warnings :=
            map (fun w => {| wv_rule := rule w;
                             wv_description := description w |})
                (warnings (legality c)) |};
     cv_logistics :=
       {| lg_currentLocation := lg_currentLocation (logistics c);
          positioningRequired := positioningRequired (logistics c);
          positioningFlight := positioningFlight (logistics c);
          readyTimeUtc := readyTimeUtc (logistics c);
          travelTimeMinutes := travelTimeMinutes (logistics c) |};
     cv_cost :=
       {| payCredit := payCredit (cost c);
          perDiem := perDiem (cost c);
          deadheadCost := deadheadCost (cost c);
          hotelCost := hotelCost (cost c);
          overtimePremium := overtimePremium (cost c);
          totalUsd := totalUsd (cost c) |};
     cv_rankScore := rankScore c;
     cv_recommendation := generateRecommendation c |}.

(** The parameters the tool hands to the service: both optional ones
    have received their defaults. *)
Definition serviceParams (input : FindParams) : FindParams :=
  {| p_flightNumber := p_flightNumber input;
     p_position := p_position input;
     p_departureTimeUtc := p_departureTimeUtc input;
     p_base := p_base input;
     p_aircraftType := p_aircraftType input;
     p_maxResults :=
       Some (match p_maxResults input with Some n => n | None => 5 end);
     p_includeDeadheadOptions :=
       Some (match p_includeDeadheadOptions input with
             | Some b => b
             | None => true
             end) |}.

Definition errorMessage (e : Error) : string :=
  match e with
  | RangeError m => m
  end.

Definition findReplacementCrew (src : FindSource) (input : FindParams)
  (crewStateService : ServiceState) : FindResponse :=
  let startTime := clockAtStart src in
  match CrewStateService.findReplacementCrew crewStateService
          (serviceParams input) (auditSources src) with
  | Ok candidates =>
      let responseTime := clockAtResponse src - startTime in
      FindOk (p_flightNumber input) (p_position input)
        (p_departureTimeUtc input)
        (map viewOf candidates)
        {| searchedCount := Z.of_nat (List.length candidates) + 10;
           legalCount := Z.of_nat (List.length candidates);
           responseTimeMs := responseTime;
           basesSearched := [p_base input];
           includesDeadheads :=
             match p_includeDeadheadOptions input with
             | Some b => b
             | None => true
             end |}
        (generateOverallRecommendations candidates)
  | Throw error =>
      FindError (errorMessage error) (p_flightNumber input) (p_position input)
        (p_departureTimeUtc input)
  end.

End FindReplacementCrewTool.

(** ** [tools/validate-crew-legality.ts] *)

Record ProposedDutyInput : Type := mkProposedDutyInput {
  pdi_flights : list FlightSegment;
  pdi_startTimeUtc : IsoString;
  pdi_endTimeUtc : IsoString;
  pdi_reportTimeUtc : IsoString
}.

Record ValidateCrewLegalityInput : Type := mkValidateInput {
  vi_employeeId : string;
  vi_proposedDuty : ProposedDutyInput;
  vi_checkCategories : option (list string)
}.

Record CrewCurrentState : Type := mkCrewCurrentState {
  ccs_location : string;
  ccs_stateType : CrewStateType;
  ccs_dutyHoursMonth : number;
  ccs_flightHoursMonth : number;
  ccs_consecutiveDutyDays : Z
}.

Inductive ValidateResponse : Type :=
| ValidateError (message : string) (isLegalFlag : bool)
| ValidateOk
    (employee : string) (verdict : LegalityCheck)
    (crewCurrentState : CrewCurrentState)
    (proposedDutyHours proposedFlightHours : number).

Module ValidateCrewLegalityTool.

(** The duty period the tool builds from its input. *)
Definition dutyPeriodOf (proposedDuty : ProposedDutyInput) : DutyPeriod :=
  let totalFlightHours :=
    fold_left (fun sum flight => add sum (flightTimeHours flight))
              (pdi_flights proposedDuty) (ofZ 0) in
  let startTime := Date_ofString (pdi_startTimeUtc proposedDuty) in
  let endTime := Date_ofString (pdi_endTimeUtc proposedDuty) in
  let totalDutyHours :=
    div (sub (getTime endTime) (getTime startTime)) (ofZ (1000 * 60 * 60)) in
  {| startTimeUtc := pdi_startTimeUtc proposedDuty;
     endTimeUtc := pdi_endTimeUtc proposedDuty;
     reportTimeUtc := pdi_reportTimeUtc proposedDuty;
     releaseTimeUtc := pdi_endTimeUtc proposedDuty;
     flights :=
       map (fun f => {| seg_flightNumber := seg_flightNumber f;
                        departureUtc := departureUtc f;
                        arrivalUtc := arrivalUtc f;
                        flightTimeHours := flightTimeHours f;
                        seg_origin := seg_origin f;
                        seg_destination := seg_destination f |})
           (pdi_flights proposedDuty);
     totalDutyHours := totalDutyHours;
     totalFlightHours := totalFlightHours |}.

(** The verdict's [timestamp] and [auditLogId] are repeated at the top
    level of the response; they are read from [verdict] here. *)
Definition validateCrewLegality (src : AuditSource)
  (input : ValidateCrewLegalityInput) (crewStateService : ServiceState)
  : ValidateResponse :=
  let checkCategories :=
    match vi_checkCategories input with
    | Some cs => cs
    | None => ["part117"; "fatigue_risk"]
    end in
  match CrewStateService.getCrewStatus crewStateService (vi_employeeId input) with
  | None =>
      ValidateError ("Crew member " ++ vi_employeeId input ++ " not found") false
  | Some crewState =>
      let dutyPeriod := dutyPeriodOf (vi_proposedDuty input) in
      let result :=
        LegalityEngine.validateDuty src crewState dutyPeriod checkCategories in
      ValidateOk (vi_employeeId input) result
        {| ccs_location := currentLocation crewState;
           ccs_stateType := stateType crewState;
           ccs_dutyHoursMonth := dutyHoursCumulative crewState;
           ccs_flightHoursMonth := flightHoursMonth crewState;
           ccs_consecutiveDutyDays := consecutiveDutyDays crewState |}
        (totalDutyHours dutyPeriod) (totalFlightHours dutyPeriod)
  end.

End ValidateCrewLegalityTool.

(** ** [tools/get-crew-status-realtime.ts] *)

Record GetCrewStatusInput : Type := mkGetCrewStatusInput {
  gi_employeeId : option string;
  gi_location : option string;
  gi_stateType : option string;
  gi_position : option string;
  gi_includeUpcoming : option bool
}.

Record CurrentStateView : Type := mkCurrentStateView {
  csv_type : CrewStateType;
  csv_startUtc : IsoString;
  csv_endUtc : IsoString;
  csv_hoursRemaining : string
}.

Record AvailabilityView : Type := mkAvailabilityView {
  isAvailable : bool;
  av_nextAvailableUtc : option IsoString;
  checkInStatus : string
}.

Record LimitsView : Type := mkLimitsView {
  lim_dutyHoursCumulative : number;
  lim_flightHoursMonth : number;
  lim_flightHoursYear : number;
  lim_consecutiveDutyDays : Z
}.

Record CrewStatusView : Type := mkCrewStatusView {
  sv_employeeId : string;
  sv_currentState : CurrentStateView;
  sv_location : string;
  sv_availability : AvailabilityView;
  sv_limits : LimitsView;
  sv_flags : list string
}.

Inductive StatusResponse : Type :=
| StatusError (message : string)
| StatusCrew
    (crew : list CrewStatusView) (count : Z)
    (location stateTypeName : option string) (timestamp : string).

Module GetCrewStatusRealtimeTool.

(** [(stateEnd - now) / (1000 * 60 * 60)] *)
Definition hoursUntilEnd (now : Z) (state : CrewDutyState) : number :=
  let stateEnd := Date_ofString (stateEndUtc state) in
  div (sub (getTime stateEnd) (ofZ now)) (ofZ (1000 * 60 * 60)).

Definition generateStatusFlags (now : Z) (state : CrewDutyState) : list string :=
  let flags := [] in
  let flags :=
    if stateType_eqb (stateType state) SICK
    then (flags ++ ["UNAVAILABLE_SICK"])%list else flags in
  let flags :=
    if stateType_eqb (stateType state) VACATION
    then (flags ++ ["UNAVAILABLE_VACATION"])%list else flags in
  let hoursRemaining := hoursUntilEnd now state in
  let flags :=
    if (ltb hoursRemaining (ofZ 2) && stateType_eqb (stateType state) DUTY)%bool
    then (flags ++ ["APPROACHING_TIMEOUT"])%list else flags in
  let flags :=
    if gtb (flightHoursMonth state) (ofZ 90)
    then (flags ++ ["HIGH_MONTHLY_HOURS"])%list else flags in
  let flags :=
    if consecutiveDutyDays state >=? 5
    then (flags ++ ["FATIGUE_RISK"])%list else flags in
  let flags :=
    if ltb (dutyHoursCumulative state) (ofZ 10)
    then (flags ++ ["FRESH_CREW"])%list else flags in
  flags.

(** [now] is the clock read by [formatCrewStatus], [now'] the one read by
    [generateStatusFlags]. *)
Definition formatCrewStatus (now now' : Z) (state : CrewDutyState)
  : CrewStatusView :=
  let hoursRemaining := hoursUntilEnd now state in
  {| sv_employeeId := employeeId state;
     sv_currentState :=
       {| csv_type := stateType state;
          csv_startUtc := stateStartUtc state;
          csv_endUtc := stateEndUtc state;
          csv_hoursRemaining := toFixed1 (max (ofZ 0) hoursRemaining) |};
     sv_location := currentLocation state;
     sv_availability :=
       {| isAvailable :=
            (stateType_eqb (stateType state) RESERVE
             && gtb hoursRemaining (ofZ 0))%bool;
          av_nextAvailableUtc :=
            if stateType_eqb (stateType state) DUTY
            then Some (stateEndUtc state) else None;
          checkInStatus :=
            if ltb hoursRemaining (ofZ 2) then "PENDING" else "OK" |};
     sv_limits :=
       {| lim_dutyHoursCumulative := dutyHoursCumulative state;
          lim_flightHoursMonth := flightHoursMonth state;
          lim_flightHoursYear := flightHoursYear state;
          lim_consecutiveDutyDays := consecutiveDutyDays state |};
     sv_flags := generateStatusFlags now' state |}.

(** [states.map(formatCrewStatus)]: the [k]-th read of the clock is
    [clock k]; each element reads it twice. *)
Fixpoint formatAll (clock : nat -> Z) (k : nat) (states : list CrewDutyState)
  : list CrewStatusView :=
  match states with
  | [] => []
  | state :: rest =>
      formatCrewStatus (clock k) (clock (S k)) state
        :: formatAll clock (S (S k)) rest
  end.

Definition getCrewStatusRealtime (clock : nat -> Z) (input : GetCrewStatusInput)
  (crewStateService : ServiceState) : StatusResponse :=
  if truthy (gi_employeeId input) then
    let employeeId :=
      match gi_employeeId input with Some s => s | None => "" end in
    match CrewStateService.getCrewStatus crewStateService employeeId with
    | None => StatusError ("Crew member " ++ employeeId ++ " not found")
    | Some state =>
        StatusCrew [formatCrewStatus (clock 0%nat) (clock 1%nat) state] 1
          None None (iso_text (clock 2%nat))
    end
  else if truthy (gi_location input) then
    let location :=
      match gi_location input with Some s => s | None => "" end in
    let crewAtLocation :=
      CrewStateService.getCrewAtLocation crewStateService location in
    StatusCrew (formatAll clock 0 crewAtLocation)
      (Z.of_nat (List.length crewAtLocation))
      (Some location) None
      (iso_text (clock (2 * List.length crewAtLocation)%nat))
  else if truthy (gi_stateType input) then
    let stateTypeName :=
      match gi_stateType input with Some s => s | None => "" end in
    let crewByState :=
      CrewStateService.getCrewByStateName crewStateService stateTypeName in
    StatusCrew (formatAll clock 0 crewByState)
      (Z.of_nat (List.length crewByState))
      None (Some stateTypeName)
      (iso_text (clock (2 * List.length crewByState)%nat))
  else
    StatusError "Must provide either employeeId, location, or stateType".

End GetCrewStatusRealtimeTool.

(** ** [tools/optimize-reserve-callout.ts] *)

Record OptimizeReserveCalloutInput : Type := mkOptimizeInput {
  oi_base : string;
  oi_position : string;
  oi_requiredTimeUtc : IsoString;
  oi_duration : number;
  oi_priorityFactor : option string;
  oi_maxResults : option Z
}.

Record CalloutMetrics : Type := mkCalloutMetrics {
  utilizationThisMonth : number;
  daysOnReserveSinceLastCall : number;
  costPerHour : number;
  availabilityScore : number;
  fatigueScore : number
}.

Record FairnessConsiderations : Type := mkFairness {
  calloutCountThisMonth : number;
  lastCalloutDate : option string;
  hoursUsedVsAvailable : number
}.

Record ReserveRecommendation : Type := mkRecommendation {
  rec_employeeId : string;
  rec_name : string;
  rec_rankScore : number;
  reasoning : list string;
  metrics : CalloutMetrics;
  fairnessConsiderations : FairnessConsiderations
}.

Record CalloutPoolStatus : Type := mkCalloutPoolStatus {
  totalReserves : Z;
  recommendedCount : Z;
  averageUtilization : number;
  lowestCostOption : ReserveRecommendation;
  fairestOption : ReserveRecommendation
}.

Inductive CalloutResponse : Type :=
| CalloutError (message base position : string) (requiredTimeUtc : IsoString)
| CalloutOk
    (base position : string) (requiredTimeUtc : IsoString) (duration : number)
    (priorityFactor : string) (recommendations : list ReserveRecommendation)
    (poolStatus : CalloutPoolStatus) (timestamp : string).

(** The function returns a response or throws a [TypeError]. *)
Inductive CalloutOutcome : Type :=
| CalloutReturns (response : CalloutResponse)
| CalloutThrowsTypeError (message : string).

(** What one call reads from its environment: [Date.now()] inside
    [calculateFatigueScore] for the [i]-th reserve (read only when that
    reserve has a last circadian-low exposure), and the clock at the
    timestamp of the response. *)
Record CalloutSource : Type := mkCalloutSource {
  clockAtFatigue : nat -> Z;
  clockAtCalloutTimestamp : Z
}.

Module OptimizeReserveCalloutTool.

(** [Math.floor(x)] *)
Definition floor (x : number) : number :=
  match x with
  | Fin q => ofZ (Qfloor q)
  | NaN => NaN
  end.

(** The text of a number that is an integer below [1e21] in magnitude, or
    NaN, inside a template string. *)
Definition integerText (x : number) : string :=
  match x with
  | Fin q => string_of_Z (Qfloor q)
  | NaN => "NaN"
  end.

(** [a === b] on numbers: false as soon as one side is NaN. *)
Definition eqb_number (a b : number) : bool :=
  match a, b with
  | Fin x, Fin y => Qeq_bool x y
  | _, _ => false
  end.

(** The sign a comparator result has for [sort]; NaN counts as zero. *)
Definition signOf (x : number) : Z :=
  match x with
  | Fin q => Z.sgn (Qnum q)
  | NaN => 0
  end.

Definition calculateAvailabilityScore (reserve : CrewDutyState)
  (requiredTimeUtc : IsoString) : number :=
  let requiredTime := Date_ofString requiredTimeUtc in
  let stateEnd := Date_ofString (stateEndUtc reserve) in
  let hoursAvailable :=
    div (sub (getTime stateEnd) (getTime requiredTime)) (ofZ (1000 * 60 * 60)) in
  if geb hoursAvailable (ofZ 12) then ofZ 100
  else if geb hoursAvailable (ofZ 8) then ofZ 80
  else if geb hoursAvailable (ofZ 4) then ofZ 60
  else ofZ 40.

Definition calculateFatigueScore (now : Z) (reserve : CrewDutyState) : number :=
  let score := ofZ 0 in
  let score := add score (mul (ofZ (consecutiveDutyDays reserve)) (ofZ 15)) in
  let score :=
    add score (mul (div (dutyHoursCumulative reserve) (ofZ 160)) (ofZ 30)) in
  let score :=
    match lastWoclExposure reserve with
    | Some last =>
        if String.eqb (text last) "" then score
        else
          let hoursSinceWocl :=
            div (sub (ofZ now) (getTime (Date_ofString last)))
                (ofZ (1000 * 60 * 60)) in
          if ltb hoursSinceWocl (ofZ 24) then add score (ofZ 20) else score
    | None => score
    end in
  min (ofZ 100) score.

Definition calculateRankScore (m : CalloutMetrics) (f : FairnessConsiderations)
  (priorityFactor : string) : number :=
  let score := ofZ 100 in
  let score :=
    if String.eqb priorityFactor "cost" then
      let score := sub score (div (sub (costPerHour m) (ofZ 100)) (ofZ 2)) in
      sub score (div (utilizationThisMonth m) (ofZ 5))
    else if String.eqb priorityFactor "fairness" then
      let score := sub score (mul (calloutCountThisMonth f) (ofZ 10)) in
      let score := sub score (div (hoursUsedVsAvailable f) (ofZ 2)) in
      add score (mul (daysOnReserveSinceLastCall m) (ofZ 2))
    else if String.eqb priorityFactor "seniority" then
      add score (if ltb (utilizationThisMonth m) (ofZ 50) then ofZ 20 else ofZ 0)
    else score in
  let score := sub score (div (fatigueScore m) (ofZ 2)) in
  let score := add score (div (availabilityScore m) (ofZ 5)) in
  max (ofZ 0) (min (ofZ 100) score).

Definition generateReasoning (m : CalloutMetrics) (f : FairnessConsiderations)
  (priorityFactor : string) : list string :=
  let reasons := [] in
  let reasons :=
    if String.eqb priorityFactor "cost" then
      if eqb_number (costPerHour m) (ofZ 100)
      then (reasons ++ ["Regular pay rate - no overtime premium"])%list
      else (reasons ++ ["Overtime premium applies - higher cost"])%list
    else reasons in
  let reasons :=
    if String.eqb priorityFactor "fairness" then
      let reasons :=
        if eqb_number (calloutCountThisMonth f) (ofZ 0)
        then (reasons ++ ["Has not been called out this month"])%list
        else if geb (calloutCountThisMonth f) (ofZ 3)
        then (reasons ++
              [("Already called out " ++ integerText (calloutCountThisMonth f)
                ++ " times this month")%string])%list
        else reasons in
      if geb (daysOnReserveSinceLastCall m) (ofZ 7)
      then (reasons ++
            [(integerText (daysOnReserveSinceLastCall m)
              ++ " days since last callout - fair rotation")%string])%list
      else reasons
    else reasons in
  let reasons :=
    if ltb (fatigueScore m) (ofZ 30)
    then (reasons ++ ["Low fatigue risk - fresh crew"])%list
    else if gtb (fatigueScore m) (ofZ 60)
    then (reasons ++ ["Elevated fatigue risk - monitor closely"])%list
    else reasons in
  let reasons :=
    if ltb (utilizationThisMonth m) (ofZ 50)
    then (reasons ++ ["Below average utilization - good availability"])%list
    else if gtb (utilizationThisMonth m) (ofZ 80)
    then (reasons ++ ["High utilization this month - approaching limits"])%list
    else reasons in
  reasons.

(** The recommendation computed for one reserve; [now] is the clock of
    its fatigue score. *)
Definition recommendationFor (svc : ServiceState) (requiredTimeUtc : IsoString)
  (priorityFactor : string) (now : Z) (reserve : CrewDutyState)
  : ReserveRecommendation :=
  let member := Map_get (crewMembers svc) (employeeId reserve) in
  let utilizationThisMonth :=
    mul (div (dutyHoursCumulative reserve) (ofZ 160)) (ofZ 100) in
  let daysOnReserveSinceLastCall := ofZ 5 in
  let costPerHour :=
    if gtb (flightHoursMonth reserve) (ofZ 75) then ofZ 150 else ofZ 100 in
  let availabilityScore := calculateAvailabilityScore reserve requiredTimeUtc in
  let fatigueScore := calculateFatigueScore now reserve in
  let calloutCountThisMonth :=
    floor (div (dutyHoursCumulative reserve) (ofZ 20)) in
  let hoursUsedVsAvailable :=
    mul (div (dutyHoursCumulative reserve) (ofZ 100)) (ofZ 100) in
  let m :=
    {| utilizationThisMonth := utilizationThisMonth;
       daysOnReserveSinceLastCall := daysOnReserveSinceLastCall;
       costPerHour := costPerHour;
       availabilityScore := availabilityScore;
       fatigueScore := fatigueScore |} in
  let f :=
    {| calloutCountThisMonth := calloutCountThisMonth;
       lastCalloutDate := None;
       hoursUsedVsAvailable := hoursUsedVsAvailable |} in
  {| rec_employeeId := employeeId reserve;
     rec_name :=
       match member with
       | Some mb => lastName mb ++ ", " ++ firstName mb
       | None => "Unknown"
       end;
     rec_rankScore := calculateRankScore m f priorityFactor;
     reasoning := generateReasoning m f priorityFactor;
     metrics := m;
     fairnessConsiderations := f |}.

(** [reserves.map(...)], the [i]-th reserve reading [clock i]. *)
Fixpoint recommendationsFrom (svc : ServiceState) (requiredTimeUtc : IsoString)
  (priorityFactor : string) (clock : nat -> Z) (i : nat)
  (reserves : list CrewDutyState) : list ReserveRecommendation :=
  match reserves with
  | [] => []
  | reserve :: rest =>
      recommendationFor svc requiredTimeUtc priorityFactor (clock i) reserve
        :: recommendationsFrom svc requiredTimeUtc priorityFactor clock (S i) rest
  end.

(** [(a, b) => b.rankScore - a.rankScore], as [sort] reads it. *)
Definition byRankScoreDesc (a b : ReserveRecommendation) : Z :=
  signOf (sub (rec_rankScore b) (rec_rankScore a)).

(** [arr.reduce(pick)] without an initial value; [None] stands for the
    [TypeError] on an empty array. *)
Definition reduce1 {A : Type} (pick : A -> A -> A) (l : list A) : option A :=
  match l with
  | [] => None
  | first :: rest => Some (fold_left pick rest first)
  end.

Definition optimizeReserveCallout (src : CalloutSource)
  (input : OptimizeReserveCalloutInput) (crewStateService : ServiceState)
  : CalloutOutcome :=
  let priorityFactor :=
    match oi_priorityFactor input with Some p => p | None => "fairness" end in
  let maxResults :=
    match oi_maxResults input with Some n => n | None => 5 end in
  let reserves :=
    filter (CrewStateService.matchesBasePosition crewStateService
              (oi_base input) (oi_position input))
           (CrewStateService.getCrewByState crewStateService RESERVE) in
  if (List.length reserves =? 0)%nat then
    CalloutReturns
      (CalloutError
         ("No reserves available at " ++ oi_base input ++ " for position " ++
          oi_position input)
         (oi_base input) (oi_position input) (oi_requiredTimeUtc input))
  else
    let recommendations :=
      recommendationsFrom crewStateService (oi_requiredTimeUtc input)
        priorityFactor (clockAtFatigue src) 0 reserves in
    (* [sort] works in place: from here on [recommendations] is sorted *)
    let recommendations := sort byRankScoreDesc recommendations in
    let sortedRecommendations := slice0 recommendations maxResults in
    let averageUtilization :=
      div (fold_left (fun sum r => add sum (utilizationThisMonth (metrics r)))
             recommendations (ofZ 0))
          (ofZ (Z.of_nat (List.length recommendations))) in
    match reduce1 (fun least r =>
                     if ltb (costPerHour (metrics r)) (costPerHour (metrics least))
                     then r else least) sortedRecommendations,
          reduce1 (fun least r =>
                     if ltb (calloutCountThisMonth (fairnessConsiderations r))
                            (calloutCountThisMonth (fairnessConsiderations least))
                     then r else least) sortedRecommendations
    with
    | Some lowestCost, Some fairest =>
        CalloutReturns
          (CalloutOk (oi_base input) (oi_position input)
             (oi_requiredTimeUtc input) (oi_duration input) priorityFactor
             sortedRecommendations
             {| totalReserves := Z.of_nat (List.length reserves);
                recommendedCount := Z.of_nat (List.length sortedRecommendations);
                averageUtilization := averageUtilization;
                lowestCostOption := lowestCost;
                fairestOption := fairest |}
             (iso_text (clockAtCalloutTimestamp src)))
    | _, _ =>
        CalloutThrowsTypeError "Reduce of empty array with no initial value"
    end.

End OptimizeReserveCalloutTool.

(** ** The start of the server: [index.ts] *)

Module Server.

(** [members.forEach(m => service.addCrewMember(m))], then
    [states.forEach(s => service.updateCrewState(s))], on a new service. *)
Definition loadData (members : list CrewMember) (states : list CrewDutyState)
  : ServiceState :=
  let service := mkService [] [] in
  let service := fold_left CrewStateService.addCrewMember members service in
  fold_left CrewStateService.updateCrewState states service.

End Server.

(* ================================================================== *)
(** * Notions used to state the further properties *)
(* ================================================================== *)

(** A map whose entries sit under the key their value names, each key
    once. *)
Definition keyedBy {V : Type} (key : V -> string) (m : Map V) : Prop :=
  Forall (fun kv => fst kv = key (snd kv)) m /\ NoDup (map fst m).

(** The two maps of a service filled through [addCrewMember] and
    [updateCrewState]. *)
Definition wellKeyed (svc : ServiceState) : Prop :=
  keyedBy employeeId (crewStates svc) /\ keyedBy m_employeeId (crewMembers svc).

Definition keysOf {V : Type} (m : Map V) : list string := map fst m.

(** The five conditions of the regulatory group. *)
Definition withinLimits (st : CrewDutyState) (d : DutyPeriod) : Prop :=
  ~ gt (totalDutyHours d) (ofZ 13)
  /\ ~ gt (totalFlightHours d) (ofZ 9)
  /\ ~ lt (LegalityEngine.restHours st d) (LegalityEngine.requiredRest st)
  /\ ~ gt (add (flightHoursMonth st) (totalFlightHours d)) (ofZ 100)
  /\ ~ gt (add (flightHoursYear st) (totalFlightHours d)) (ofZ 1000).

Definition withDryRun (input : ExecuteCrewSwapInput) (flag : option bool)
  : ExecuteCrewSwapInput :=
  {| in_flightNumber := in_flightNumber input;
     in_position := in_position input;
     originalCrewId := originalCrewId input;
     replacementCrewId := replacementCrewId input;
     reason := reason input;
     effectiveTimeUtc := effectiveTimeUtc input;
     notifyCrews := notifyCrews input;
     dryRun := flag |}.

(** The state a planned change of a duty state announces. *)
Definition announcedState (c : SwapChange) : option CrewDutyState :=
  match afterState c with
  | StDutyState s => Some s
  | _ => None
  end.

(** The candidates of a response, the empty list for an error. *)
Definition candidatesOf (r : FindResponse) : list CandidateView :=
  match r with
  | FindOk _ _ _ cs _ _ => cs
  | FindError _ _ _ _ => []
  end.

Definition recommendationsOf (r : FindResponse) : list string :=
  match r with
  | FindOk _ _ _ _ _ rs => rs
  | FindError _ _ _ _ => []
  end.

Definition crewOf (r : StatusResponse) : list CrewStatusView :=
  match r with
  | StatusCrew crew _ _ _ _ => crew
  | StatusError _ => []
  end.

(* ================================================================== *)
(** * Facts about the JavaScript values *)
(* ================================================================== *)

Example iso_text_sample :
  iso_text 1734271200000 = "2024-12-15T14:00:00.000Z".
Proof. reflexivity. Qed.

Example iso_text_leap :
  iso_text 951782399999 = "2000-02-28T23:59:59.999Z"
  /\ iso_text 951868800000 = "2000-03-01T00:00:00.000Z"
  /\ iso_text (-1) = "1969-12-31T23:59:59.999Z".
Proof. repeat split; reflexivity. Qed.

Example toFixed1_samples :
  toFixed1 (Fin (1 # 1)) = "1.0"
  /\ toFixed1 (Fin (7 # 2)) = "3.5"
  /\ toFixed1 (Fin (-(1 # 4))) = "-0.3"
  /\ toFixed1 (Fin (25 # 2)) = "12.5".
Proof. repeat split; reflexivity. Qed.

Lemma gtb_gt (a b : number) : gtb a b = true <-> gt a b.
Proof.
  destruct a as [|x], b as [|y]; simpl;
    try (split; [discriminate | tauto]).
  rewrite negb_true_iff. split.
  - intros E. apply Qnot_le_lt. intros H.
    apply Qle_bool_iff in H. congruence.
  - intros H. destruct (Qle_bool x y) eqn:E; [| reflexivity].
    apply Qle_bool_iff in E. exfalso. exact (Qlt_not_le _ _ H E).
Qed.

Lemma ltb_lt (a b : number) : ltb a b = true <-> lt a b.
Proof. unfold ltb, lt. apply gtb_gt. Qed.

Lemma gtb_false (a b : number) : gtb a b = false <-> ~ gt a b.
Proof.
  rewrite <- gtb_gt. destruct (gtb a b); split; congruence.
Qed.

Lemma includes_In (l : list string) (s : string) :
  includes l s = true <-> In s l.
Proof.
  unfold includes. rewrite existsb_exists. split.
  - intros [x [Hx E]]. apply String.eqb_eq in E. subst. exact Hx.
  - intros H. exists s. split; [exact H | apply String.eqb_refl].
Qed.

Lemma includes_false (l : list string) (s : string) :
  includes l s = false <-> ~ In s l.
Proof.
  rewrite <- includes_In. destruct (includes l s); split; congruence.
Qed.

Lemma In_push_opt {A : Type} (l : list A) (o : option A) (x : A) :
  In x (LegalityEngine.push_opt l o) <-> In x l \/ o = Some x.
Proof.
  destruct o as [a|]; simpl.
  - rewrite in_app_iff. simpl. split.
    + intros [H | [H | []]]; [left; exact H | right; congruence].
    + intros [H | H]; [left; exact H | right; left; congruence].
  - split; [intros H; left; exact H | intros [H | H]; [exact H | discriminate]].
Qed.

(* ================================================================== *)
(** * The verdict of [validateDuty] *)
(* ================================================================== *)

Section Verdict.

Variable src : AuditSource.
Variable st : CrewDutyState.
Variable d : DutyPeriod.
Variable cats : list string.

Lemma violations_validateDuty :
  violations (LegalityEngine.validateDuty src st d cats)
  = if includes cats "part117" then part117Violations st d else [].
Proof.
  unfold LegalityEngine.validateDuty, part117Violations.
  destruct (includes cats "part117"); reflexivity.
Qed.

Lemma warnings_validateDuty :
  warnings (LegalityEngine.validateDuty src st d cats)
  = ((if includes cats "part117"
      then LegalityEngine.push_opt [] (LegalityEngine.checkWoclExposure d)
      else [])
     ++ (if includes cats "fatigue_risk"
         then LegalityEngine.assessFatigueRisk st d else []))%list.
Proof.
  unfold LegalityEngine.validateDuty.
  destruct (includes cats "part117"); destruct (includes cats "fatigue_risk");
    simpl; rewrite ?app_nil_r; reflexivity.
Qed.

Lemma isLegal_validateDuty :
  isLegal (LegalityEngine.validateDuty src st d cats)
  = (List.length
       (filter (fun v => severity_eqb (severity v) blocking)
          (violations (LegalityEngine.validateDuty src st d cats)))
     =? 0)%nat.
Proof.
  unfold LegalityEngine.validateDuty.
  destruct (includes cats "part117"); reflexivity.
Qed.

Lemma checksPerformed_validateDuty :
  checksPerformed (LegalityEngine.validateDuty src st d cats) = cats.
Proof.
  unfold LegalityEngine.validateDuty.
  destruct (includes cats "part117"); simpl; apply map_id.
Qed.

End Verdict.

Lemma severity_eqb_eq (a b : ViolationSeverity) :
  severity_eqb a b = true <-> a = b.
Proof. destruct a, b; simpl; split; congruence. Qed.

Lemma no_blocking_filter (l : list ComplianceViolation) :
  (List.length (filter (fun v => severity_eqb (severity v) blocking) l) =? 0)%nat
  = true
  <-> noBlocking l.
Proof.
  unfold noBlocking. induction l as [|v l IH]; simpl.
  - split; [intros _ x [] | reflexivity].
  - destruct (severity_eqb (severity v) blocking) eqn:E; simpl.
    + split; [discriminate |].
      intros H. exfalso. apply (H v); [left; reflexivity |].
      apply severity_eqb_eq. exact E.
    + rewrite IH. split.
      * intros H x [Hx | Hx]; [subst x | apply H; exact Hx].
        intros Hb. rewrite Hb in E. discriminate.
      * intros H x Hx. apply H. right. exact Hx.
Qed.

Lemma isLegal_iff_noBlocking src st d cats :
  isLegal (LegalityEngine.validateDuty src st d cats) = true
  <-> noBlocking (violations (LegalityEngine.validateDuty src st d cats)).
Proof. rewrite isLegal_validateDuty. apply no_blocking_filter. Qed.

Lemma isLegal_false_of_blocking src st d cats x :
  In x (violations (LegalityEngine.validateDuty src st d cats)) ->
  severity x = blocking ->
  isLegal (LegalityEngine.validateDuty src st d cats) = false.
Proof.
  intros Hin Hs.
  destruct (isLegal (LegalityEngine.validateDuty src st d cats)) eqn:E;
    [| reflexivity].
  apply isLegal_iff_noBlocking in E. exfalso. exact (E x Hin Hs).
Qed.

(** Where a violation of the regulatory group can come from. *)
Lemma In_part117Violations st d x :
  In x (part117Violations st d)
  <-> LegalityEngine.checkFlightDutyPeriod d = Some x
      \/ LegalityEngine.checkFlightTime d = Some x
      \/ LegalityEngine.checkRestRequirements st d = Some x
      \/ In x (LegalityEngine.checkCumulativeLimits st d).
Proof.
  unfold part117Violations. rewrite in_app_iff, !In_push_opt. simpl. tauto.
Qed.

Lemma In_checkCumulativeLimits st d x :
  In x (LegalityEngine.checkCumulativeLimits st d)
  <-> (gtb (add (flightHoursMonth st) (totalFlightHours d)) (ofZ 100) = true
       /\ x = LegalityEngine.violation28Day st d)
      \/ (gtb (add (flightHoursYear st) (totalFlightHours d)) (ofZ 1000) = true
          /\ x = LegalityEngine.violation365Day st d).
Proof.
  unfold LegalityEngine.checkCumulativeLimits.
  change (maxFlightHours28Days LegalityEngine.part117Limits) with (ofZ 100).
  change (maxFlightHours365Days LegalityEngine.part117Limits) with (ofZ 1000).
  destruct (gtb (add (flightHoursMonth st) (totalFlightHours d)) (ofZ 100));
    destruct (gtb (add (flightHoursYear st) (totalFlightHours d)) (ofZ 1000));
    simpl; intuition (try discriminate; auto).
Qed.

(** Every finding of the regulatory group is blocking and of category
    [part117]. *)
Lemma part117Violations_blocking st d x :
  In x (part117Violations st d) ->
  category x = part117 /\ severity x = blocking.
Proof.
  rewrite In_part117Violations, In_checkCumulativeLimits.
  unfold LegalityEngine.checkFlightDutyPeriod, LegalityEngine.checkFlightTime,
    LegalityEngine.checkRestRequirements.
  intros [H | [H | [H | [[_ H] | [_ H]]]]].
  - destruct (gtb _ _); [| discriminate]. inversion H. split; reflexivity.
  - destruct (gtb _ _); [| discriminate]. inversion H. split; reflexivity.
  - destruct (ltb _ _); [| discriminate]. inversion H. split; reflexivity.
  - subst x. split; reflexivity.
  - subst x. split; reflexivity.
Qed.

Lemma In_assessFatigueRisk st d w :
  In w (LegalityEngine.assessFatigueRisk st d) ->
  category w = fatigue_risk /\ severity w = advisory
  /\ (rule w = "FRMS_CONSECUTIVE_DUTY" \/ rule w = "FRMS_LONG_DUTY").
Proof.
  unfold LegalityEngine.assessFatigueRisk.
  destruct (consecutiveDutyDays st >=? 5);
    destruct (gtb (totalDutyHours d) (ofZ 11)); simpl;
    intuition (subst; simpl; auto).
Qed.

Lemma checkWoclExposure_some d w :
  LegalityEngine.checkWoclExposure d = Some w -> w = LegalityEngine.woclWarning.
Proof.
  unfold LegalityEngine.checkWoclExposure.
  destruct (_ && _)%bool; congruence.
Qed.

(** Where a warning can come from. *)
Lemma In_warnings src st d cats w :
  In w (warnings (LegalityEngine.validateDuty src st d cats))
  <-> (In "part117" cats /\ LegalityEngine.checkWoclExposure d = Some w)
      \/ (In "fatigue_risk" cats /\ In w (LegalityEngine.assessFatigueRisk st d)).
Proof.
  rewrite warnings_validateDuty, in_app_iff.
  rewrite <- !includes_In.
  destruct (includes cats "part117"); destruct (includes cats "fatigue_risk");
    rewrite ?In_push_opt; simpl; intuition discriminate.
Qed.

Lemma In_violations src st d cats x :
  In x (violations (LegalityEngine.validateDuty src st d cats))
  <-> In "part117" cats /\ In x (part117Violations st d).
Proof.
  rewrite violations_validateDuty, <- includes_In.
  destruct (includes cats "part117"); simpl; intuition discriminate.
Qed.

(** ** C1 *)

(** C1. For every crew state, proposed duty and category list, the verdict
    is legal exactly when no violation is blocking.  Every finding of the
    fatigue-risk group (the circadian-low warning and the two advisories
    of [assessFatigueRisk]) has severity warning or advisory and is found
    in the warnings only: the violations hold no finding of category
    [fatigue_risk], and the legal flag is the same with or without the
    fatigue-risk category in the list. *)
Theorem validateDuty_legal_iff_no_blocking :
  forall (src : AuditSource) (st : CrewDutyState) (d : DutyPeriod)
         (cats : list string),
    let v := LegalityEngine.validateDuty src st d cats in
    (isLegal v = true <-> noBlocking (violations v))
    /\ (forall w, In w (warnings v) ->
          category w = fatigue_risk
          /\ (severity w = warning \/ severity w = advisory))
    /\ (forall x, In x (violations v) ->
          category x <> fatigue_risk /\ severity x = blocking)
    /\ (forall w, LegalityEngine.checkWoclExposure d = Some w \/
                  In w (LegalityEngine.assessFatigueRisk st d) ->
          (severity w = warning \/ severity w = advisory)
          /\ ~ In w (violations v))
    /\ isLegal v
       = isLegal (LegalityEngine.validateDuty src st d
                    (filter (fun c => negb (String.eqb c "fatigue_risk")) cats)).
Proof.
  intros src st d cats v. subst v.
  assert (Hw : forall w, LegalityEngine.checkWoclExposure d = Some w \/
                         In w (LegalityEngine.assessFatigueRisk st d) ->
               category w = fatigue_risk
               /\ (severity w = warning \/ severity w = advisory)).
  { intros w [H | H].
    - apply checkWoclExposure_some in H. subst w. split; [reflexivity | now left].
    - apply In_assessFatigueRisk in H. destruct H as [Hc [Hs _]].
      split; [exact Hc | now right]. }
  assert (Hv : forall x,
             In x (violations (LegalityEngine.validateDuty src st d cats)) ->
             category x = part117 /\ severity x = blocking).
  { intros x Hx. apply In_violations in Hx.
    apply (part117Violations_blocking st d). apply Hx. }
  split; [apply isLegal_iff_noBlocking |].
  split.
  { intros w Hin. apply In_warnings in Hin. apply Hw. tauto. }
  split.
  { intros x Hx. destruct (Hv x Hx) as [Hc Hs]. split; [congruence | exact Hs]. }
  split.
  { intros w H. destruct (Hw w H) as [Hc Hs]. split; [exact Hs |].
    intros Hin. destruct (Hv w Hin) as [Hc' _]. congruence. }
  rewrite !isLegal_validateDuty, !violations_validateDuty.
  assert (E : includes (filter (fun c => negb (String.eqb c "fatigue_risk")) cats)
                "part117" = includes cats "part117").
  { apply eq_true_iff_eq. rewrite !includes_In, filter_In.
    split; [tauto |]. intros H. split; [exact H | reflexivity]. }
  rewrite E. reflexivity.
Qed.

(* ================================================================== *)
(** * The checks of the regulatory group *)
(* ================================================================== *)

Lemma checkFlightDutyPeriod_some d x :
  LegalityEngine.checkFlightDutyPeriod d = Some x ->
  gt (totalDutyHours d) (ofZ 13)
  /\ rule x = "117.25(d)" /\ severity x = blocking
  /\ currentValue x = Some (totalDutyHours d) /\ limitValue x = Some (ofZ 13).
Proof.
  unfold LegalityEngine.checkFlightDutyPeriod.
  change (maxFlightDutyPeriod LegalityEngine.part117Limits) with (ofZ 13).
  destruct (gtb (totalDutyHours d) (ofZ 13)) eqn:E; [| discriminate].
  intros H. inversion H. apply gtb_gt in E. repeat split; assumption.
Qed.

Lemma checkFlightDutyPeriod_gt d :
  gt (totalDutyHours d) (ofZ 13) ->
  exists x, LegalityEngine.checkFlightDutyPeriod d = Some x.
Proof.
  intros H. apply gtb_gt in H. unfold LegalityEngine.checkFlightDutyPeriod.
  change (maxFlightDutyPeriod LegalityEngine.part117Limits) with (ofZ 13).
  rewrite H. eexists. reflexivity.
Qed.

Lemma checkFlightTime_some d x :
  LegalityEngine.checkFlightTime d = Some x ->
  gt (totalFlightHours d) (ofZ 9) /\ rule x = "117.11(a)".
Proof.
  unfold LegalityEngine.checkFlightTime.
  change (maxFlightTime LegalityEngine.part117Limits) with (ofZ 9).
  destruct (gtb (totalFlightHours d) (ofZ 9)) eqn:E; [| discriminate].
  intros H. inversion H. apply gtb_gt in E. split; [assumption | reflexivity].
Qed.

Lemma checkRestRequirements_some st d x :
  LegalityEngine.checkRestRequirements st d = Some x ->
  lt (LegalityEngine.restHours st d) (LegalityEngine.requiredRest st)
  /\ rule x = "117.25(b)" /\ severity x = blocking
  /\ currentValue x = Some (LegalityEngine.restHours st d)
  /\ limitValue x = Some (LegalityEngine.requiredRest st).
Proof.
  unfold LegalityEngine.checkRestRequirements.
  destruct (ltb (LegalityEngine.restHours st d) (LegalityEngine.requiredRest st))
    eqn:E; [| discriminate].
  intros H. inversion H. apply ltb_lt in E. repeat split; assumption.
Qed.

Lemma checkRestRequirements_lt st d :
  lt (LegalityEngine.restHours st d) (LegalityEngine.requiredRest st) ->
  exists x, LegalityEngine.checkRestRequirements st d = Some x.
Proof.
  intros H. apply ltb_lt in H. unfold LegalityEngine.checkRestRequirements.
  rewrite H. eexists. reflexivity.
Qed.

Lemma In_checkCumulativeLimits_rule st d x :
  In x (LegalityEngine.checkCumulativeLimits st d) -> rule x = "117.23(b)".
Proof.
  rewrite In_checkCumulativeLimits. intros [[_ H] | [_ H]]; subst; reflexivity.
Qed.

(** The rule of a violation tells the check it comes from. *)
Lemma part117Violations_by_rule st d x :
  In x (part117Violations st d) ->
  (rule x = "117.25(d)" /\ LegalityEngine.checkFlightDutyPeriod d = Some x)
  \/ (rule x = "117.11(a)" /\ LegalityEngine.checkFlightTime d = Some x)
  \/ (rule x = "117.25(b)" /\ LegalityEngine.checkRestRequirements st d = Some x)
  \/ (rule x = "117.23(b)" /\ In x (LegalityEngine.checkCumulativeLimits st d)).
Proof.
  rewrite In_part117Violations. intros [H | [H | [H | H]]].
  - left. split; [| exact H]. apply checkFlightDutyPeriod_some in H. tauto.
  - right; left. split; [| exact H]. apply checkFlightTime_some in H. tauto.
  - right; right; left. split; [| exact H].
    apply checkRestRequirements_some in H. tauto.
  - right; right; right. split; [| exact H].
    apply In_checkCumulativeLimits_rule in H. exact H.
Qed.

(** The rest between two valid instants, compared with a number of hours. *)
Lemma restHours_valid st d te ts :
  timeValue (stateEndUtc st) = Some te ->
  timeValue (startTimeUtc d) = Some ts ->
  LegalityEngine.restHours st d
  = Fin ((inject_Z ts - inject_Z te) / inject_Z 3600000).
Proof.
  intros He Hs. unfold LegalityEngine.restHours, Date_ofString.
  rewrite He, Hs. reflexivity.
Qed.

Lemma hours_lt_iff (ts te n : Z) :
  ((inject_Z ts - inject_Z te) / inject_Z 3600000 < inject_Z n)%Q
  <-> ts - te < n * 3600000.
Proof.
  unfold Qlt, Qdiv, Qmult, Qinv, Qminus, Qplus, Qopp, inject_Z. simpl.
  split; intros H; lia.
Qed.

Lemma restHours_lt_iff st d te ts (n : Z) :
  timeValue (stateEndUtc st) = Some te ->
  timeValue (startTimeUtc d) = Some ts ->
  lt (LegalityEngine.restHours st d) (ofZ n) <-> ts - te < n * 3600000.
Proof.
  intros He Hs. rewrite (restHours_valid st d te ts He Hs).
  unfold lt, gt, ofZ. apply hours_lt_iff.
Qed.

Lemma requiredRest_cases st :
  LegalityEngine.requiredRest st
  = if consecutiveDutyDays st >=? 3 then ofZ 12 else ofZ 10.
Proof. reflexivity. Qed.

(** ** C2 *)

(** C2. With the category [part117] in the list, the verdict holds a
    violation of the duty-length rule 117.25(d) exactly when
    [totalDutyHours] is greater than 13; such a violation is blocking and
    carries [totalDutyHours] as its observed value and 13 as its limit;
    and whenever [totalDutyHours] is greater than 13 the verdict is not
    legal, whatever the crew state and the other checks. *)
Theorem duty_length_violation_iff_over_13 :
  forall (src : AuditSource) (st : CrewDutyState) (d : DutyPeriod)
         (cats : list string),
    In "part117" cats ->
    (hasRule "117.25(d)"
       (violations (LegalityEngine.validateDuty src st d cats))
     <-> gt (totalDutyHours d) (ofZ 13))
    /\ (forall x,
          In x (violations (LegalityEngine.validateDuty src st d cats)) ->
          rule x = "117.25(d)" ->
          severity x = blocking
          /\ currentValue x = Some (totalDutyHours d)
          /\ limitValue x = Some (ofZ 13))
    /\ (gt (totalDutyHours d) (ofZ 13) ->
        isLegal (LegalityEngine.validateDuty src st d cats) = false).
Proof.
  intros src st d cats Hc.
  assert (Hfields : forall x,
             In x (violations (LegalityEngine.validateDuty src st d cats)) ->
             rule x = "117.25(d)" ->
             gt (totalDutyHours d) (ofZ 13)
             /\ severity x = blocking
             /\ currentValue x = Some (totalDutyHours d)
             /\ limitValue x = Some (ofZ 13)).
  { intros x Hx Hr. apply In_violations in Hx. destruct Hx as [_ Hx].
    apply part117Violations_by_rule in Hx.
    destruct Hx as [[_ H] | [[H _] | [[H _] | [H _]]]];
      [| rewrite H in Hr; discriminate ..].
    apply checkFlightDutyPeriod_some in H. tauto. }
  assert (Hemit : gt (totalDutyHours d) (ofZ 13) ->
                  exists x,
                    In x (violations (LegalityEngine.validateDuty src st d cats))
                    /\ rule x = "117.25(d)" /\ severity x = blocking).
  { intros Hgt. destruct (checkFlightDutyPeriod_gt d Hgt) as [x Hx].
    exists x. split.
    - apply In_violations. split; [exact Hc |].
      apply In_part117Violations. left. exact Hx.
    - apply checkFlightDutyPeriod_some in Hx. tauto. }
  split; [| split].
  - split.
    + intros [x [Hx Hr]]. apply (Hfields x Hx Hr).
    + intros Hgt. destruct (Hemit Hgt) as [x [Hx [Hr _]]]. exists x. tauto.
  - intros x Hx Hr. destruct (Hfields x Hx Hr) as [_ H]. exact H.
  - intros Hgt. destruct (Hemit Hgt) as [x [Hx [_ Hs]]].
    exact (isLegal_false_of_blocking src st d cats x Hx Hs).
Qed.

Lemma duty_length_violation_iff_over_13_witness :
  In "part117" ["part117"]
  /\ ((hasRule "117.25(d)"
         (violations
            (LegalityEngine.validateDuty src0
               (Sample.state "10001" "ORD" RESERVE 2 62)
               (Sample.duty Sample.D1_1300 14 9) ["part117"]))
       <-> gt (ofZ 14) (ofZ 13))
      /\ isLegal
           (LegalityEngine.validateDuty src0
              (Sample.state "10001" "ORD" RESERVE 2 62)
              (Sample.duty Sample.D1_1300 14 9) ["part117"]) = false).
Proof.
  split; [left; reflexivity |].
  destruct (duty_length_violation_iff_over_13 src0
              (Sample.state "10001" "ORD" RESERVE 2 62)
              (Sample.duty Sample.D1_1300 14 9) ["part117"]
              (or_introl eq_refl)) as [H1 [_ H3]].
  split; [exact H1 |]. apply H3. reflexivity.
Defined.

(** ** C3 *)

(** C3. With the category [part117] in the list: the required rest is 12
    hours when [consecutiveDutyDays] is at least 3 and 10 hours otherwise;
    the observed rest is the start of the proposed duty minus the end of
    the crew state, in hours; the verdict holds a violation of the rest
    rule 117.25(b) exactly when the observed rest is less than the
    required rest, and that violation is blocking and carries the observed
    and the required rest.  A negative observed rest gives the violation
    (and a verdict, the function being total), and a rest of 11 hours
    gives no rest violation below 3 consecutive duty days and a rest
    violation, hence an illegal verdict, from 3 on. *)
Theorem rest_violation_iff_below_required :
  forall (src : AuditSource) (st : CrewDutyState) (d : DutyPeriod)
         (cats : list string),
    In "part117" cats ->
    LegalityEngine.requiredRest st
      = (if consecutiveDutyDays st >=? 3 then ofZ 12 else ofZ 10)
    /\ (forall te ts,
          timeValue (stateEndUtc st) = Some te ->
          timeValue (startTimeUtc d) = Some ts ->
          LegalityEngine.restHours st d
          = Fin ((inject_Z ts - inject_Z te) / inject_Z 3600000))
    /\ (hasRule "117.25(b)"
          (violations (LegalityEngine.validateDuty src st d cats))
        <-> lt (LegalityEngine.restHours st d) (LegalityEngine.requiredRest st))
    /\ (forall x,
          In x (violations (LegalityEngine.validateDuty src st d cats)) ->
          rule x = "117.25(b)" ->
          severity x = blocking
          /\ currentValue x = Some (LegalityEngine.restHours st d)
          /\ limitValue x = Some (LegalityEngine.requiredRest st))
    /\ (lt (LegalityEngine.restHours st d) (LegalityEngine.requiredRest st) ->
        isLegal (LegalityEngine.validateDuty src st d cats) = false)
    /\ (lt (LegalityEngine.restHours st d) (ofZ 0) ->
        hasRule "117.25(b)"
          (violations (LegalityEngine.validateDuty src st d cats))
        /\ isLegal (LegalityEngine.validateDuty src st d cats) = false)
    /\ (forall te,
          timeValue (stateEndUtc st) = Some te ->
          timeValue (startTimeUtc d) = Some (te + 11 * 3600000) ->
          (consecutiveDutyDays st < 3 ->
           ~ hasRule "117.25(b)"
               (violations (LegalityEngine.validateDuty src st d cats)))
          /\ (3 <= consecutiveDutyDays st ->
              hasRule "117.25(b)"
                (violations (LegalityEngine.validateDuty src st d cats))
              /\ isLegal (LegalityEngine.validateDuty src st d cats) = false)).
Proof.
  intros src st d cats Hc.
  assert (Hfields : forall x,
             In x (violations (LegalityEngine.validateDuty src st d cats)) ->
             rule x = "117.25(b)" ->
             lt (LegalityEngine.restHours st d) (LegalityEngine.requiredRest st)
             /\ severity x = blocking
             /\ currentValue x = Some (LegalityEngine.restHours st d)
             /\ limitValue x = Some (LegalityEngine.requiredRest st)).
  { intros x Hx Hr. apply In_violations in Hx. destruct Hx as [_ Hx].
    apply part117Violations_by_rule in Hx.
    destruct Hx as [[H _] | [[H _] | [[_ H] | [H _]]]];
      try (rewrite H in Hr; discriminate).
    apply checkRestRequirements_some in H. tauto. }
  assert (Hemit :
            lt (LegalityEngine.restHours st d) (LegalityEngine.requiredRest st) ->
            hasRule "117.25(b)"
              (violations (LegalityEngine.validateDuty src st d cats))
            /\ isLegal (LegalityEngine.validateDuty src st d cats) = false).
  { intros Hlt. destruct (checkRestRequirements_lt st d Hlt) as [x Hx].
    assert (Hin : In x (violations (LegalityEngine.validateDuty src st d cats))).
    { apply In_violations. split; [exact Hc |].
      apply In_part117Violations. right; right; left. exact Hx. }
    apply checkRestRequirements_some in Hx. destruct Hx as [_ [Hr [Hs _]]].
    split; [exists x; tauto |].
    exact (isLegal_false_of_blocking src st d cats x Hin Hs). }
  assert (Hiff : hasRule "117.25(b)"
                   (violations (LegalityEngine.validateDuty src st d cats))
                 <-> lt (LegalityEngine.restHours st d)
                        (LegalityEngine.requiredRest st)).
  { split.
    - intros [x [Hx Hr]]. apply (Hfields x Hx Hr).
    - intros Hlt. apply (Hemit Hlt). }
  split; [apply requiredRest_cases |].
  split; [intros te ts; apply restHours_valid |].
  split; [exact Hiff |].
  split; [intros x Hx Hr; destruct (Hfields x Hx Hr) as [_ H]; exact H |].
  split; [intros Hlt; apply (Hemit Hlt) |].
  split.
  - intros Hneg. apply Hemit.
    rewrite requiredRest_cases.
    destruct (LegalityEngine.restHours st d) as [|q]; [destruct Hneg |].
    unfold lt, gt, ofZ in *.
    destruct (consecutiveDutyDays st >=? 3);
      (eapply Qlt_trans; [exact Hneg | reflexivity]).
  - intros te He Hs. split.
    + intros Hd. rewrite Hiff, requiredRest_cases.
      destruct (Z.geb_spec (consecutiveDutyDays st) 3) as [G | G]; [lia |].
      rewrite (restHours_lt_iff st d te _ 10 He Hs). lia.
    + intros Hd. apply Hemit. rewrite requiredRest_cases.
      destruct (Z.geb_spec (consecutiveDutyDays st) 3) as [G | G]; [| lia].
      rewrite (restHours_lt_iff st d te _ 12 He Hs). lia.
Qed.

Lemma rest_violation_iff_below_required_witness :
  In "part117" ["part117"; "fatigue_risk"]
  /\ ~ hasRule "117.25(b)"
         (violations
            (LegalityEngine.validateDuty src0
               (Sample.state "10001" "ORD" RESERVE 2 62)
               (Sample.duty (Sample.D_2000 + 11 * 3600000) (13 # 2) 5)
               ["part117"; "fatigue_risk"]))
  /\ hasRule "117.25(b)"
       (violations
          (LegalityEngine.validateDuty src0
             (Sample.state "10001" "ORD" RESERVE 3 62)
             (Sample.duty (Sample.D_2000 + 11 * 3600000) (13 # 2) 5)
             ["part117"; "fatigue_risk"]))
  /\ isLegal
       (LegalityEngine.validateDuty src0
          (Sample.state "10001" "ORD" RESERVE 3 62)
          (Sample.duty (Sample.D_2000 + 11 * 3600000) (13 # 2) 5)
          ["part117"; "fatigue_risk"]) = false.
Proof.
  split; [left; reflexivity |].
  split.
  - apply (rest_violation_iff_below_required src0
             (Sample.state "10001" "ORD" RESERVE 2 62)
             (Sample.duty (Sample.D_2000 + 11 * 3600000) (13 # 2) 5)
             ["part117"; "fatigue_risk"] (or_introl eq_refl)
           ) with (te := Sample.D_2000); [reflexivity | reflexivity | simpl; lia].
  - apply (rest_violation_iff_below_required src0
             (Sample.state "10001" "ORD" RESERVE 3 62)
             (Sample.duty (Sample.D_2000 + 11 * 3600000) (13 # 2) 5)
             ["part117"; "fatigue_risk"] (or_introl eq_refl)
           ) with (te := Sample.D_2000); [reflexivity | reflexivity | simpl; lia].
Defined.

(** ** C4 *)

Lemma violation28Day_not_365 st d :
  LegalityEngine.violation28Day st d <> LegalityEngine.violation365Day st d.
Proof. intros H. apply (f_equal description) in H. discriminate H. Qed.

Lemma In_violation28Day src st d cats :
  In "part117" cats ->
  In (LegalityEngine.violation28Day st d)
     (violations (LegalityEngine.validateDuty src st d cats))
  <-> gt (add (flightHoursMonth st) (totalFlightHours d)) (ofZ 100).
Proof.
  intros Hc. rewrite In_violations, <- gtb_gt. split.
  - intros [_ H]. apply part117Violations_by_rule in H.
    destruct H as [[H _] | [[H _] | [[H _] | [_ H]]]];
      try discriminate H.
    apply In_checkCumulativeLimits in H. destruct H as [[H _] | [_ H]].
    + exact H.
    + exfalso. exact (violation28Day_not_365 st d H).
  - intros H. split; [exact Hc |]. apply In_part117Violations.
    right; right; right. apply In_checkCumulativeLimits. left. tauto.
Qed.

(** C4. With the category [part117] in the list, the verdict holds the
    blocking violation of the 28-day cap, whose observed value is
    [flightHoursMonth + totalFlightHours] and whose limit is 100, exactly
    when that sum is greater than 100, and the verdict is then not legal.
    With 98 hours flown and 5 proposed the verdict is not legal; with a
    projected total of exactly 100 the violation is absent. *)
Theorem cap28_violation_iff_over_100 :
  forall (src : AuditSource) (st : CrewDutyState) (d : DutyPeriod)
         (cats : list string),
    In "part117" cats ->
    (In (LegalityEngine.violation28Day st d)
        (violations (LegalityEngine.validateDuty src st d cats))
     <-> gt (add (flightHoursMonth st) (totalFlightHours d)) (ofZ 100))
    /\ (severity (LegalityEngine.violation28Day st d) = blocking
        /\ currentValue (LegalityEngine.violation28Day st d)
           = Some (add (flightHoursMonth st) (totalFlightHours d))
        /\ limitValue (LegalityEngine.violation28Day st d) = Some (ofZ 100))
    /\ (forall x,
          In x (violations (LegalityEngine.validateDuty src st d cats)) ->
          description x = "28-day flight hour limit would be exceeded" ->
          x = LegalityEngine.violation28Day st d)
    /\ (gt (add (flightHoursMonth st) (totalFlightHours d)) (ofZ 100) ->
        isLegal (LegalityEngine.validateDuty src st d cats) = false)
    /\ (flightHoursMonth st = Fin 98 -> totalFlightHours d = Fin 5 ->
        In (LegalityEngine.violation28Day st d)
           (violations (LegalityEngine.validateDuty src st d cats))
        /\ isLegal (LegalityEngine.validateDuty src st d cats) = false)
    /\ (forall a b,
          flightHoursMonth st = Fin a -> totalFlightHours d = Fin b ->
          (a + b == 100)%Q ->
          ~ In (LegalityEngine.violation28Day st d)
               (violations (LegalityEngine.validateDuty src st d cats))).
Proof.
  intros src st d cats Hc.
  assert (Hill : gt (add (flightHoursMonth st) (totalFlightHours d)) (ofZ 100) ->
                 isLegal (LegalityEngine.validateDuty src st d cats) = false).
  { intros Hgt. apply (In_violation28Day src st d cats Hc) in Hgt.
    exact (isLegal_false_of_blocking src st d cats _ Hgt eq_refl). }
  split; [apply In_violation28Day; exact Hc |].
  split; [repeat split |].
  split.
  { intros x Hx Hd. apply In_violations in Hx. destruct Hx as [_ Hx].
    apply In_part117Violations in Hx.
    unfold LegalityEngine.checkFlightDutyPeriod, LegalityEngine.checkFlightTime,
      LegalityEngine.checkRestRequirements in Hx.
    destruct Hx as [H | [H | [H | H]]].
    - destruct (gtb _ _); [| discriminate]. inversion H; subst x. discriminate Hd.
    - destruct (gtb _ _); [| discriminate]. inversion H; subst x. discriminate Hd.
    - destruct (ltb _ _); [| discriminate]. inversion H; subst x. discriminate Hd.
    - apply In_checkCumulativeLimits in H. destruct H as [[_ H] | [_ H]].
      + exact H.
      + subst x. discriminate Hd. }
  split; [exact Hill |].
  split.
  { intros Hm Hf.
    assert (Hgt : gt (add (flightHoursMonth st) (totalFlightHours d)) (ofZ 100)).
    { rewrite Hm, Hf. reflexivity. }
    split; [apply (In_violation28Day src st d cats Hc); exact Hgt | exact (Hill Hgt)]. }
  intros a b Hm Hf Hsum Hin.
  apply (In_violation28Day src st d cats Hc) in Hin.
  rewrite Hm, Hf in Hin. unfold gt, add, ofZ in Hin.
  rewrite Hsum in Hin. exact (Qlt_irrefl _ Hin).
Qed.

(** Scenario D at a concrete input: the 28-day violation is the only
    finding. *)
Lemma cap28_violation_iff_over_100_witness :
  In "part117" ["part117"; "fatigue_risk"]
  /\ violations
       (LegalityEngine.validateDuty src0
          (Sample.state "10001" "ORD" RESERVE 2 98)
          (Sample.duty Sample.D1_1300 (13 # 2) 5) ["part117"; "fatigue_risk"])
     = [LegalityEngine.violation28Day
          (Sample.state "10001" "ORD" RESERVE 2 98)
          (Sample.duty Sample.D1_1300 (13 # 2) 5)]
  /\ isLegal
       (LegalityEngine.validateDuty src0
          (Sample.state "10001" "ORD" RESERVE 2 98)
          (Sample.duty Sample.D1_1300 (13 # 2) 5) ["part117"; "fatigue_risk"])
     = false
  /\ ~ In (LegalityEngine.violation28Day
             (Sample.state "10001" "ORD" RESERVE 2 95)
             (Sample.duty Sample.D1_1300 (13 # 2) 5))
          (violations
             (LegalityEngine.validateDuty src0
                (Sample.state "10001" "ORD" RESERVE 2 95)
                (Sample.duty Sample.D1_1300 (13 # 2) 5)
                ["part117"; "fatigue_risk"])).
Proof.
  split; [left; reflexivity |].
  split; [reflexivity |].
  split.
  - apply (cap28_violation_iff_over_100 src0
             (Sample.state "10001" "ORD" RESERVE 2 98)
             (Sample.duty Sample.D1_1300 (13 # 2) 5)
             ["part117"; "fatigue_risk"] (or_introl eq_refl));
      reflexivity.
  - apply (cap28_violation_iff_over_100 src0
             (Sample.state "10001" "ORD" RESERVE 2 95)
             (Sample.duty Sample.D1_1300 (13 # 2) 5)
             ["part117"; "fatigue_risk"] (or_introl eq_refl))
      with (a := 95%Q) (b := 5%Q); reflexivity.
Defined.

(* ================================================================== *)
(** * The circadian-low check *)
(* ================================================================== *)

Lemma geb_ofZ (a b : Z) : geb (ofZ a) (ofZ b) = (b <=? a).
Proof.
  unfold geb, ofZ. apply eq_true_iff_eq.
  rewrite Qle_bool_iff, Z.leb_le, <- Zle_Qle. reflexivity.
Qed.

Lemma checkWoclExposure_valid d t :
  timeValue (startTimeUtc d) = Some t ->
  LegalityEngine.checkWoclExposure d
  = if ((2 <=? utcHour t) && (utcHour t <=? 6))%bool
    then Some LegalityEngine.woclWarning else None.
Proof.
  intros Ht. unfold LegalityEngine.checkWoclExposure, Date_ofString, leb.
  rewrite Ht. unfold getUTCHours. rewrite !geb_ofZ. reflexivity.
Qed.

Lemma checkWoclExposure_invalid d :
  timeValue (startTimeUtc d) = None ->
  LegalityEngine.checkWoclExposure d = None.
Proof.
  intros Ht. unfold LegalityEngine.checkWoclExposure, Date_ofString.
  rewrite Ht. reflexivity.
Qed.

(** A warning of the rule [FRMS_WOCL] comes from [checkWoclExposure]. *)
Lemma wocl_in_warnings src st d cats :
  hasRule "FRMS_WOCL" (warnings (LegalityEngine.validateDuty src st d cats))
  <-> In "part117" cats
      /\ LegalityEngine.checkWoclExposure d = Some LegalityEngine.woclWarning.
Proof.
  split.
  - intros [w [Hin Hr]]. apply In_warnings in Hin.
    destruct Hin as [[Hc Hw] | [_ Hw]].
    + pose proof (checkWoclExposure_some d w Hw) as E. subst w. tauto.
    + apply In_assessFatigueRisk in Hw. destruct Hw as [_ [_ [H | H]]];
        rewrite H in Hr; discriminate.
  - intros [Hc Hw]. exists LegalityEngine.woclWarning.
    split; [| reflexivity]. apply In_warnings. left. tauto.
Qed.

(** ** C5 *)

(** C5, as the claim states it, fails: with the fatigue-risk category in
    the list and a start at 03:00 UTC, inside the window 02:00-06:00, the
    verdict holds no circadian-low warning (it holds no warning at all),
    because the check runs under the category [part117]. *)
Lemma wocl_not_under_fatigue_risk :
  In "fatigue_risk" ["fatigue_risk"]
  /\ timeValue (startTimeUtc (Sample.duty (Sample.D_2000 + 31 * msPerHour) (13 # 2) 5))
     = Some (Sample.D_2000 + 31 * msPerHour)
  /\ iso_text (Sample.D_2000 + 31 * msPerHour) = "2024-12-16T03:00:00.000Z"
  /\ utcHour (Sample.D_2000 + 31 * msPerHour) = 3
  /\ warnings
       (LegalityEngine.validateDuty src0
          (Sample.state "10001" "ORD" RESERVE 2 62)
          (Sample.duty (Sample.D_2000 + 31 * msPerHour) (13 # 2) 5)
          ["fatigue_risk"]) = []
  /\ ~ hasRule "FRMS_WOCL"
         (warnings
            (LegalityEngine.validateDuty src0
               (Sample.state "10001" "ORD" RESERVE 2 62)
               (Sample.duty (Sample.D_2000 + 31 * msPerHour) (13 # 2) 5)
               ["fatigue_risk"])).
Proof.
  split; [left; reflexivity |].
  split; [reflexivity |].
  split; [reflexivity |].
  split; [reflexivity |].
  split; [reflexivity |].
  intros [w [Hin _]]. exact Hin.
Qed.

(** C5, amended.  The circadian-low check runs under the category
    [part117].  With that category in the list, a start whose hour of the
    day (UTC) is 2, 3, 4 or 5 puts the circadian-low warning in the
    warnings; a start whose hour is below 2 or above 6, or a start that is
    no valid instant, gives no circadian-low warning; without the category
    [part117] there is none either.  The warning has severity warning, is
    never among the violations, and the legal flag is decided by the
    violations alone. *)
Theorem wocl_warning_by_utc_hour :
  forall (src : AuditSource) (st : CrewDutyState) (d : DutyPeriod)
         (cats : list string),
    (forall t,
       In "part117" cats ->
       timeValue (startTimeUtc d) = Some t ->
       2 <= utcHour t <= 5 ->
       In LegalityEngine.woclWarning
          (warnings (LegalityEngine.validateDuty src st d cats)))
    /\ (forall t,
          timeValue (startTimeUtc d) = Some t ->
          utcHour t < 2 \/ 6 < utcHour t ->
          ~ hasRule "FRMS_WOCL"
              (warnings (LegalityEngine.validateDuty src st d cats)))
    /\ (timeValue (startTimeUtc d) = None ->
        ~ hasRule "FRMS_WOCL"
            (warnings (LegalityEngine.validateDuty src st d cats)))
    /\ (~ In "part117" cats ->
        ~ hasRule "FRMS_WOCL"
            (warnings (LegalityEngine.validateDuty src st d cats)))
    /\ rule LegalityEngine.woclWarning = "FRMS_WOCL"
    /\ severity LegalityEngine.woclWarning = warning
    /\ ~ hasRule "FRMS_WOCL"
           (violations (LegalityEngine.validateDuty src st d cats))
    /\ (isLegal (LegalityEngine.validateDuty src st d cats) = true
        <-> noBlocking (violations (LegalityEngine.validateDuty src st d cats))).
Proof.
  intros src st d cats.
  split.
  { intros t Hc Ht Hh. apply In_warnings. left. split; [exact Hc |].
    rewrite (checkWoclExposure_valid d t Ht).
    replace (2 <=? utcHour t) with true by (symmetry; apply Z.leb_le; lia).
    replace (utcHour t <=? 6) with true by (symmetry; apply Z.leb_le; lia).
    reflexivity. }
  split.
  { intros t Ht Hh Hw. apply wocl_in_warnings in Hw. destruct Hw as [_ Hw].
    rewrite (checkWoclExposure_valid d t Ht) in Hw.
    destruct (Z.leb_spec 2 (utcHour t)); destruct (Z.leb_spec (utcHour t) 6);
      simpl in Hw; try discriminate Hw; lia. }
  split.
  { intros Ht Hw. apply wocl_in_warnings in Hw. destruct Hw as [_ Hw].
    rewrite (checkWoclExposure_invalid d Ht) in Hw. discriminate Hw. }
  split.
  { intros Hc Hw. apply wocl_in_warnings in Hw. tauto. }
  split; [reflexivity |].
  split; [reflexivity |].
  split; [| apply isLegal_iff_noBlocking].
  intros [x [Hx Hr]]. apply In_violations in Hx. destruct Hx as [_ Hx].
  apply part117Violations_by_rule in Hx.
  destruct Hx as [[H _] | [[H _] | [[H _] | [H _]]]];
    rewrite H in Hr; discriminate.
Qed.

Lemma wocl_warning_by_utc_hour_witness :
  In "part117" ["part117"]
  /\ utcHour (Sample.D_2000 + 31 * msPerHour) = 3
  /\ In LegalityEngine.woclWarning
        (warnings
           (LegalityEngine.validateDuty src0
              (Sample.state "10001" "ORD" RESERVE 2 62)
              (Sample.duty (Sample.D_2000 + 31 * msPerHour) (13 # 2) 5)
              ["part117"]))
  /\ utcHour Sample.D1_1300 = 13
  /\ ~ hasRule "FRMS_WOCL"
         (warnings
            (LegalityEngine.validateDuty src0
               (Sample.state "10001" "ORD" RESERVE 2 62)
               (Sample.duty Sample.D1_1300 (13 # 2) 5)
               ["part117"])).
Proof.
  split; [left; reflexivity |].
  split; [reflexivity |].
  split.
  - apply (wocl_warning_by_utc_hour src0
             (Sample.state "10001" "ORD" RESERVE 2 62)
             (Sample.duty (Sample.D_2000 + 31 * msPerHour) (13 # 2) 5)
             ["part117"]) with (t := Sample.D_2000 + 31 * msPerHour).
    + left; reflexivity.
    + reflexivity.
    + vm_compute. split; discriminate.
  - split; [reflexivity |].
    apply (wocl_warning_by_utc_hour src0
             (Sample.state "10001" "ORD" RESERVE 2 62)
             (Sample.duty Sample.D1_1300 (13 # 2) 5)
             ["part117"]) with (t := Sample.D1_1300).
    + reflexivity.
    + right. vm_compute. reflexivity.
Defined.

(* ================================================================== *)
(** * The category list *)
(* ================================================================== *)

Lemma includes_filter_evaluated (cats : list string) (c : string) :
  evaluatedName c = true ->
  includes (filter evaluatedName cats) c = includes cats c.
Proof.
  intros Hc. apply eq_true_iff_eq. rewrite !includes_In, filter_In. tauto.
Qed.

(** ** C9 *)

(** C9, as the claim states it, fails in its last part: for the list
    holding the one unknown name "bogus" no check runs (no violation, no
    warning), and yet [checksPerformed] lists "bogus". *)
Lemma checksPerformed_lists_unknown_name :
  evaluatedName "bogus" = false
  /\ violations
       (LegalityEngine.validateDuty src0
          (Sample.state "10001" "ORD" RESERVE 6 98)
          (Sample.duty (Sample.D_2000 + 7 * msPerHour) 14 10) ["bogus"]) = []
  /\ warnings
       (LegalityEngine.validateDuty src0
          (Sample.state "10001" "ORD" RESERVE 6 98)
          (Sample.duty (Sample.D_2000 + 7 * msPerHour) 14 10) ["bogus"]) = []
  /\ checksPerformed
       (LegalityEngine.validateDuty src0
          (Sample.state "10001" "ORD" RESERVE 6 98)
          (Sample.duty (Sample.D_2000 + 7 * msPerHour) 14 10) ["bogus"])
     = ["bogus"]
  /\ checksPerformed
       (LegalityEngine.validateDuty src0
          (Sample.state "10001" "ORD" RESERVE 6 98)
          (Sample.duty (Sample.D_2000 + 7 * msPerHour) 14 10) ["bogus"])
     <> filter evaluatedName ["bogus"].
Proof.
  repeat split; try reflexivity. discriminate.
Qed.

(** C9, amended.  For every category list, names other than "part117" and
    "fatigue_risk" are ignored: the violations, the warnings and the legal
    flag are those of the list with these names removed, and a list of
    such names only gives a legal verdict without findings.  The field
    [checksPerformed] is the category list as it was passed, ignored names
    included, so that it holds every category that was evaluated. *)
Theorem unknown_categories_ignored_and_echoed :
  forall (src : AuditSource) (st : CrewDutyState) (d : DutyPeriod)
         (cats : list string),
    violations (LegalityEngine.validateDuty src st d cats)
      = violations (LegalityEngine.validateDuty src st d
                      (filter evaluatedName cats))
    /\ warnings (LegalityEngine.validateDuty src st d cats)
       = warnings (LegalityEngine.validateDuty src st d
                     (filter evaluatedName cats))
    /\ isLegal (LegalityEngine.validateDuty src st d cats)
       = isLegal (LegalityEngine.validateDuty src st d
                    (filter evaluatedName cats))
    /\ ((forall c, In c cats -> evaluatedName c = false) ->
        violations (LegalityEngine.validateDuty src st d cats) = []
        /\ warnings (LegalityEngine.validateDuty src st d cats) = []
        /\ isLegal (LegalityEngine.validateDuty src st d cats) = true)
    /\ checksPerformed (LegalityEngine.validateDuty src st d cats) = cats
    /\ (forall c, In c cats -> evaluatedName c = true ->
          In c (checksPerformed (LegalityEngine.validateDuty src st d cats))).
Proof.
  intros src st d cats.
  assert (Ev : violations (LegalityEngine.validateDuty src st d cats)
               = violations (LegalityEngine.validateDuty src st d
                               (filter evaluatedName cats))).
  { rewrite !violations_validateDuty, includes_filter_evaluated; reflexivity. }
  split; [exact Ev |].
  split.
  { rewrite !warnings_validateDuty, !includes_filter_evaluated; reflexivity. }
  split.
  { rewrite !isLegal_validateDuty, Ev. reflexivity. }
  split.
  { intros Hall.
    assert (H1 : includes cats "part117" = false).
    { apply includes_false. intros H. apply Hall in H. discriminate H. }
    assert (H2 : includes cats "fatigue_risk" = false).
    { apply includes_false. intros H. apply Hall in H. discriminate H. }
    rewrite isLegal_validateDuty, violations_validateDuty,
      warnings_validateDuty, H1, H2. repeat split; reflexivity. }
  split; [apply checksPerformed_validateDuty |].
  intros c Hc _. rewrite checksPerformed_validateDuty. exact Hc.
Qed.

Lemma unknown_categories_ignored_and_echoed_witness :
  (forall c, In c ["cba"; "bogus"] -> evaluatedName c = false)
  /\ violations
       (LegalityEngine.validateDuty src0
          (Sample.state "10001" "ORD" RESERVE 6 98)
          (Sample.duty (Sample.D_2000 + 7 * msPerHour) 14 10)
          ["cba"; "bogus"]) = []
  /\ checksPerformed
       (LegalityEngine.validateDuty src0
          (Sample.state "10001" "ORD" RESERVE 6 98)
          (Sample.duty (Sample.D_2000 + 7 * msPerHour) 14 10)
          ["cba"; "bogus"]) = ["cba"; "bogus"].
Proof.
  assert (H : forall c, In c ["cba"; "bogus"] -> evaluatedName c = false).
  { intros c [E | [E | []]]; subst c; reflexivity. }
  split; [exact H |].
  split.
  - apply (unknown_categories_ignored_and_echoed src0
             (Sample.state "10001" "ORD" RESERVE 6 98)
             (Sample.duty (Sample.D_2000 + 7 * msPerHour) 14 10)
             ["cba"; "bogus"]). exact H.
  - apply (unknown_categories_ignored_and_echoed src0
             (Sample.state "10001" "ORD" RESERVE 6 98)
             (Sample.duty (Sample.D_2000 + 7 * msPerHour) 14 10)
             ["cba"; "bogus"]).
Defined.

(* ================================================================== *)
(** * [sort] with a comparator [key b - key a], and [slice0] *)
(* ================================================================== *)

Section SortByKey.

Context {A : Type}.
Variable key : A -> Z.

Local Abbreviation cmp := (cmpByKey key).
Local Abbreviation ge := (keyGe key).

Lemma In_insert (x z : A) (l : list A) :
  In z (insert cmp x l) <-> z = x \/ In z l.
Proof.
  induction l as [|y l IH]; simpl.
  - intuition.
  - destruct (cmp x y <=? 0); simpl; [intuition |].
    rewrite IH. intuition.
Qed.

Lemma insert_perm (x : A) (l : list A) : Permutation (insert cmp x l) (x :: l).
Proof.
  induction l as [|y l IH]; simpl.
  - apply Permutation_refl.
  - destruct (cmp x y <=? 0).
    + apply Permutation_refl.
    + eapply Permutation_trans; [apply perm_skip; exact IH | apply perm_swap].
Qed.

Lemma sort_perm (l : list A) : Permutation (sort cmp l) l.
Proof.
  induction l as [|x l IH]; simpl.
  - apply perm_nil.
  - eapply Permutation_trans; [apply insert_perm | apply perm_skip; exact IH].
Qed.

Lemma insert_sorted (x : A) (l : list A) :
  StronglySorted ge l -> StronglySorted ge (insert cmp x l).
Proof.
  induction 1 as [|y l Hs IH Hall]; simpl.
  - constructor; [constructor | constructor].
  - destruct (Z.leb_spec (cmp x y) 0) as [Hle | Hgt].
    + constructor; [constructor; assumption |].
      constructor; [unfold keyGe, cmpByKey in *; lia |].
      rewrite Forall_forall in *. intros z Hz. specialize (Hall z Hz).
      unfold keyGe, cmpByKey in *. lia.
    + constructor; [exact IH |].
      rewrite Forall_forall in *. intros z Hz.
      apply In_insert in Hz. destruct Hz as [Hz | Hz].
      * subst z. unfold keyGe, cmpByKey in *. lia.
      * apply Hall. exact Hz.
Qed.

Lemma sort_sorted (l : list A) : StronglySorted ge (sort cmp l).
Proof.
  induction l as [|x l IH]; simpl.
  - constructor.
  - apply insert_sorted. exact IH.
Qed.

(** Stability: the elements of one key keep their order. *)
Lemma insert_stable (s : Z) (x : A) (l : list A) :
  filter (fun c => key c =? s) (insert cmp x l)
  = filter (fun c => key c =? s) (x :: l).
Proof.
  induction l as [|y l IH]; simpl.
  - reflexivity.
  - destruct (Z.leb_spec (cmp x y) 0) as [Hle | Hgt].
    + reflexivity.
    + simpl. rewrite IH. simpl.
      destruct (Z.eqb_spec (key y) s) as [Ey | Ey];
        destruct (Z.eqb_spec (key x) s) as [Ex | Ex];
        try reflexivity.
      unfold cmpByKey in Hgt. lia.
Qed.

Lemma sort_stable (s : Z) (l : list A) :
  filter (fun c => key c =? s) (sort cmp l) = filter (fun c => key c =? s) l.
Proof.
  induction l as [|x l IH]; simpl.
  - reflexivity.
  - rewrite insert_stable. simpl. rewrite IH. reflexivity.
Qed.

(** Lists that agree on the keys are sorted alike. *)
Variable R : A -> A -> Prop.
Hypothesis R_key : forall a b, R a b -> key a = key b.

Lemma insert_Forall2 (x x' : A) (l l' : list A) :
  R x x' -> Forall2 R l l' ->
  Forall2 R (insert cmp x l) (insert cmp x' l').
Proof.
  intros Hx. induction 1 as [|y y' l l' Hy Hl IH]; simpl.
  - constructor; [exact Hx | constructor].
  - unfold cmpByKey. rewrite (R_key _ _ Hx), (R_key _ _ Hy).
    destruct (key y' - key x' <=? 0).
    + constructor; [exact Hx |]. constructor; assumption.
    + constructor; [exact Hy | exact IH].
Qed.

Lemma sort_Forall2 (l l' : list A) :
  Forall2 R l l' -> Forall2 R (sort cmp l) (sort cmp l').
Proof.
  induction 1 as [|x x' l l' Hx Hl IH]; simpl.
  - constructor.
  - apply insert_Forall2; assumption.
Qed.

End SortByKey.

Lemma In_firstn {A : Type} (n : nat) (l : list A) (x : A) :
  In x (firstn n l) -> In x l.
Proof.
  revert n. induction l as [|y l IH]; intros [|n]; simpl; try tauto.
  intros [H | H]; [left; exact H | right; exact (IH n H)].
Qed.

Lemma firstn_sorted {A : Type} (R : A -> A -> Prop) (n : nat) (l : list A) :
  StronglySorted R l -> StronglySorted R (firstn n l).
Proof.
  intros H. revert n. induction H as [|x l Hs IH Hall]; intros [|n]; simpl;
    try constructor.
  - apply IH.
  - rewrite Forall_forall in *. intros z Hz. apply Hall.
    exact (In_firstn n l z Hz).
Qed.

Lemma firstn_Forall2 {A B : Type} (R : A -> B -> Prop) (n : nat) l l' :
  Forall2 R l l' -> Forall2 R (firstn n l) (firstn n l').
Proof.
  intros H. revert n. induction H; intros [|n]; simpl; constructor; auto.
Qed.

Lemma slice0_nonneg {A : Type} (l : list A) (e : Z) :
  0 <= e -> slice0 l e = firstn (Z.to_nat e) l.
Proof.
  intros He. unfold slice0.
  destruct (Z.ltb_spec e 0) as [H | H]; [lia |].
  destruct (Z.le_gt_cases e (Z.of_nat (List.length l))) as [Hle | Hgt].
  - rewrite Z.min_l by exact Hle. reflexivity.
  - rewrite Z.min_r by lia. rewrite Nat2Z.id.
    rewrite firstn_all. symmetry. apply firstn_all2. lia.
Qed.

Lemma slice0_length {A : Type} (l : list A) (e : Z) :
  0 <= e ->
  Z.of_nat (List.length (slice0 l e)) = Z.min e (Z.of_nat (List.length l)).
Proof.
  intros He. rewrite slice0_nonneg by exact He.
  rewrite length_firstn. lia.
Qed.

Lemma slice0_nil {A : Type} (e : Z) : slice0 (@nil A) e = [].
Proof. unfold slice0. apply firstn_nil. Qed.

Lemma In_slice0 {A : Type} (l : list A) (e : Z) (x : A) :
  In x (slice0 l e) -> In x l.
Proof. unfold slice0. apply In_firstn. Qed.

Lemma Forall2_length_eq {A B : Type} (R : A -> B -> Prop) l l' :
  Forall2 R l l' -> List.length l = List.length l'.
Proof. induction 1; simpl; congruence. Qed.

(* ================================================================== *)
(** * The replacement search *)
(* ================================================================== *)

Lemma Date_ofNumber_add (t c : Z) :
  Date_ofNumber (add (ofZ t) (ofZ c))
  = if Z.abs (t + c) <=? maxTime then Some (t + c) else None.
Proof.
  unfold Date_ofNumber, add, ofZ.
  assert (E : Qle_bool (Qabs (inject_Z t + inject_Z c)) (inject_Z maxTime)
              = (Z.abs (t + c) <=? maxTime)).
  { apply eq_true_iff_eq. rewrite Qle_bool_iff, Z.leb_le.
    unfold Qle, Qabs, Qplus, inject_Z. simpl. unfold maxTime. lia. }
  rewrite E. simpl Qnum. simpl Qden.
  rewrite !Z.mul_1_r, Z.quot_1_r. reflexivity.
Qed.

Lemma Date_ofNumber_sub (t c : Z) :
  Date_ofNumber (sub (ofZ t) (ofZ c))
  = if Z.abs (t - c) <=? maxTime then Some (t - c) else None.
Proof.
  unfold Date_ofNumber, sub, ofZ.
  assert (E : Qle_bool (Qabs (inject_Z t - inject_Z c)) (inject_Z maxTime)
              = (Z.abs (t - c) <=? maxTime)).
  { apply eq_true_iff_eq. rewrite Qle_bool_iff, Z.leb_le.
    unfold Qle, Qabs, Qminus, Qplus, Qopp, inject_Z. simpl. unfold maxTime. lia. }
  rewrite E. simpl Qnum. simpl Qden.
  rewrite Z.quot_1_r. replace (t * 1 + - c * 1) with (t - c) by lia. reflexivity.
Qed.

Lemma Date_ofNumber_add_half (t : Z) :
  Date_ofNumber (add (ofZ t) (Fin ((11 # 2) * 60 * 60 * 1000)%Q))
  = if Z.abs (t + 19800000) <=? maxTime then Some (t + 19800000) else None.
Proof.
  unfold Date_ofNumber, add, ofZ.
  assert (E : Qle_bool (Qabs (inject_Z t + ((11 # 2) * 60 * 60 * 1000)%Q))
                (inject_Z maxTime)
              = (Z.abs (t + 19800000) <=? maxTime)).
  { apply eq_true_iff_eq. rewrite Qle_bool_iff, Z.leb_le.
    unfold Qle, Qabs, Qplus, Qmult, inject_Z. simpl. unfold maxTime. lia. }
  rewrite E. simpl Qnum. simpl Qden.
  replace (t * 2 + 39600000) with ((t + 19800000) * 2) by lia.
  rewrite Z.quot_mul by lia. reflexivity.
Qed.

(** The proposed duty is built for every departure that is a valid
    instant, away from the two ends of the range of time values. *)
Lemma proposedDutyFor_valid (dep : IsoString) (t : Z) :
  timeValue dep = Some t ->
  3600000 - maxTime <= t <= maxTime - 19800000 ->
  CrewStateService.proposedDutyFor dep = Ok (proposedDutyAt dep t).
Proof.
  intros Ht Hr. unfold CrewStateService.proposedDutyFor, Date_ofString.
  rewrite Ht. unfold getTime.
  rewrite Date_ofNumber_add, Date_ofNumber_sub, Date_ofNumber_add_half.
  unfold maxTime in *.
  replace (Z.abs (t + 5 * 60 * 60 * 1000) <=? 8640000000000000) with true
    by (symmetry; apply Z.leb_le; lia).
  replace (Z.abs (t - 1 * 60 * 60 * 1000) <=? 8640000000000000) with true
    by (symmetry; apply Z.leb_le; lia).
  replace (Z.abs (t + 19800000) <=? 8640000000000000) with true
    by (symmetry; apply Z.leb_le; lia).
  reflexivity.
Qed.

Lemma proposedDutyFor_invalid (dep : IsoString) :
  timeValue dep = None ->
  CrewStateService.proposedDutyFor dep = Throw (RangeError "Invalid time value").
Proof.
  intros Ht. unfold CrewStateService.proposedDutyFor, Date_ofString.
  rewrite Ht. reflexivity.
Qed.

Lemma isLegal_src_irrelevant src src' st d cats :
  isLegal (LegalityEngine.validateDuty src st d cats)
  = isLegal (LegalityEngine.validateDuty src' st d cats).
Proof. rewrite !isLegal_validateDuty, !violations_validateDuty. reflexivity. Qed.

Lemma warnings_src_irrelevant src src' st d cats :
  warnings (LegalityEngine.validateDuty src st d cats)
  = warnings (LegalityEngine.validateDuty src' st d cats).
Proof. rewrite !warnings_validateDuty. reflexivity. Qed.

Lemma rankScore_src_irrelevant src src' member r dep pd cats :
  idAndScore (CrewStateService.candidateOf member r dep pd
                (LegalityEngine.validateDuty src r pd cats))
  = idAndScore (CrewStateService.candidateOf member r dep pd
                  (LegalityEngine.validateDuty src' r pd cats)).
Proof.
  unfold idAndScore, CrewStateService.candidateOf,
    CrewStateService.calculateRankScore. simpl.
  rewrite (warnings_src_irrelevant src src'). reflexivity.
Qed.

Lemma candidateFor_same_ranking svc dep pd r c c' :
  candidateFor svc dep pd r c -> candidateFor svc dep pd r c' ->
  idAndScore c = idAndScore c'.
Proof.
  intros [m [s [Hm Hc]]] [m' [s' [Hm' Hc']]].
  rewrite Hm in Hm'. inversion Hm'. subst m' c c'.
  apply rankScore_src_irrelevant.
Qed.

Lemma In_reservePool svc params r :
  In r (CrewStateService.reservePool svc params) ->
  In r (Map_values (crewStates svc)) /\ stateType r = RESERVE
  /\ exists member,
       Map_get (crewMembers svc) (employeeId r) = Some member
       /\ base member = p_base params
       /\ position member = p_position params
       /\ In (p_aircraftType params) (aircraftTypes (qualifications member)).
Proof.
  unfold CrewStateService.reservePool, CrewStateService.getCrewByState.
  rewrite !filter_In. intros [[Hin Hty] Hm].
  split; [exact Hin |]. split; [destruct (stateType r); try discriminate; reflexivity |].
  unfold CrewStateService.matchesRequest in Hm.
  destruct (Map_get (crewMembers svc) (employeeId r)) as [member|];
    [| discriminate].
  exists member. apply andb_true_iff in Hm. destruct Hm as [Hm Ha].
  apply andb_true_iff in Hm. destruct Hm as [Hb Hp].
  apply String.eqb_eq in Hb. apply String.eqb_eq in Hp.
  apply includes_In in Ha. tauto.
Qed.

(** The loop, when the proposed duty can be built: one candidate for each
    reserve that passes the check, in the order of the reserves. *)
Lemma collectCandidates_ok svc dep pd env :
  CrewStateService.proposedDutyFor dep = Ok pd ->
  forall reserves calls,
    exists cands,
      CrewStateService.collectCandidates svc dep env calls reserves = Ok cands
      /\ Forall2 (candidateFor svc dep pd)
           (filter (fun r =>
                      match Map_get (crewMembers svc) (employeeId r) with
                      | Some _ => legalFor pd r
                      | None => false
                      end) reserves)
           cands.
Proof.
  intros Hpd. induction reserves as [|r rs IH]; intros calls;
    cbn [CrewStateService.collectCandidates filter].
  - exists []. split; [reflexivity | constructor].
  - destruct (Map_get (crewMembers svc) (employeeId r)) as [member|] eqn:Hm.
    + rewrite Hpd. cbn [bind]. unfold legalFor.
      rewrite (isLegal_src_irrelevant src0 (env calls)).
      destruct (isLegal (LegalityEngine.validateDuty (env calls) r pd
                           ["part117"; "fatigue_risk"])) eqn:Hl; cbn [negb].
      * destruct (IH (S calls)) as [cands [Hc Hf]]. rewrite Hc. cbn [bind].
        eexists. split; [reflexivity |].
        constructor; [| exact Hf].
        exists member, (env calls). split; [exact Hm | reflexivity].
      * apply IH.
    + apply IH.
Qed.

(** Each candidate of the loop stems from a reserve of the list. *)
Lemma collectCandidates_In svc dep env :
  forall reserves calls cands c,
    CrewStateService.collectCandidates svc dep env calls reserves = Ok cands ->
    In c cands ->
    exists r member pd src,
      In r reserves
      /\ Map_get (crewMembers svc) (employeeId r) = Some member
      /\ CrewStateService.proposedDutyFor dep = Ok pd
      /\ c = CrewStateService.candidateOf member r dep pd
               (LegalityEngine.validateDuty src r pd ["part117"; "fatigue_risk"]).
Proof.
  induction reserves as [|r rs IH]; intros calls cands c;
    cbn [CrewStateService.collectCandidates].
  - intros H. inversion H. intros [].
  - destruct (Map_get (crewMembers svc) (employeeId r)) as [member|] eqn:Hm.
    + destruct (CrewStateService.proposedDutyFor dep) as [pd|e] eqn:Hpd;
        cbn [bind]; [| discriminate].
      destruct (isLegal (LegalityEngine.validateDuty (env calls) r pd
                           ["part117"; "fatigue_risk"])); cbn [negb].
      * destruct (CrewStateService.collectCandidates svc dep env (S calls) rs)
          as [cs|e] eqn:Hc; cbn [bind]; [| discriminate].
        intros H. inversion H. subst cands. intros [Hin | Hin].
        -- exists r, member, pd, (env calls).
           split; [left; reflexivity |]. split; [exact Hm |].
           split; [reflexivity | symmetry; exact Hin].
        -- destruct (IH (S calls) cs c Hc Hin) as [r' [m' [pd' [s' H']]]].
           exists r', m', pd', s'. destruct H' as [Hr H'].
           split; [right; exact Hr | exact H'].
      * intros H Hin.
        destruct (IH (S calls) cands c H Hin) as [r' [m' [pd' [s' H']]]].
        exists r', m', pd', s'. destruct H' as [Hr H'].
        split; [right; exact Hr | exact H'].
    + intros H Hin.
      destruct (IH calls cands c H Hin) as [r' [m' [pd' [s' H']]]].
      exists r', m', pd', s'. destruct H' as [Hr H'].
      split; [right; exact Hr | exact H'].
Qed.

Lemma filter_pool_members svc params pd :
  filter (fun r =>
            match Map_get (crewMembers svc) (employeeId r) with
            | Some _ => legalFor pd r
            | None => false
            end) (CrewStateService.reservePool svc params)
  = legalPool svc params pd.
Proof.
  unfold legalPool. apply filter_ext_in. intros r Hr.
  apply In_reservePool in Hr. destruct Hr as [_ [_ [m [Hm _]]]].
  rewrite Hm. reflexivity.
Qed.

Lemma findReplacementCrew_unfold svc params env :
  CrewStateService.findReplacementCrew svc params env
  = bind (CrewStateService.collectCandidates svc (p_departureTimeUtc params)
            env 0 (CrewStateService.reservePool svc params))
      (fun candidates =>
         Ok (slice0 (sort CrewStateService.byRankScoreDesc candidates)
               (capOf params))).
Proof. reflexivity. Qed.

Lemma candidateFor_score_range svc dep pd r c :
  candidateFor svc dep pd r c -> 0 <= rankScore c <= 100.
Proof.
  intros [m [s [_ Hc]]]. subst c.
  unfold CrewStateService.candidateOf, CrewStateService.calculateRankScore.
  cbn [rankScore]. lia.
Qed.

Lemma Forall2_common_left {A B : Type} (P : A -> B -> Prop) (R : B -> B -> Prop)
  (l : list A) (a b : list B) :
  (forall x y z, P x y -> P x z -> R y z) ->
  Forall2 P l a -> Forall2 P l b -> Forall2 R a b.
Proof.
  intros HR Ha. revert b. induction Ha as [|x y l a Hxy Ha IH]; intros b Hb.
  - inversion Hb. constructor.
  - inversion Hb as [|x' z l' b' Hxz Hb']. subst.
    constructor; [exact (HR x y z Hxy Hxz) | apply IH; exact Hb'].
Qed.

Lemma Forall2_In_r {A B : Type} (P : A -> B -> Prop) l l' (y : B) :
  Forall2 P l l' -> In y l' -> exists x, In x l /\ P x y.
Proof.
  induction 1 as [|x y' l l' Hxy Hl IH]; simpl.
  - intros [].
  - intros [E | Hin].
    + subst y'. exists x. split; [left; reflexivity | exact Hxy].
    + destruct (IH Hin) as [x' [Hx' Hp]]. exists x'. split; [right |]; assumption.
Qed.

Lemma Forall2_map_eq {A B : Type} (f : A -> B) (l l' : list A) :
  Forall2 (fun a b => f a = f b) l l' -> map f l = map f l'.
Proof. induction 1; simpl; congruence. Qed.

(** The search, when the proposed duty can be built. *)
Lemma findReplacementCrew_ok svc params env pd :
  CrewStateService.proposedDutyFor (p_departureTimeUtc params) = Ok pd ->
  exists cands,
    Forall2 (candidateFor svc (p_departureTimeUtc params) pd)
      (legalPool svc params pd) cands
    /\ CrewStateService.findReplacementCrew svc params env
       = Ok (slice0 (sort CrewStateService.byRankScoreDesc cands) (capOf params)).
Proof.
  intros Hpd.
  destruct (collectCandidates_ok svc (p_departureTimeUtc params) pd env Hpd
              (CrewStateService.reservePool svc params) 0%nat)
    as [cands [Hc Hf]].
  rewrite filter_pool_members in Hf.
  exists cands. split; [exact Hf |].
  rewrite findReplacementCrew_unfold, Hc. reflexivity.
Qed.

(** ** C6 *)

(** C6, as the claim states it, fails: two reserves of equal rank score
    come back in the order in which the store holds them, 20002 before
    10001, and not by ascending employee id. *)
Lemma ties_keep_store_order :
  map fst (crewStates Sample.twoReserves) = ["20002"; "10001"]
  /\ mapResult (map idAndScore)
       (CrewStateService.findReplacementCrew Sample.twoReserves
          (Sample.request (isoOf Sample.D1_1300) (Some 5) None) Sample.env)
     = Ok [("20002", 100); ("10001", 100)]
  /\ String.ltb "10001" "20002" = true.
Proof. repeat split; vm_compute; reflexivity. Qed.

(** C6, amended.  For every replacement search whose departure time is a
    valid instant, at least one hour after the earliest and at least five
    and a half hours before the latest instant a [Date] can hold (so that
    the report, end and release times of the proposed duty are valid
    instants too), and whose cap N is not negative, with M reserves
    passing the legality check:
    [findReplacementCrew] returns a list of exactly min(N, M) candidates,
    the first ones of the candidates sorted by rank score; the scores do
    not increase along the list and lie between 0 and 100; the sort is a
    permutation that keeps candidates of equal rank score in the order of
    the store (the order in which the search met them); and the employee
    ids and scores returned do not depend on the clock or on the random
    source. *)
Theorem ranking_is_sorted_stable_and_capped :
  forall (svc : ServiceState) (params : FindParams) (env : nat -> AuditSource)
         (t : Z),
    timeValue (p_departureTimeUtc params) = Some t ->
    3600000 - maxTime <= t <= maxTime - 19800000 ->
    0 <= capOf params ->
    exists cands l,
      CrewStateService.findReplacementCrew svc params env = Ok l
      /\ Forall2 (candidateFor svc (p_departureTimeUtc params)
                    (proposedDutyAt (p_departureTimeUtc params) t))
           (legalPool svc params (proposedDutyAt (p_departureTimeUtc params) t))
           cands
      /\ l = firstn (Z.to_nat (capOf params))
               (sort CrewStateService.byRankScoreDesc cands)
      /\ Z.of_nat (List.length l)
         = Z.min (capOf params)
             (Z.of_nat
                (List.length
                   (legalPool svc params
                      (proposedDutyAt (p_departureTimeUtc params) t))))
      /\ StronglySorted scoreGe l
      /\ Forall (fun c => 0 <= rankScore c <= 100) l
      /\ Permutation (sort CrewStateService.byRankScoreDesc cands) cands
      /\ (forall s,
            filter (fun c => rankScore c =? s)
              (sort CrewStateService.byRankScoreDesc cands)
            = filter (fun c => rankScore c =? s) cands)
      /\ (forall env',
            exists l',
              CrewStateService.findReplacementCrew svc params env' = Ok l'
              /\ map idAndScore l' = map idAndScore l).
Proof.
  intros svc params env t Ht Hr Hcap.
  pose proof (proposedDutyFor_valid _ t Ht Hr) as Hpd.
  set (pd := proposedDutyAt (p_departureTimeUtc params) t) in *.
  destruct (findReplacementCrew_ok svc params env pd Hpd) as [cands [Hf Hres]].
  rewrite (slice0_nonneg _ _ Hcap) in Hres.
  exists cands, (firstn (Z.to_nat (capOf params))
                   (sort CrewStateService.byRankScoreDesc cands)).
  split; [exact Hres |]. split; [exact Hf |]. split; [reflexivity |].
  assert (Hperm : Permutation (sort CrewStateService.byRankScoreDesc cands) cands)
    by apply (sort_perm rankScore).
  split.
  { rewrite length_firstn, (Permutation_length Hperm),
      (Forall2_length_eq _ _ _ Hf). lia. }
  split.
  { apply firstn_sorted. apply (sort_sorted rankScore). }
  split.
  { rewrite Forall_forall. intros c Hc. apply In_firstn in Hc.
    apply (Permutation_in _ Hperm) in Hc.
    destruct (Forall2_In_r _ _ _ c Hf Hc) as [r [_ Hrc]].
    exact (candidateFor_score_range _ _ _ _ _ Hrc). }
  split; [exact Hperm |].
  split; [intros s; apply (sort_stable rankScore) |].
  intros env'.
  destruct (findReplacementCrew_ok svc params env' pd Hpd) as [cands' [Hf' Hres']].
  rewrite (slice0_nonneg _ _ Hcap) in Hres'.
  eexists. split; [exact Hres' |].
  apply Forall2_map_eq. apply firstn_Forall2.
  apply (sort_Forall2 rankScore).
  - intros a b E. apply (f_equal snd) in E. exact E.
  - apply (Forall2_common_left _ _ _ _ _
             (candidateFor_same_ranking svc (p_departureTimeUtc params) pd) Hf' Hf).
Qed.

Lemma ranking_is_sorted_stable_and_capped_witness :
  timeValue (p_departureTimeUtc
               (Sample.request (isoOf Sample.D1_1300) (Some 1) None))
  = Some Sample.D1_1300
  /\ 3600000 - maxTime <= Sample.D1_1300 <= maxTime - 19800000
  /\ 0 <= capOf (Sample.request (isoOf Sample.D1_1300) (Some 1) None)
  /\ exists l,
       CrewStateService.findReplacementCrew Sample.twoReserves
         (Sample.request (isoOf Sample.D1_1300) (Some 1) None) Sample.env
       = Ok l
       /\ Z.of_nat (List.length l)
          = Z.min 1
              (Z.of_nat
                 (List.length
                    (legalPool Sample.twoReserves
                       (Sample.request (isoOf Sample.D1_1300) (Some 1) None)
                       (proposedDutyAt (isoOf Sample.D1_1300) Sample.D1_1300))))
       /\ StronglySorted scoreGe l.
Proof.
  assert (Hr : 3600000 - maxTime <= Sample.D1_1300 <= maxTime - 19800000)
    by (vm_compute; split; discriminate).
  assert (Hc : 0 <= capOf (Sample.request (isoOf Sample.D1_1300) (Some 1) None))
    by (vm_compute; discriminate).
  split; [reflexivity |]. split; [exact Hr |]. split; [exact Hc |].
  destruct (ranking_is_sorted_stable_and_capped Sample.twoReserves
              (Sample.request (isoOf Sample.D1_1300) (Some 1) None)
              Sample.env Sample.D1_1300 eq_refl Hr Hc)
    as [cands [l [H1 [_ [_ [H4 [H5 _]]]]]]].
  exists l. split; [exact H1 |]. split; [exact H4 | exact H5].
Defined.

(** ** C7 *)

(** C7, as the claim states it, fails: with [includeDeadheadOptions] set
    to false and the base ORD requested, the reserve 10002, based at ORD
    and currently at DEN, is returned. *)
Lemma reserve_away_from_base_is_returned :
  p_includeDeadheadOptions
    (Sample.request (isoOf Sample.D1_1300) None (Some false)) = Some false
  /\ p_base (Sample.request (isoOf Sample.D1_1300) None (Some false)) = "ORD"
  /\ map (fun s => (employeeId s, currentLocation s))
       (Map_values (crewStates Sample.reserveAway)) = [("10002", "DEN")]
  /\ mapResult (map idAndLocation)
       (CrewStateService.findReplacementCrew Sample.reserveAway
          (Sample.request (isoOf Sample.D1_1300) None (Some false)) Sample.env)
     = Ok [("10002", "DEN")].
Proof. repeat split; vm_compute; reflexivity. Qed.

(** C7, amended.  [findReplacementCrew] does not read
    [includeDeadheadOptions]: the result is the same for every value of
    the flag.  The pool is restricted by the member record: every
    candidate returned stems from a crew state of type RESERVE whose
    member has the requested base as home base, the requested position
    and the requested aircraft type; the candidate reports the current
    location of that crew state, whatever it is, with no positioning
    required. *)
Theorem deadhead_flag_is_not_read :
  forall (svc : ServiceState) (params : FindParams) (env : nat -> AuditSource),
    (forall flag,
       CrewStateService.findReplacementCrew svc (withDeadheadFlag params flag) env
       = CrewStateService.findReplacementCrew svc params env)
    /\ (forall l c,
          CrewStateService.findReplacementCrew svc params env = Ok l ->
          In c l ->
          exists reserve member,
            In reserve (Map_values (crewStates svc))
            /\ stateType reserve = RESERVE
            /\ Map_get (crewMembers svc) (employeeId reserve) = Some member
            /\ base member = p_base params
            /\ position member = p_position params
            /\ In (p_aircraftType params) (aircraftTypes (qualifications member))
            /\ r_employeeId c = m_employeeId member
            /\ lg_currentLocation (logistics c) = currentLocation reserve
            /\ positioningRequired (logistics c) = false).
Proof.
  intros svc params env. split; [intros flag; reflexivity |].
  intros l c Hres Hin.
  rewrite findReplacementCrew_unfold in Hres.
  destruct (CrewStateService.collectCandidates svc (p_departureTimeUtc params)
              env 0 (CrewStateService.reservePool svc params))
    as [cands|e] eqn:Hc; cbn [bind] in Hres; [| discriminate].
  inversion Hres. subst l. apply In_slice0 in Hin.
  apply (Permutation_in _ (sort_perm rankScore cands)) in Hin.
  destruct (collectCandidates_In _ _ _ _ _ _ _ Hc Hin)
    as [r [m [pd [src [Hr [Hm [_ E]]]]]]].
  apply In_reservePool in Hr.
  destruct Hr as [Hv [Hty [m' [Hm' [Hb [Hp Ha]]]]]].
  rewrite Hm in Hm'. inversion Hm'. subst m'.
  exists r, m. subst c. repeat split; assumption.
Qed.

Lemma deadhead_flag_is_not_read_witness :
  CrewStateService.findReplacementCrew Sample.reserveAway
    (withDeadheadFlag (Sample.request (isoOf Sample.D1_1300) None None)
       (Some false)) Sample.env
  = CrewStateService.findReplacementCrew Sample.reserveAway
      (Sample.request (isoOf Sample.D1_1300) None None) Sample.env.
Proof.
  apply (deadhead_flag_is_not_read Sample.reserveAway
           (Sample.request (isoOf Sample.D1_1300) None None) Sample.env).
Defined.

(** ** C8 *)






(* ================================================================== *)
(** * The crew swap *)
(* ================================================================== *)

Lemma Map_get_set_same {V : Type} (m : Map V) (k : string) (v : V) :
  Map_get (Map_set m k v) k = Some v.
Proof.
  induction m as [|[k' v'] m IH]; simpl.
  - rewrite String.eqb_refl. reflexivity.
  - destruct (String.eqb k' k) eqn:E; simpl.
    + rewrite String.eqb_refl. reflexivity.
    + rewrite E. exact IH.
Qed.

Lemma Map_get_set_other {V : Type} (m : Map V) (k k0 : string) (v : V) :
  k <> k0 -> Map_get (Map_set m k v) k0 = Map_get m k0.
Proof.
  intros Hk. induction m as [|[k' v'] m IH]; simpl.
  - destruct (String.eqb_spec k k0); [contradiction | reflexivity].
  - destruct (String.eqb_spec k' k) as [E | E]; simpl.
    + subst k'. destruct (String.eqb_spec k k0); [contradiction | reflexivity].
    + rewrite IH. reflexivity.
Qed.

(** Outside the dry run the two duty states are replaced: first the
    original crew's, then the replacement crew's. *)
Lemma swap_executed_updates_store src input svc originalCrew replacementCrew :
  CrewStateService.getCrewStatus svc (originalCrewId input) = Some originalCrew ->
  CrewStateService.getCrewStatus svc (replacementCrewId input)
  = Some replacementCrew ->
  dryRun input <> Some true ->
  snd (Swap.executeCrewSwap src input svc)
  = CrewStateService.updateCrewState
      (CrewStateService.updateCrewState svc
         (Swap.newOriginalState (in_flightNumber input) originalCrew))
      (Swap.newReplacementState (in_flightNumber input)
         (effectiveTimeUtc input) replacementCrew)
  /\ CrewStateService.getCrewStatus (snd (Swap.executeCrewSwap src input svc))
       (employeeId replacementCrew)
     = Some (Swap.newReplacementState (in_flightNumber input)
               (effectiveTimeUtc input) replacementCrew).
Proof.
  intros Ho Hr Hd. unfold Swap.executeCrewSwap. rewrite Ho, Hr.
  assert (E : match dryRun input with Some b => b | None => false end = false).
  { destruct (dryRun input) as [[|]|]; [congruence | reflexivity | reflexivity]. }
  rewrite E. cbn [snd]. split; [reflexivity |].
  unfold CrewStateService.getCrewStatus, CrewStateService.updateCrewState.
  cbn [crewStates]. apply Map_get_set_same.
Qed.

(** ** C10 *)

(** C10. For every swap request whose original and replacement crew ids
    are both in the store, [executeCrewSwap] with [dryRun] true returns
    the preview (status pending, no rollback available, the four planned
    changes and the planned notifications) and leaves the service as it
    found it: the store after the call is the store before the call, so
    that every crew member's state is the same before and after. *)
Theorem dry_run_leaves_crew_states_unchanged :
  forall (src : SwapSource) (input : ExecuteCrewSwapInput) (svc : ServiceState)
         (originalCrew replacementCrew : CrewDutyState),
    CrewStateService.getCrewStatus svc (originalCrewId input)
    = Some originalCrew ->
    CrewStateService.getCrewStatus svc (replacementCrewId input)
    = Some replacementCrew ->
    dryRun input = Some true ->
    Swap.executeCrewSwap src input svc
    = (SwapPreview
         (Swap.generateTransactionId src)
         (iso_text (clockAtSwapTimestamp src))
         tx_pending true
         "Dry run completed successfully - no changes made"
         (Swap.plannedChanges input (iso_text (clockAtSwapTimestamp src))
            originalCrew replacementCrew)
         (Swap.plannedNotifications input)
         (Swap.calculateSwapCost originalCrew replacementCrew)
         false,
       svc)
    /\ snd (Swap.executeCrewSwap src input svc) = svc
    /\ (forall id,
          CrewStateService.getCrewStatus
            (snd (Swap.executeCrewSwap src input svc)) id
          = CrewStateService.getCrewStatus svc id)
    /\ List.length
         (Swap.plannedChanges input (iso_text (clockAtSwapTimestamp src))
            originalCrew replacementCrew) = 4%nat
    /\ Forall (fun n => n_status n = n_pending /\ sentAt n = None)
         (Swap.plannedNotifications input).
Proof.
  intros src input svc o r Ho Hr Hd.
  assert (E : Swap.executeCrewSwap src input svc
              = (SwapPreview
                   (Swap.generateTransactionId src)
                   (iso_text (clockAtSwapTimestamp src))
                   tx_pending true
                   "Dry run completed successfully - no changes made"
                   (Swap.plannedChanges input
                      (iso_text (clockAtSwapTimestamp src)) o r)
                   (Swap.plannedNotifications input)
                   (Swap.calculateSwapCost o r)
                   false,
                 svc)).
  { unfold Swap.executeCrewSwap. rewrite Ho, Hr, Hd. reflexivity. }
  split; [exact E |]. rewrite E. cbn [snd].
  split; [reflexivity |]. split; [reflexivity |]. split; [reflexivity |].
  unfold Swap.plannedNotifications.
  destruct (match notifyCrews input with Some b => b | None => true end).
  - repeat constructor.
  - constructor.
Qed.

Lemma dry_run_leaves_crew_states_unchanged_witness :
  CrewStateService.getCrewStatus Sample.dutyAndReserve
    (originalCrewId (Sample.swapInput (Some true))) <> None
  /\ CrewStateService.getCrewStatus Sample.dutyAndReserve
       (replacementCrewId (Sample.swapInput (Some true))) <> None
  /\ dryRun (Sample.swapInput (Some true)) = Some true
  /\ snd (Swap.executeCrewSwap Sample.swapSource (Sample.swapInput (Some true))
            Sample.dutyAndReserve)
     = Sample.dutyAndReserve
  /\ snd (Swap.executeCrewSwap Sample.swapSource (Sample.swapInput None)
            Sample.dutyAndReserve)
     <> Sample.dutyAndReserve.
Proof.
  split; [vm_compute; discriminate |].
  split; [vm_compute; discriminate |].
  split; [reflexivity |].
  split.
  - eapply (dry_run_leaves_crew_states_unchanged Sample.swapSource
              (Sample.swapInput (Some true)) Sample.dutyAndReserve);
      reflexivity.
  - vm_compute. discriminate.
Defined.

(* ================================================================== *)
(** * The scenarios of the specification, run on the model *)
(* ================================================================== *)

(** Scenario A: 17 hours of rest, 5.5 hours of duty, 4 of flight. *)
Example scenario_A_legal :
  let v := LegalityEngine.validateDuty src0
             (Sample.state "10001" "ORD" RESERVE 2 62)
             (Sample.duty Sample.D1_1300 (11 # 2) 4) ["part117"] in
  isLegal v = true /\ violations v = [].
Proof. split; reflexivity. Qed.

(** Scenario B: a duty of 14 hours with 9 hours of flight. *)
Example scenario_B_duty_overrun :
  let v := LegalityEngine.validateDuty src0
             (Sample.state "10001" "ORD" RESERVE 2 62)
             (Sample.duty Sample.D1_1300 14 9) ["part117"] in
  isLegal v = false
  /\ map (fun x => (rule x, currentValue x, limitValue x)) (violations v)
     = [("117.25(d)", Some (Fin 14), Some (Fin 13))].
Proof. split; reflexivity. Qed.

(** Scenario C: 3 hours of rest, and an overlap of 2 hours. *)
Example scenario_C_insufficient_rest :
  let v := LegalityEngine.validateDuty src0
             (Sample.state "10001" "ORD" RESERVE 2 62)
             (Sample.duty (Sample.D_2000 + 3 * msPerHour) (11 # 2) 4)
             ["part117"] in
  let w := LegalityEngine.validateDuty src0
             (Sample.state "10001" "ORD" RESERVE 2 62)
             (Sample.duty (Sample.D_2000 - 2 * msPerHour) (11 # 2) 4)
             ["part117"] in
  isLegal v = false
  /\ map rule (violations v) = ["117.25(b)"]
  /\ isLegal w = false
  /\ map rule (violations w) = ["117.25(b)"].
Proof. repeat split; reflexivity. Qed.

(** The tenth of an hour printed in a recommendation. *)
Example scenario_B_recommendation :
  map recommendation
    (violations
       (LegalityEngine.validateDuty src0
          (Sample.state "10001" "ORD" RESERVE 2 62)
          (Sample.duty Sample.D1_1300 14 9) ["part117"]))
  = [Some "Reduce duty by 1.0 hours or assign different crew"].
Proof. reflexivity. Qed.

(* ================================================================== *)
(** * Further properties of the legality engine *)
(* ================================================================== *)

Lemma checkFlightTime_fields d x :
  LegalityEngine.checkFlightTime d = Some x ->
  severity x = blocking
  /\ currentValue x = Some (totalFlightHours d) /\ limitValue x = Some (ofZ 9).
Proof.
  unfold LegalityEngine.checkFlightTime.
  destruct (gtb _ _); [| discriminate].
  intros H. inversion H. repeat split.
Qed.

Lemma checkFlightTime_gt d :
  gt (totalFlightHours d) (ofZ 9) ->
  exists x, LegalityEngine.checkFlightTime d = Some x.
Proof.
  intros H. apply gtb_gt in H. unfold LegalityEngine.checkFlightTime.
  change (maxFlightTime LegalityEngine.part117Limits) with (ofZ 9).
  rewrite H. eexists. reflexivity.
Qed.

(** X1. With the category [part117] in the list, the verdict holds a
    violation of the flight-time rule 117.11(a) exactly when
    [totalFlightHours] is greater than 9; the violation is blocking,
    carries [totalFlightHours] and the limit 9, and makes the verdict
    illegal. *)
Theorem flight_time_violation_iff_over_9 :
  forall (src : AuditSource) (st : CrewDutyState) (d : DutyPeriod)
         (cats : list string),
    In "part117" cats ->
    (hasRule "117.11(a)"
       (violations (LegalityEngine.validateDuty src st d cats))
     <-> gt (totalFlightHours d) (ofZ 9))
    /\ (forall x,
          In x (violations (LegalityEngine.validateDuty src st d cats)) ->
          rule x = "117.11(a)" ->
          severity x = blocking
          /\ currentValue x = Some (totalFlightHours d)
          /\ limitValue x = Some (ofZ 9))
    /\ (gt (totalFlightHours d) (ofZ 9) ->
        isLegal (LegalityEngine.validateDuty src st d cats) = false).
Proof.
  intros src st d cats Hc.
  assert (Hfrom : forall x,
             In x (violations (LegalityEngine.validateDuty src st d cats)) ->
             rule x = "117.11(a)" ->
             LegalityEngine.checkFlightTime d = Some x).
  { intros x Hx Hr. apply In_violations in Hx. destruct Hx as [_ Hx].
    apply part117Violations_by_rule in Hx.
    destruct Hx as [[H _] | [[_ H] | [[H _] | [H _]]]];
      try (rewrite H in Hr; discriminate).
    exact H. }
  assert (Hemit : gt (totalFlightHours d) (ofZ 9) ->
                  exists x,
                    In x (violations (LegalityEngine.validateDuty src st d cats))
                    /\ rule x = "117.11(a)" /\ severity x = blocking).
  { intros Hgt. destruct (checkFlightTime_gt d Hgt) as [x Hx].
    exists x. split.
    - apply In_violations. split; [exact Hc |].
      apply In_part117Violations. right; left. exact Hx.
    - split; [apply (checkFlightTime_some d x Hx) |
              apply (checkFlightTime_fields d x Hx)]. }
  split; [| split].
  - split.
    + intros [x [Hx Hr]]. apply (checkFlightTime_some d x (Hfrom x Hx Hr)).
    + intros Hgt. destruct (Hemit Hgt) as [x [Hx [Hr _]]]. exists x. tauto.
  - intros x Hx Hr. apply (checkFlightTime_fields d x (Hfrom x Hx Hr)).
  - intros Hgt. destruct (Hemit Hgt) as [x [Hx [_ Hs]]].
    exact (isLegal_false_of_blocking src st d cats x Hx Hs).
Qed.

Lemma flight_time_violation_iff_over_9_witness :
  In "part117" ["part117"]
  /\ hasRule "117.11(a)"
       (violations
          (LegalityEngine.validateDuty src0
             (Sample.state "10001" "ORD" RESERVE 2 62)
             (Sample.duty Sample.D1_1300 12 (19 # 2)) ["part117"]))
  /\ ~ hasRule "117.11(a)"
         (violations
            (LegalityEngine.validateDuty src0
               (Sample.state "10001" "ORD" RESERVE 2 62)
               (Sample.duty Sample.D1_1300 12 9) ["part117"])).
Proof.
  split; [left; reflexivity |].
  split.
  - apply (flight_time_violation_iff_over_9 src0
             (Sample.state "10001" "ORD" RESERVE 2 62)
             (Sample.duty Sample.D1_1300 12 (19 # 2)) ["part117"]
             (or_introl eq_refl)).
    reflexivity.
  - intros H.
    apply (flight_time_violation_iff_over_9 src0
             (Sample.state "10001" "ORD" RESERVE 2 62)
             (Sample.duty Sample.D1_1300 12 9) ["part117"]
             (or_introl eq_refl)) in H.
    vm_compute in H. discriminate H.
Defined.

Lemma In_violation365Day src st d cats :
  In "part117" cats ->
  In (LegalityEngine.violation365Day st d)
     (violations (LegalityEngine.validateDuty src st d cats))
  <-> gt (add (flightHoursYear st) (totalFlightHours d)) (ofZ 1000).
Proof.
  intros Hc. rewrite In_violations, <- gtb_gt. split.
  - intros [_ H]. apply part117Violations_by_rule in H.
    destruct H as [[H _] | [[H _] | [[H _] | [_ H]]]];
      try discriminate H.
    apply In_checkCumulativeLimits in H. destruct H as [[_ H] | [H _]].
    + exfalso. symmetry in H. exact (violation28Day_not_365 st d H).
    + exact H.
  - intros H. split; [exact Hc |]. apply In_part117Violations.
    right; right; right. apply In_checkCumulativeLimits. right. tauto.
Qed.

(** X2. With the category [part117] in the list, the verdict holds the
    violation of the 365-day cap, blocking, with observed value
    [flightHoursYear + totalFlightHours] and limit 1000, exactly when that
    sum is greater than 1000, and the verdict is then illegal.  Unlike the
    28-day violation it carries no recommendation, and both may be
    present together, the 28-day one first. *)
Theorem cap365_violation_iff_over_1000 :
  forall (src : AuditSource) (st : CrewDutyState) (d : DutyPeriod)
         (cats : list string),
    In "part117" cats ->
    (In (LegalityEngine.violation365Day st d)
        (violations (LegalityEngine.validateDuty src st d cats))
     <-> gt (add (flightHoursYear st) (totalFlightHours d)) (ofZ 1000))
    /\ (severity (LegalityEngine.violation365Day st d) = blocking
        /\ currentValue (LegalityEngine.violation365Day st d)
           = Some (add (flightHoursYear st) (totalFlightHours d))
        /\ limitValue (LegalityEngine.violation365Day st d) = Some (ofZ 1000)
        /\ recommendation (LegalityEngine.violation365Day st d) = None
        /\ recommendation (LegalityEngine.violation28Day st d) <> None)
    /\ (gt (add (flightHoursYear st) (totalFlightHours d)) (ofZ 1000) ->
        isLegal (LegalityEngine.validateDuty src st d cats) = false)
    /\ (gt (add (flightHoursMonth st) (totalFlightHours d)) (ofZ 100) ->
        gt (add (flightHoursYear st) (totalFlightHours d)) (ofZ 1000) ->
        LegalityEngine.checkCumulativeLimits st d
        = [LegalityEngine.violation28Day st d;
           LegalityEngine.violation365Day st d]).
Proof.
  intros src st d cats Hc.
  split; [apply In_violation365Day; exact Hc |].
  split; [repeat split; discriminate |].
  split.
  - intros Hgt. apply (In_violation365Day src st d cats Hc) in Hgt.
    exact (isLegal_false_of_blocking src st d cats _ Hgt eq_refl).
  - intros H28 H365. apply gtb_gt in H28. apply gtb_gt in H365.
    unfold LegalityEngine.checkCumulativeLimits.
    change (maxFlightHours28Days LegalityEngine.part117Limits) with (ofZ 100).
    change (maxFlightHours365Days LegalityEngine.part117Limits) with (ofZ 1000).
    rewrite H28, H365. reflexivity.
Qed.

Lemma cap365_violation_iff_over_1000_witness :
  In "part117" ["part117"]
  /\ violations
       (LegalityEngine.validateDuty src0
          {| employeeId := "10001";
             stateStartUtc := isoOf (Sample.D_2000 - 8 * msPerHour);
             stateEndUtc := isoOf Sample.D_2000;
             stateType := RESERVE;
             currentLocation := "ORD";
             dutyHoursCumulative := ofZ 40;
             restHoursCumulative := ofZ 24;
             flightHoursMonth := ofZ 60;
             flightHoursYear := ofZ 997;
             lastWoclExposure := None;
             consecutiveDutyDays := 1;
             assignedFlights := [];
             cds_reportTimeUtc := None |}
          (Sample.duty Sample.D1_1300 (13 # 2) 5) ["part117"])
     = [LegalityEngine.violation365Day
          {| employeeId := "10001";
             stateStartUtc := isoOf (Sample.D_2000 - 8 * msPerHour);
             stateEndUtc := isoOf Sample.D_2000;
             stateType := RESERVE;
             currentLocation := "ORD";
             dutyHoursCumulative := ofZ 40;
             restHoursCumulative := ofZ 24;
             flightHoursMonth := ofZ 60;
             flightHoursYear := ofZ 997;
             lastWoclExposure := None;
             consecutiveDutyDays := 1;
             assignedFlights := [];
             cds_reportTimeUtc := None |}
          (Sample.duty Sample.D1_1300 (13 # 2) 5)]
  /\ isLegal
       (LegalityEngine.validateDuty src0
          {| employeeId := "10001";
             stateStartUtc := isoOf (Sample.D_2000 - 8 * msPerHour);
             stateEndUtc := isoOf Sample.D_2000;
             stateType := RESERVE;
             currentLocation := "ORD";
             dutyHoursCumulative := ofZ 40;
             restHoursCumulative := ofZ 24;
             flightHoursMonth := ofZ 60;
             flightHoursYear := ofZ 997;
             lastWoclExposure := None;
             consecutiveDutyDays := 1;
             assignedFlights := [];
             cds_reportTimeUtc := None |}
          (Sample.duty Sample.D1_1300 (13 # 2) 5) ["part117"]) = false.
Proof.
  split; [left; reflexivity |].
  split; [reflexivity |].
  eapply (cap365_violation_iff_over_1000 src0 _ _ ["part117"]
            (or_introl eq_refl)).
  reflexivity.
Defined.

Lemma nil_iff_no_member {A : Type} (l : list A) :
  l = [] <-> forall x, ~ In x l.
Proof.
  split.
  - intros E x. rewrite E. intros [].
  - destruct l as [|a l]; [reflexivity |]. intros H.
    exfalso. apply (H a). left. reflexivity.
Qed.

Lemma part117Violations_nil_iff st d :
  part117Violations st d = [] <-> withinLimits st d.
Proof.
  rewrite nil_iff_no_member. unfold withinLimits. split.
  - intros Hno. repeat split; intros H.
    + destruct (checkFlightDutyPeriod_gt d H) as [x Hx].
      apply (Hno x). apply In_part117Violations. tauto.
    + destruct (checkFlightTime_gt d H) as [x Hx].
      apply (Hno x). apply In_part117Violations. tauto.
    + destruct (checkRestRequirements_lt st d H) as [x Hx].
      apply (Hno x). apply In_part117Violations. tauto.
    + apply (Hno (LegalityEngine.violation28Day st d)).
      apply In_part117Violations. right; right; right.
      apply In_checkCumulativeLimits. left. split; [apply gtb_gt; exact H | reflexivity].
    + apply (Hno (LegalityEngine.violation365Day st d)).
      apply In_part117Violations. right; right; right.
      apply In_checkCumulativeLimits. right. split; [apply gtb_gt; exact H | reflexivity].
  - intros [H1 [H2 [H3 [H4 H5]]]] x Hx.
    apply In_part117Violations in Hx. destruct Hx as [H | [H | [H | H]]].
    + apply checkFlightDutyPeriod_some in H. tauto.
    + apply checkFlightTime_some in H. tauto.
    + apply checkRestRequirements_some in H. tauto.
    + apply In_checkCumulativeLimits in H.
      destruct H as [[H _] | [H _]]; apply gtb_gt in H; tauto.
Qed.

Lemma isLegal_iff_no_violation src st d cats :
  isLegal (LegalityEngine.validateDuty src st d cats) = true
  <-> violations (LegalityEngine.validateDuty src st d cats) = [].
Proof.
  rewrite isLegal_iff_noBlocking, nil_iff_no_member. unfold noBlocking. split.
  - intros H x Hx. apply (H x Hx).
    apply In_violations in Hx. destruct Hx as [_ Hx].
    apply (part117Violations_blocking st d x Hx).
  - intros H x Hx. exfalso. exact (H x Hx).
Qed.

(** X3. A verdict is legal exactly when it has no violation at all (every
    violation the engine emits is blocking); and with the category
    [part117] in the list this is the case exactly when the duty is within
    the five limits: duty length at most 13, flight time at most 9, rest
    not below the required rest, projected 28-day hours at most 100 and
    projected 365-day hours at most 1000. *)
Theorem legal_iff_within_the_five_limits :
  forall (src : AuditSource) (st : CrewDutyState) (d : DutyPeriod)
         (cats : list string),
    (isLegal (LegalityEngine.validateDuty src st d cats) = true
     <-> violations (LegalityEngine.validateDuty src st d cats) = [])
    /\ (In "part117" cats ->
        (isLegal (LegalityEngine.validateDuty src st d cats) = true
         <-> withinLimits st d)).
Proof.
  intros src st d cats. split; [apply isLegal_iff_no_violation |].
  intros Hc. rewrite isLegal_iff_no_violation, violations_validateDuty.
  apply includes_In in Hc. rewrite Hc. apply part117Violations_nil_iff.
Qed.

Lemma legal_iff_within_the_five_limits_witness :
  In "part117" ["part117"; "fatigue_risk"]
  /\ withinLimits (Sample.state "10001" "ORD" RESERVE 2 95)
       (Sample.duty Sample.D1_1300 13 5)
  /\ isLegal
       (LegalityEngine.validateDuty src0
          (Sample.state "10001" "ORD" RESERVE 2 95)
          (Sample.duty Sample.D1_1300 13 5) ["part117"; "fatigue_risk"]) = true.
Proof.
  assert (W : withinLimits (Sample.state "10001" "ORD" RESERVE 2 95)
                (Sample.duty Sample.D1_1300 13 5)).
  { unfold withinLimits. repeat split; vm_compute; discriminate. }
  split; [left; reflexivity |]. split; [exact W |].
  apply (legal_iff_within_the_five_limits src0
           (Sample.state "10001" "ORD" RESERVE 2 95)
           (Sample.duty Sample.D1_1300 13 5) ["part117"; "fatigue_risk"]);
    [left; reflexivity | exact W].
Defined.

Lemma hasRule_assessFatigueRisk_consecutive st d :
  hasRule "FRMS_CONSECUTIVE_DUTY" (LegalityEngine.assessFatigueRisk st d)
  <-> 5 <= consecutiveDutyDays st.
Proof.
  unfold hasRule, LegalityEngine.assessFatigueRisk.
  destruct (Z.geb_spec (consecutiveDutyDays st) 5) as [G | G];
    destruct (gtb (totalDutyHours d) (ofZ 11)); simpl; split; intros H;
    try lia.
  - eexists. split; [left; reflexivity | reflexivity].
  - eexists. split; [left; reflexivity | reflexivity].
  - destruct H as [x [[E | []] Hr]]. subst x. discriminate Hr.
  - destruct H as [x [[] _]].
Qed.

Lemma hasRule_assessFatigueRisk_long st d :
  hasRule "FRMS_LONG_DUTY" (LegalityEngine.assessFatigueRisk st d)
  <-> gt (totalDutyHours d) (ofZ 11).
Proof.
  rewrite <- gtb_gt. unfold hasRule, LegalityEngine.assessFatigueRisk.
  destruct (consecutiveDutyDays st >=? 5);
    destruct (gtb (totalDutyHours d) (ofZ 11)); simpl; split; intros H;
    try reflexivity; try discriminate H.
  - eexists. split; [right; left; reflexivity | reflexivity].
  - destruct H as [x [[E | []] Hr]]. subst x. discriminate Hr.
  - eexists. split; [left; reflexivity | reflexivity].
  - destruct H as [x [[] _]].
Qed.

Lemma hasRule_warnings_fatigue src st d cats r :
  r <> "FRMS_WOCL" ->
  hasRule r (warnings (LegalityEngine.validateDuty src st d cats))
  <-> In "fatigue_risk" cats
      /\ hasRule r (LegalityEngine.assessFatigueRisk st d).
Proof.
  intros Hr. unfold hasRule. split.
  - intros [w [Hw E]]. apply In_warnings in Hw.
    destruct Hw as [[_ Hw] | [Hc Hw]].
    + apply checkWoclExposure_some in Hw. subst w. exfalso. apply Hr.
      symmetry. exact E.
    + split; [exact Hc |]. exists w. tauto.
  - intros [Hc [w [Hw E]]]. exists w. split; [| exact E].
    apply In_warnings. right. tauto.
Qed.

(** X4. With the category [fatigue_risk] in the list, the warnings hold the
    consecutive-duty advisory exactly when [consecutiveDutyDays] is at
    least 5, and the long-duty advisory exactly when [totalDutyHours] is
    greater than 11; a duty of exactly 11 hours gets none.  Without the
    category neither is emitted. *)
Theorem fatigue_advisories_by_threshold :
  forall (src : AuditSource) (st : CrewDutyState) (d : DutyPeriod)
         (cats : list string),
    (In "fatigue_risk" cats ->
     (hasRule "FRMS_CONSECUTIVE_DUTY"
        (warnings (LegalityEngine.validateDuty src st d cats))
      <-> 5 <= consecutiveDutyDays st)
     /\ (hasRule "FRMS_LONG_DUTY"
           (warnings (LegalityEngine.validateDuty src st d cats))
         <-> gt (totalDutyHours d) (ofZ 11)))
    /\ (~ In "fatigue_risk" cats ->
        ~ hasRule "FRMS_CONSECUTIVE_DUTY"
            (warnings (LegalityEngine.validateDuty src st d cats))
        /\ ~ hasRule "FRMS_LONG_DUTY"
               (warnings (LegalityEngine.validateDuty src st d cats))).
Proof.
  intros src st d cats. split.
  - intros Hc. split.
    + rewrite hasRule_warnings_fatigue by discriminate.
      rewrite hasRule_assessFatigueRisk_consecutive. tauto.
    + rewrite hasRule_warnings_fatigue by discriminate.
      rewrite hasRule_assessFatigueRisk_long. tauto.
  - intros Hc. split; rewrite hasRule_warnings_fatigue by discriminate; tauto.
Qed.

Lemma fatigue_advisories_by_threshold_witness :
  In "fatigue_risk" ["fatigue_risk"]
  /\ map rule
       (warnings
          (LegalityEngine.validateDuty src0
             (Sample.state "10001" "ORD" RESERVE 5 62)
             (Sample.duty Sample.D1_1300 11 5) ["fatigue_risk"]))
     = ["FRMS_CONSECUTIVE_DUTY"]
  /\ hasRule "FRMS_CONSECUTIVE_DUTY"
       (warnings
          (LegalityEngine.validateDuty src0
             (Sample.state "10001" "ORD" RESERVE 5 62)
             (Sample.duty Sample.D1_1300 11 5) ["fatigue_risk"]))
  /\ ~ hasRule "FRMS_LONG_DUTY"
         (warnings
            (LegalityEngine.validateDuty src0
               (Sample.state "10001" "ORD" RESERVE 5 62)
               (Sample.duty Sample.D1_1300 11 5) ["fatigue_risk"])).
Proof.
  split; [left; reflexivity |]. split; [reflexivity |].
  destruct (fatigue_advisories_by_threshold src0
              (Sample.state "10001" "ORD" RESERVE 5 62)
              (Sample.duty Sample.D1_1300 11 5) ["fatigue_risk"])
    as [H _].
  destruct (H (or_introl eq_refl)) as [H1 H2].
  split.
  - apply H1. vm_compute. discriminate.
  - intros Hl. apply H2 in Hl. vm_compute in Hl. discriminate Hl.
Defined.

(** X5. Legality is decided under the category [part117] only: for a
    category list without it the verdict is legal and has no violation,
    whatever the crew state and the proposed duty, and every warning it
    carries is of advisory severity, so none is the circadian-low
    warning. *)
Theorem without_part117_every_duty_is_legal :
  forall (src : AuditSource) (st : CrewDutyState) (d : DutyPeriod)
         (cats : list string),
    ~ In "part117" cats ->
    isLegal (LegalityEngine.validateDuty src st d cats) = true
    /\ violations (LegalityEngine.validateDuty src st d cats) = []
    /\ (forall w, In w (warnings (LegalityEngine.validateDuty src st d cats)) ->
          severity w = advisory).
Proof.
  intros src st d cats Hc.
  assert (Hv : violations (LegalityEngine.validateDuty src st d cats) = []).
  { rewrite violations_validateDuty.
    apply includes_false in Hc. rewrite Hc. reflexivity. }
  split; [apply isLegal_iff_no_violation; exact Hv |].
  split; [exact Hv |].
  intros w Hw. apply In_warnings in Hw. destruct Hw as [[H _] | [_ H]].
  - contradiction.
  - apply In_assessFatigueRisk in H. tauto.
Qed.

(** A duty of 20 hours with 12 of flight, one hour after the last duty. *)
Lemma without_part117_every_duty_is_legal_witness :
  ~ In "part117" ["fatigue_risk"; "cba"]
  /\ isLegal
       (LegalityEngine.validateDuty src0
          (Sample.state "10001" "ORD" RESERVE 6 98)
          (Sample.duty (Sample.D_2000 + msPerHour) 20 12)
          ["fatigue_risk"; "cba"]) = true
  /\ isLegal
       (LegalityEngine.validateDuty src0
          (Sample.state "10001" "ORD" RESERVE 6 98)
          (Sample.duty (Sample.D_2000 + msPerHour) 20 12)
          ["part117"]) = false.
Proof.
  assert (H : ~ In "part117" ["fatigue_risk"; "cba"]).
  { intros [E | [E | []]]; discriminate E. }
  split; [exact H |]. split; [| reflexivity].
  apply (without_part117_every_duty_is_legal src0
           (Sample.state "10001" "ORD" RESERVE 6 98)
           (Sample.duty (Sample.D_2000 + msPerHour) 20 12)
           ["fatigue_risk"; "cba"] H).
Defined.

Lemma restHours_invalid st d :
  timeValue (stateEndUtc st) = None \/ timeValue (startTimeUtc d) = None ->
  LegalityEngine.restHours st d = NaN.
Proof.
  unfold LegalityEngine.restHours, Date_ofString.
  intros [H | H]; rewrite H.
  - destruct (timeValue (startTimeUtc d)); reflexivity.
  - destruct (timeValue (stateEndUtc st)); reflexivity.
Qed.

(** X6. A timestamp that does not parse is never flagged: when the end of
    the crew state or the start of the proposed duty is no valid instant,
    the verdict holds no rest violation (whatever the number of
    consecutive duty days) and no circadian-low warning is raised for an
    invalid start; the verdict is then legal as soon as the four other
    limits are kept. *)
Theorem unparseable_timestamp_passes_rest_check :
  forall (src : AuditSource) (st : CrewDutyState) (d : DutyPeriod)
         (cats : list string),
    timeValue (stateEndUtc st) = None \/ timeValue (startTimeUtc d) = None ->
    ~ hasRule "117.25(b)"
        (violations (LegalityEngine.validateDuty src st d cats))
    /\ (timeValue (startTimeUtc d) = None ->
        ~ hasRule "FRMS_WOCL"
            (warnings (LegalityEngine.validateDuty src st d cats)))
    /\ (~ gt (totalDutyHours d) (ofZ 13) ->
        ~ gt (totalFlightHours d) (ofZ 9) ->
        ~ gt (add (flightHoursMonth st) (totalFlightHours d)) (ofZ 100) ->
        ~ gt (add (flightHoursYear st) (totalFlightHours d)) (ofZ 1000) ->
        isLegal (LegalityEngine.validateDuty src st d cats) = true).
Proof.
  intros src st d cats Hinv.
  pose proof (restHours_invalid st d Hinv) as Hnan.
  assert (Hrest : ~ lt (LegalityEngine.restHours st d)
                       (LegalityEngine.requiredRest st)).
  { rewrite Hnan. unfold lt, gt.
    destruct (LegalityEngine.requiredRest st); intros []. }
  split.
  { intros [x [Hx Hr]]. apply In_violations in Hx. destruct Hx as [_ Hx].
    apply part117Violations_by_rule in Hx.
    destruct Hx as [[H _] | [[H _] | [[_ H] | [H _]]]];
      try (rewrite H in Hr; discriminate).
    apply checkRestRequirements_some in H. tauto. }
  split.
  { intros Hs Hw. apply wocl_in_warnings in Hw. destruct Hw as [_ Hw].
    rewrite (checkWoclExposure_invalid d Hs) in Hw. discriminate Hw. }
  intros H1 H2 H4 H5. apply isLegal_iff_no_violation.
  rewrite violations_validateDuty. destruct (includes cats "part117");
    [| reflexivity].
  apply part117Violations_nil_iff. unfold withinLimits. tauto.
Qed.

Lemma unparseable_timestamp_passes_rest_check_witness :
  (timeValue (stateEndUtc (Sample.state "10001" "ORD" RESERVE 4 62)) = None
   \/ timeValue
        (startTimeUtc
           {| startTimeUtc := notATimestamp;
              endTimeUtc := isoOf Sample.D1_1300;
              reportTimeUtc := isoOf Sample.D1_1300;
              releaseTimeUtc := isoOf Sample.D1_1300;
              flights := [];
              totalDutyHours := ofZ 6;
              totalFlightHours := ofZ 5 |}) = None)
  /\ isLegal
       (LegalityEngine.validateDuty src0
          (Sample.state "10001" "ORD" RESERVE 4 62)
          {| startTimeUtc := notATimestamp;
             endTimeUtc := isoOf Sample.D1_1300;
             reportTimeUtc := isoOf Sample.D1_1300;
             releaseTimeUtc := isoOf Sample.D1_1300;
             flights := [];
             totalDutyHours := ofZ 6;
             totalFlightHours := ofZ 5 |}
          ["part117"; "fatigue_risk"]) = true.
Proof.
  split; [right; reflexivity |].
  apply (unparseable_timestamp_passes_rest_check src0
           (Sample.state "10001" "ORD" RESERVE 4 62)
           {| startTimeUtc := notATimestamp;
              endTimeUtc := isoOf Sample.D1_1300;
              reportTimeUtc := isoOf Sample.D1_1300;
              releaseTimeUtc := isoOf Sample.D1_1300;
              flights := [];
              totalDutyHours := ofZ 6;
              totalFlightHours := ofZ 5 |}
           ["part117"; "fatigue_risk"] (or_intror eq_refl));
    vm_compute; intros H; discriminate H.
Defined.

(* ================================================================== *)
(** * Further properties of the crew state store *)
(* ================================================================== *)

Lemma Map_get_In {V : Type} (m : Map V) (k : string) (v : V) :
  Map_get m k = Some v -> In (k, v) m.
Proof.
  induction m as [|[k' v'] m IH]; simpl; [discriminate |].
  destruct (String.eqb_spec k' k) as [E | E].
  - intros H. inversion H. subst. left. reflexivity.
  - intros H. right. exact (IH H).
Qed.

Lemma Map_get_None_keys {V : Type} (m : Map V) (k : string) :
  Map_get m k = None <-> ~ In k (keysOf m).
Proof.
  unfold keysOf. induction m as [|[k' v'] m IH]; simpl.
  - split; [intros _ [] | reflexivity].
  - destruct (String.eqb_spec k' k) as [E | E].
    + split; [discriminate | intros H; exfalso; apply H; left; exact E].
    + rewrite IH. split; [intros H [H' | H']; [exact (E H') | exact (H H')] |].
      intros H H'. apply H. right. exact H'.
Qed.

Lemma keysOf_Map_set {V : Type} (m : Map V) (k : string) (v : V) :
  keysOf (Map_set m k v)
  = match Map_get m k with
    | Some _ => keysOf m
    | None => (keysOf m ++ [k])%list
    end.
Proof.
  unfold keysOf. induction m as [|[k' v'] m IH]; simpl.
  - reflexivity.
  - destruct (String.eqb_spec k' k) as [E | E]; simpl.
    + subst k'. reflexivity.
    + rewrite IH. destruct (Map_get m k); reflexivity.
Qed.

Lemma In_Map_set {V : Type} (m : Map V) (k : string) (v : V) kv :
  In kv (Map_set m k v) -> kv = (k, v) \/ In kv m.
Proof.
  induction m as [|[k' v'] m IH]; simpl.
  - intros [H | []]. left. symmetry. exact H.
  - destruct (String.eqb k' k); simpl.
    + intros [H | H]; [left; symmetry; exact H | right; right; exact H].
    + intros [H | H]; [right; left; exact H |].
      destruct (IH H) as [H' | H']; [left; exact H' | right; right; exact H'].
Qed.

Lemma keyedBy_Map_set {V : Type} (key : V -> string) (m : Map V) (v : V) :
  keyedBy key m -> keyedBy key (Map_set m (key v) v).
Proof.
  intros [Hk Hn]. split.
  - rewrite Forall_forall in *. intros kv Hin.
    apply In_Map_set in Hin. destruct Hin as [E | Hin].
    + subst kv. reflexivity.
    + exact (Hk kv Hin).
  - change (NoDup (keysOf (Map_set m (key v) v))). rewrite keysOf_Map_set.
    destruct (Map_get m (key v)) eqn:E; [exact Hn |].
    apply Map_get_None_keys in E.
    apply NoDup_app; [exact Hn | constructor; [intros [] | constructor] |].
    intros a Ha [Ea | []]. subst a. exact (E Ha).
Qed.

Lemma keyedBy_get {V : Type} (key : V -> string) (m : Map V) k v :
  keyedBy key m -> Map_get m k = Some v -> key v = k.
Proof.
  intros [Hk _] H. apply Map_get_In in H.
  rewrite Forall_forall in Hk. symmetry. exact (Hk (k, v) H).
Qed.

Lemma keyedBy_value_get {V : Type} (key : V -> string) (m : Map V) v :
  keyedBy key m -> In v (Map_values m) -> Map_get m (key v) = Some v.
Proof.
  unfold Map_values. intros [Hk Hn]. induction m as [|[k' v'] m IH]; simpl.
  - intros [].
  - inversion Hk as [|kv l Hhead Htail]. subst.
    inversion Hn as [|k0 l0 Hnotin Hn']. subst. simpl in *.
    intros [E | Hin].
    + subst v'. rewrite Hhead, String.eqb_refl. reflexivity.
    + destruct (String.eqb_spec k' (key v)) as [E | E].
      * exfalso. apply Hnotin. rewrite E.
        apply in_map_iff in Hin. destruct Hin as [[k1 v1] [E1 Hin1]].
        simpl in E1. subst v1. apply in_map_iff. exists (k1, v).
        split; [| exact Hin1]. simpl.
        rewrite Forall_forall in Htail. exact (Htail (k1, v) Hin1).
      * apply IH; assumption.
Qed.

Lemma keyedBy_values_NoDup {V : Type} (key : V -> string) (m : Map V) :
  keyedBy key m -> NoDup (map key (Map_values m)).
Proof.
  intros [Hk Hn]. unfold Map_values. rewrite map_map.
  replace (map (fun x => key (snd x)) m) with (map fst m); [exact Hn |].
  apply map_ext_in. intros kv Hin. rewrite Forall_forall in Hk. exact (Hk kv Hin).
Qed.

Lemma wellKeyed_updateCrewState svc st :
  wellKeyed svc -> wellKeyed (CrewStateService.updateCrewState svc st).
Proof.
  intros [Hs Hm]. split; [| exact Hm]. apply keyedBy_Map_set. exact Hs.
Qed.

Lemma wellKeyed_addCrewMember svc m :
  wellKeyed svc -> wellKeyed (CrewStateService.addCrewMember svc m).
Proof.
  intros [Hs Hm]. split; [exact Hs |]. apply keyedBy_Map_set. exact Hm.
Qed.

Lemma wellKeyed_empty : wellKeyed (mkService [] []).
Proof. split; split; constructor. Qed.

Lemma wellKeyed_fold_update states svc :
  wellKeyed svc ->
  wellKeyed (fold_left CrewStateService.updateCrewState states svc).
Proof.
  revert svc. induction states as [|s ss IH]; intros svc H; simpl.
  - exact H.
  - apply IH. apply wellKeyed_updateCrewState. exact H.
Qed.

Lemma wellKeyed_fold_add members svc :
  wellKeyed svc ->
  wellKeyed (fold_left CrewStateService.addCrewMember members svc).
Proof.
  revert svc. induction members as [|m ms IH]; intros svc H; simpl.
  - exact H.
  - apply IH. apply wellKeyed_addCrewMember. exact H.
Qed.

Lemma getCrewStatus_update_same svc st :
  CrewStateService.getCrewStatus
    (CrewStateService.updateCrewState svc st) (employeeId st) = Some st.
Proof.
  unfold CrewStateService.getCrewStatus, CrewStateService.updateCrewState.
  cbn [crewStates]. apply Map_get_set_same.
Qed.

Lemma getCrewStatus_update_other svc st id :
  id <> employeeId st ->
  CrewStateService.getCrewStatus (CrewStateService.updateCrewState svc st) id
  = CrewStateService.getCrewStatus svc id.
Proof.
  intros Hid.
  unfold CrewStateService.getCrewStatus, CrewStateService.updateCrewState.
  cbn [crewStates]. apply Map_get_set_other. congruence.
Qed.

Lemma keysOf_update svc st :
  keysOf (crewStates (CrewStateService.updateCrewState svc st))
  = match CrewStateService.getCrewStatus svc (employeeId st) with
    | Some _ => keysOf (crewStates svc)
    | None => (keysOf (crewStates svc) ++ [employeeId st])%list
    end.
Proof.
  unfold CrewStateService.getCrewStatus, CrewStateService.updateCrewState.
  cbn [crewStates]. apply keysOf_Map_set.
Qed.

(** X7. [updateCrewState] followed by [getCrewStatus]: the state stored is
    the state read back under its employee id; the states of all other
    ids and the crew members are untouched; an id already known keeps its
    place in the order of the store, a new id goes to the end. *)
Theorem update_then_lookup :
  forall (svc : ServiceState) (st : CrewDutyState),
    CrewStateService.getCrewStatus
      (CrewStateService.updateCrewState svc st) (employeeId st) = Some st
    /\ (forall id,
          id <> employeeId st ->
          CrewStateService.getCrewStatus
            (CrewStateService.updateCrewState svc st) id
          = CrewStateService.getCrewStatus svc id)
    /\ crewMembers (CrewStateService.updateCrewState svc st) = crewMembers svc
    /\ keysOf (crewStates (CrewStateService.updateCrewState svc st))
       = match CrewStateService.getCrewStatus svc (employeeId st) with
         | Some _ => keysOf (crewStates svc)
         | None => (keysOf (crewStates svc) ++ [employeeId st])%list
         end.
Proof.
  intros svc st.
  split; [apply getCrewStatus_update_same |].
  split; [intros id Hid; apply getCrewStatus_update_other; exact Hid |].
  split; [reflexivity | apply keysOf_update].
Qed.

Lemma fold_update_members states svc :
  crewMembers (fold_left CrewStateService.updateCrewState states svc)
  = crewMembers svc.
Proof.
  revert svc. induction states as [|s ss IH]; intros svc; simpl;
    [reflexivity | rewrite IH; reflexivity].
Qed.

Lemma find_app_first {A : Type} (p : A -> bool) (l l' : list A) :
  List.find p (l ++ l')
  = match List.find p l with
    | Some x => Some x
    | None => List.find p l'
    end.
Proof.
  induction l as [|a l IH]; simpl; [reflexivity |].
  destruct (p a); [reflexivity | exact IH].
Qed.

Lemma fold_update_lookup states svc id :
  CrewStateService.getCrewStatus
    (fold_left CrewStateService.updateCrewState states svc) id
  = match List.find (fun s => String.eqb (employeeId s) id) (rev states) with
    | Some s => Some s
    | None => CrewStateService.getCrewStatus svc id
    end.
Proof.
  revert svc. induction states as [|s ss IH]; intros svc; simpl.
  - reflexivity.
  - rewrite IH. rewrite find_app_first.
    destruct (List.find (fun s0 => String.eqb (employeeId s0) id) (rev ss));
      [reflexivity |].
    simpl. destruct (String.eqb_spec (employeeId s) id) as [E | E].
    + subst id. apply getCrewStatus_update_same.
    + apply getCrewStatus_update_other. congruence.
Qed.

(** X8. The service filled at the start of the server, from any list of
    members and any list of states, is well keyed: every entry sits under
    the id its value names and no id occurs twice.  When the data name an
    id more than once the last state listed is the one kept; an id the
    data do not name is absent. *)
Theorem loaded_service_is_well_keyed :
  forall (members : list CrewMember) (states : list CrewDutyState),
    wellKeyed (Server.loadData members states)
    /\ (forall id,
          CrewStateService.getCrewStatus (Server.loadData members states) id
          = List.find (fun s => String.eqb (employeeId s) id) (rev states))
    /\ (forall id,
          ~ In id (map employeeId states) ->
          CrewStateService.getCrewStatus (Server.loadData members states) id
          = None).
Proof.
  intros members states.
  assert (Hl : forall id,
             CrewStateService.getCrewStatus (Server.loadData members states) id
             = List.find (fun s => String.eqb (employeeId s) id) (rev states)).
  { intros id. unfold Server.loadData. rewrite fold_update_lookup.
    destruct (List.find _ (rev states)); [reflexivity |].
    unfold CrewStateService.getCrewStatus.
    assert (E : forall ms svc,
               crewStates (fold_left CrewStateService.addCrewMember ms svc)
               = crewStates svc).
    { induction ms as [|m ms IH]; intros svc; simpl;
        [reflexivity | rewrite IH; reflexivity]. }
    rewrite E. reflexivity. }
  split.
  { unfold Server.loadData. apply wellKeyed_fold_update, wellKeyed_fold_add.
    exact wellKeyed_empty. }
  split; [exact Hl |].
  intros id Hid. rewrite Hl.
  destruct (List.find _ (rev states)) as [s|] eqn:E; [| reflexivity].
  apply find_some in E. destruct E as [Hin Heq].
  apply String.eqb_eq in Heq. exfalso. apply Hid.
  apply in_map_iff. exists s. split; [exact Heq |].
  apply in_rev. exact Hin.
Qed.

Lemma In_getCrewByState svc ty st :
  In st (CrewStateService.getCrewByState svc ty)
  <-> In st (Map_values (crewStates svc)) /\ stateType st = ty.
Proof.
  unfold CrewStateService.getCrewByState. rewrite filter_In.
  destruct (stateType st), ty; simpl; intuition discriminate.
Qed.

Lemma filter_keeps_distinct_keys {S K : Type} (key : S -> K)
  (keep : S -> bool) (states : list S)
  (Hdistinct : NoDup (map key states)) :
  NoDup (map key (filter keep states)).
Proof.
  induction states as [|s rest IH]; simpl in *; [constructor |].
  apply NoDup_cons_iff in Hdistinct. destruct Hdistinct as [Hfresh Hrest].
  destruct (keep s); simpl; [| exact (IH Hrest)].
  apply NoDup_cons; [| exact (IH Hrest)].
  intros Hin. apply Hfresh. apply in_map_iff in Hin.
  destruct Hin as [x [E Hx]]. apply filter_In in Hx.
  apply in_map_iff. exists x. tauto.
Qed.

(** X9. In a well-keyed service the list queries agree with the lookup by
    id: a state is returned by [getCrewByState] (by [getCrewAtLocation])
    exactly when it is the state stored under its own employee id and has
    that state type (that location); a state read by id carries that id;
    and no query returns two states of one employee. *)
Theorem list_queries_agree_with_lookup :
  forall (svc : ServiceState),
    wellKeyed svc ->
    (forall id st,
       CrewStateService.getCrewStatus svc id = Some st -> employeeId st = id)
    /\ (forall ty st,
          In st (CrewStateService.getCrewByState svc ty)
          <-> CrewStateService.getCrewStatus svc (employeeId st) = Some st
              /\ stateType st = ty)
    /\ (forall loc st,
          In st (CrewStateService.getCrewAtLocation svc loc)
          <-> CrewStateService.getCrewStatus svc (employeeId st) = Some st
              /\ currentLocation st = loc)
    /\ (forall ty,
          NoDup (map employeeId (CrewStateService.getCrewByState svc ty)))
    /\ (forall loc,
          NoDup (map employeeId (CrewStateService.getCrewAtLocation svc loc))).
Proof.
  intros svc [Hs _].
  assert (Hval : forall st,
             In st (Map_values (crewStates svc))
             <-> CrewStateService.getCrewStatus svc (employeeId st) = Some st).
  { intros st. split.
    - apply keyedBy_value_get. exact Hs.
    - intros H. apply Map_get_In in H. unfold Map_values.
      apply in_map_iff. exists (employeeId st, st). tauto. }
  split; [intros id st; apply keyedBy_get; exact Hs |].
  split; [intros ty st; rewrite In_getCrewByState, Hval; reflexivity |].
  split.
  { intros loc st. unfold CrewStateService.getCrewAtLocation.
    rewrite filter_In, Hval, String.eqb_eq. reflexivity. }
  split; intros x; apply filter_keeps_distinct_keys, keyedBy_values_NoDup; exact Hs.
Qed.

Lemma wellKeyed_twoReserves : wellKeyed Sample.twoReserves.
Proof.
  unfold Sample.twoReserves.
  repeat first [apply wellKeyed_updateCrewState | apply wellKeyed_addCrewMember].
  exact wellKeyed_empty.
Qed.

Lemma list_queries_agree_with_lookup_witness :
  wellKeyed Sample.twoReserves
  /\ map employeeId (CrewStateService.getCrewByState Sample.twoReserves RESERVE)
     = ["20002"; "10001"]
  /\ NoDup (map employeeId
              (CrewStateService.getCrewByState Sample.twoReserves RESERVE)).
Proof.
  split; [exact wellKeyed_twoReserves |]. split; [reflexivity |].
  apply (list_queries_agree_with_lookup Sample.twoReserves wellKeyed_twoReserves).
Defined.

Lemma In_getReservePool_filter svc b p st :
  In st (filter (CrewStateService.matchesBasePosition svc b p)
           (CrewStateService.getCrewByState svc RESERVE))
  <-> In st (CrewStateService.getCrewByState svc RESERVE)
      /\ exists member,
           Map_get (crewMembers svc) (employeeId st) = Some member
           /\ base member = b /\ position member = p.
Proof.
  rewrite filter_In. unfold CrewStateService.matchesBasePosition.
  destruct (Map_get (crewMembers svc) (employeeId st)) as [m|].
  - rewrite andb_true_iff, !String.eqb_eq. split.
    + intros [H1 [H2 H3]]. split; [exact H1 |]. exists m. tauto.
    + intros [H1 [m' [E [H2 H3]]]]. inversion E. subst m'. tauto.
  - split; [intros [_ H]; discriminate H |].
    intros [_ [m [E _]]]. discriminate E.
Qed.

Lemma utilization_value (n : Z) :
  ((inject_Z 10 - inject_Z n) / inject_Z 10 * inject_Z 100
   == inject_Z (100 - 10 * n))%Q.
Proof.
  unfold Z.sub. rewrite inject_Z_plus, inject_Z_opp, inject_Z_mult.
  change (inject_Z 10) with 10%Q. change (inject_Z 100) with 100%Q.
  field.
Qed.

Lemma utilization_facts (n : Z) :
  0 <= n ->
  let q := ((inject_Z 10 - inject_Z n) / inject_Z 10 * inject_Z 100)%Q in
  (q <= inject_Z 100)%Q
  /\ ((q < 0)%Q <-> 10 < n)
  /\ ((q == 0)%Q <-> n = 10)
  /\ (n = 0 -> (q == inject_Z 100)%Q).
Proof.
  intros Hn q. subst q. rewrite !utilization_value.
  change 0%Q with (inject_Z 0).
  rewrite <- Zle_Qle, <- Zlt_Qlt, inject_Z_injective.
  repeat split; intros; try lia. subst n. reflexivity.
Qed.

(** X10. [getReservePoolStatus] lists the employee ids of exactly the
    stored RESERVE states whose member has the given base and position
    (the aircraft type plays no part), so every reserve the replacement
    search considers for that base and position is listed.  With n ids
    listed the utilization is at most 100, is 100 for n = 0, is zero
    exactly for n = 10 and is negative exactly for n > 10; with no id
    listed the next availability is the current time. *)
Theorem reserve_pool_status_lists_the_pool :
  forall (now : Z) (svc : ServiceState) (b p : string),
    (forall st,
       In st (CrewStateService.getCrewByState svc RESERVE) ->
       (exists member,
          Map_get (crewMembers svc) (employeeId st) = Some member
          /\ base member = b /\ position member = p) ->
       In (employeeId st)
          (availableCrewIds (CrewStateService.getReservePoolStatus now svc b p)))
    /\ (forall id,
          In id (availableCrewIds
                   (CrewStateService.getReservePoolStatus now svc b p)) ->
          exists st member,
            In st (CrewStateService.getCrewByState svc RESERVE)
            /\ employeeId st = id
            /\ Map_get (crewMembers svc) id = Some member
            /\ base member = b /\ position member = p)
    /\ (forall params st,
          p_base params = b -> p_position params = p ->
          In st (CrewStateService.reservePool svc params) ->
          In (employeeId st)
             (availableCrewIds
                (CrewStateService.getReservePoolStatus now svc b p)))
    /\ (exists q,
          utilizationPercent (CrewStateService.getReservePoolStatus now svc b p)
          = Fin q
          /\ (q <= inject_Z 100)%Q
          /\ ((q < 0)%Q
              <-> (10 < List.length
                          (availableCrewIds
                             (CrewStateService.getReservePoolStatus now svc b p)))%nat)
          /\ ((q == 0)%Q
              <-> List.length
                    (availableCrewIds
                       (CrewStateService.getReservePoolStatus now svc b p))
                  = 10%nat)
          /\ (availableCrewIds
                (CrewStateService.getReservePoolStatus now svc b p) = [] ->
              (q == inject_Z 100)%Q))
    /\ (availableCrewIds (CrewStateService.getReservePoolStatus now svc b p) = [] ->
        nextAvailableUtc (CrewStateService.getReservePoolStatus now svc b p)
        = isoOf now).
Proof.
  intros now svc b p.
  unfold CrewStateService.getReservePoolStatus.
  cbn [availableCrewIds utilizationPercent nextAvailableUtc].
  set (reserves := filter (CrewStateService.matchesBasePosition svc b p)
                     (CrewStateService.getCrewByState svc RESERVE)).
  assert (Hlist : forall st,
             In st (CrewStateService.getCrewByState svc RESERVE) ->
             (exists member,
                Map_get (crewMembers svc) (employeeId st) = Some member
                /\ base member = b /\ position member = p) ->
             In (employeeId st) (map employeeId reserves)).
  { intros st Hin Hm. apply in_map. apply In_getReservePool_filter. tauto. }
  split; [exact Hlist |].
  split.
  { intros id Hid. apply in_map_iff in Hid. destruct Hid as [st [E Hin]].
    apply In_getReservePool_filter in Hin.
    destruct Hin as [Hin [m [Hm [Hb Hp]]]].
    exists st, m. subst id. tauto. }
  split.
  { intros params st Hb Hp Hin.
    unfold CrewStateService.reservePool in Hin. apply filter_In in Hin.
    destruct Hin as [Hin Hm]. apply Hlist; [exact Hin |].
    unfold CrewStateService.matchesRequest in Hm.
    destruct (Map_get (crewMembers svc) (employeeId st)) as [m|];
      [| discriminate].
    exists m. apply andb_true_iff in Hm. destruct Hm as [Hm _].
    apply andb_true_iff in Hm. destruct Hm as [H1 H2].
    apply String.eqb_eq in H1. apply String.eqb_eq in H2.
    split; [reflexivity |]. split; congruence. }
  split.
  { eexists. split; [reflexivity |].
    rewrite length_map.
    destruct (utilization_facts (Z.of_nat (List.length reserves))
                (Nat2Z.is_nonneg _)) as [H1 [H2 [H3 H4]]].
    split; [exact H1 |]. split; [rewrite H2; lia |].
    split; [rewrite H3; lia |].
    intros E. apply H4. destruct reserves; [reflexivity | discriminate E]. }
  intros E. destruct reserves; [reflexivity | discriminate E].
Qed.

(* ================================================================== *)
(** * Further properties of the replacement search *)
(* ================================================================== *)

Lemma proposedDutyFor_totals dep pd :
  CrewStateService.proposedDutyFor dep = Ok pd ->
  totalDutyHours pd = Fin (13 # 2) /\ totalFlightHours pd = ofZ 5
  /\ startTimeUtc pd = dep.
Proof.
  unfold CrewStateService.proposedDutyFor.
  destruct (toISOString _) as [e1|]; cbn [bind]; [| discriminate].
  destruct (toISOString _) as [e2|]; cbn [bind]; [| discriminate].
  destruct (toISOString _) as [e3|]; cbn [bind]; [| discriminate].
  intros H. inversion H. repeat split.
Qed.

(** A successful search is a search over an empty pool, or one whose
    proposed duty was built. *)
Lemma findReplacementCrew_ok_cases svc params env l :
  CrewStateService.findReplacementCrew svc params env = Ok l ->
  (CrewStateService.reservePool svc params = [] /\ l = [])
  \/ exists pd cands,
       CrewStateService.proposedDutyFor (p_departureTimeUtc params) = Ok pd
       /\ Forall2 (candidateFor svc (p_departureTimeUtc params) pd)
            (legalPool svc params pd) cands
       /\ l = slice0 (sort CrewStateService.byRankScoreDesc cands) (capOf params).
Proof.
  intros Hres.
  destruct (CrewStateService.proposedDutyFor (p_departureTimeUtc params))
    as [pd|e] eqn:Hpd.
  - right. destruct (findReplacementCrew_ok svc params env pd Hpd)
      as [cands [Hf E]].
    exists pd, cands. rewrite E in Hres. inversion Hres. tauto.
  - left. rewrite findReplacementCrew_unfold in Hres.
    destruct (CrewStateService.reservePool svc params) as [|r rs] eqn:Hp.
    + cbn [CrewStateService.collectCandidates bind sort fold_right] in Hres.
      rewrite slice0_nil in Hres. inversion Hres. tauto.
    + exfalso.
      assert (Hin : In r (CrewStateService.reservePool svc params))
        by (rewrite Hp; left; reflexivity).
      apply In_reservePool in Hin. destruct Hin as [_ [_ [m [Hm _]]]].
      cbn [CrewStateService.collectCandidates] in Hres.
      rewrite Hm, Hpd in Hres. cbn [bind] in Hres. discriminate Hres.
Qed.

Lemma In_legalPool svc params pd r :
  In r (legalPool svc params pd) ->
  In r (CrewStateService.reservePool svc params) /\ legalFor pd r = true.
Proof. unfold legalPool. rewrite filter_In. tauto. Qed.

(** Every candidate of a successful search stems from a legal reserve of
    the pool. *)
Lemma candidate_of_search svc params env l c :
  CrewStateService.findReplacementCrew svc params env = Ok l ->
  In c l ->
  exists pd r,
    CrewStateService.proposedDutyFor (p_departureTimeUtc params) = Ok pd
    /\ In r (CrewStateService.reservePool svc params)
    /\ legalFor pd r = true
    /\ candidateFor svc (p_departureTimeUtc params) pd r c.
Proof.
  intros Hres Hin.
  destruct (findReplacementCrew_ok_cases svc params env l Hres)
    as [[_ E] | [pd [cands [Hpd [Hf E]]]]].
  - subst l. destruct Hin.
  - subst l. apply In_slice0 in Hin.
    apply (Permutation_in _ (sort_perm rankScore cands)) in Hin.
    destruct (Forall2_In_r _ _ _ c Hf Hin) as [r [Hr Hc]].
    apply In_legalPool in Hr. exists pd, r. tauto.
Qed.

Lemma search_duty_warnings src r pd :
  totalDutyHours pd = Fin (13 # 2) ->
  (List.length
     (warnings (LegalityEngine.validateDuty src r pd
                  ["part117"; "fatigue_risk"])) <= 2)%nat.
Proof.
  intros Hd. rewrite warnings_validateDuty.
  change (includes ["part117"; "fatigue_risk"] "part117") with true.
  change (includes ["part117"; "fatigue_risk"] "fatigue_risk") with true.
  cbv iota. rewrite length_app.
  assert (H1 : (List.length
                  (LegalityEngine.push_opt []
                     (LegalityEngine.checkWoclExposure pd)) <= 1)%nat).
  { destruct (LegalityEngine.checkWoclExposure pd); simpl; lia. }
  assert (H2 : (List.length (LegalityEngine.assessFatigueRisk r pd) <= 1)%nat).
  { unfold LegalityEngine.assessFatigueRisk. rewrite Hd.
    replace (gtb (Fin (13 # 2)) (ofZ 11)) with false by reflexivity.
    destruct (consecutiveDutyDays r >=? 5); simpl; lia. }
  lia.
Qed.

Lemma search_duty_cost r pd :
  totalDutyHours pd = Fin (13 # 2) -> totalFlightHours pd = ofZ 5 ->
  gtb (totalUsd (CrewStateService.calculateCrewCost r pd)) (ofZ 1000) = false
  /\ payCredit (CrewStateService.calculateCrewCost r pd) = ofZ 5
  /\ (gt (flightHoursMonth r) (ofZ 75) ->
      overtimePremium (CrewStateService.calculateCrewCost r pd)
      = mul (ofZ 5) (ofZ 50))
  /\ (~ gt (flightHoursMonth r) (ofZ 75) ->
      overtimePremium (CrewStateService.calculateCrewCost r pd) = ofZ 0).
Proof.
  intros Hd Hf. unfold CrewStateService.calculateCrewCost.
  cbn [totalUsd payCredit overtimePremium]. rewrite Hd, Hf.
  destruct (gtb (flightHoursMonth r) (ofZ 75)) eqn:E.
  - split; [reflexivity |]. split; [reflexivity |].
    split; [reflexivity |]. intros H. apply gtb_gt in E. contradiction.
  - split; [reflexivity |]. split; [reflexivity |].
    split; [| reflexivity]. intros H. apply gtb_gt in H. congruence.
Qed.

(** X11. Every candidate the replacement search returns is clean: its
    verdict is legal, has no violation at all and at most two warnings,
    and lists the two categories checked; its cost stays below the
    high-cost threshold of 1000 (so that penalty never applies), with a
    pay credit of 5 hours; and its rank score lies between 75 and 100. *)
Theorem returned_candidates_are_legal_and_score_75_up :
  forall (svc : ServiceState) (params : FindParams) (env : nat -> AuditSource)
         (l : list CrewReplacement) (c : CrewReplacement),
    CrewStateService.findReplacementCrew svc params env = Ok l ->
    In c l ->
    isLegal (legality c) = true
    /\ violations (legality c) = []
    /\ (List.length (warnings (legality c)) <= 2)%nat
    /\ checksPerformed (legality c) = ["part117"; "fatigue_risk"]
    /\ gtb (totalUsd (cost c)) (ofZ 1000) = false
    /\ payCredit (cost c) = ofZ 5
    /\ 75 <= rankScore c <= 100.
Proof.
  intros svc params env l c Hres Hin.
  destruct (candidate_of_search svc params env l c Hres Hin)
    as [pd [r [Hpd [_ [Hl [m [src [_ E]]]]]]]].
  destruct (proposedDutyFor_totals _ _ Hpd) as [Hd [Hf _]].
  unfold legalFor in Hl.
  rewrite (isLegal_src_irrelevant src0 src) in Hl.
  pose proof (search_duty_warnings src r pd Hd) as Hw.
  destruct (search_duty_cost r pd Hd Hf) as [Hc [Hp _]].
  subst c. unfold CrewStateService.candidateOf.
  cbn [legality cost rankScore].
  split; [exact Hl |].
  split; [apply isLegal_iff_no_violation; exact Hl |].
  split; [exact Hw |].
  split; [apply checksPerformed_validateDuty |].
  split; [exact Hc |]. split; [exact Hp |].
  unfold CrewStateService.calculateRankScore. rewrite Hc.
  destruct (gtb (overtimePremium (CrewStateService.calculateCrewCost r pd))
              (ofZ 0));
    destruct (ltb (dutyHoursCumulative r) (ofZ 20));
    destruct (consecutiveDutyDays r <? 3); lia.
Qed.

Lemma returned_candidates_are_legal_and_score_75_up_witness :
  exists l,
    CrewStateService.findReplacementCrew Sample.twoReserves
      (Sample.request (isoOf Sample.D1_1300) None None) Sample.env = Ok l
    /\ l <> []
    /\ Forall (fun c => violations (legality c) = [] /\ 75 <= rankScore c <= 100) l.
Proof.
  destruct (CrewStateService.findReplacementCrew Sample.twoReserves
              (Sample.request (isoOf Sample.D1_1300) None None) Sample.env)
    as [l|e] eqn:E; [| vm_compute in E; discriminate E].
  exists l. split; [reflexivity |]. split.
  - intros H. subst l. vm_compute in E. discriminate E.
  - rewrite Forall_forall. intros c Hc.
    destruct (returned_candidates_are_legal_and_score_75_up
                Sample.twoReserves
                (Sample.request (isoOf Sample.D1_1300) None None)
                Sample.env l c E Hc) as [_ [H2 [_ [_ [_ [_ H7]]]]]].
    split; assumption.
Defined.

Lemma NoDup_firstn {A : Type} (n : nat) (l : list A) :
  NoDup l -> NoDup (firstn n l).
Proof.
  intros H. revert n. induction H as [|a l Hnotin Hn IH]; intros [|n]; simpl;
    try constructor.
  - intros Hin. apply Hnotin. exact (In_firstn n l a Hin).
  - apply IH.
Qed.

Lemma candidateFor_id svc dep pd r c :
  wellKeyed svc -> candidateFor svc dep pd r c -> r_employeeId c = employeeId r.
Proof.
  intros [_ Hm] [m [src [Hget E]]]. subst c.
  unfold CrewStateService.candidateOf. cbn [r_employeeId].
  exact (keyedBy_get _ _ _ _ Hm Hget).
Qed.

Lemma Forall2_map_transfer {A B C : Type} (P : A -> B -> Prop)
  (f : A -> C) (g : B -> C) l l' :
  (forall a b, P a b -> g b = f a) ->
  Forall2 P l l' -> map g l' = map f l.
Proof.
  intros H. induction 1 as [|a b l l' Hab Hl IH]; simpl;
    [reflexivity | rewrite (H a b Hab), IH; reflexivity].
Qed.

(** X12. In a well-keyed service the replacement search offers no crew
    member twice, and every candidate is a crew member whose stored state
    is of type RESERVE and is legal for the proposed duty. *)
Theorem search_offers_each_reserve_once :
  forall (svc : ServiceState) (params : FindParams) (env : nat -> AuditSource)
         (l : list CrewReplacement),
    wellKeyed svc ->
    CrewStateService.findReplacementCrew svc params env = Ok l ->
    NoDup (map r_employeeId l)
    /\ (forall c, In c l ->
          exists st pd,
            CrewStateService.getCrewStatus svc (r_employeeId c) = Some st
            /\ stateType st = RESERVE
            /\ CrewStateService.proposedDutyFor (p_departureTimeUtc params)
               = Ok pd
            /\ legalFor pd st = true
            /\ lg_currentLocation (logistics c) = currentLocation st).
Proof.
  intros svc params env l Hwk Hres. split.
  - destruct (findReplacementCrew_ok_cases svc params env l Hres)
      as [[_ E] | [pd [cands [Hpd [Hf E]]]]].
    + subst l. constructor.
    + subst l. unfold slice0. rewrite <- firstn_map. apply NoDup_firstn.
      apply (Permutation_NoDup
               (Permutation_map r_employeeId
                  (Permutation_sym (sort_perm rankScore cands)))).
      rewrite (Forall2_map_transfer _ employeeId r_employeeId _ _
                 (fun a b => candidateFor_id svc _ pd a b Hwk) Hf).
      unfold legalPool, CrewStateService.reservePool,
        CrewStateService.getCrewByState.
      repeat apply filter_keeps_distinct_keys.
      apply keyedBy_values_NoDup. apply Hwk.
  - intros c Hin.
    destruct (candidate_of_search svc params env l c Hres Hin)
      as [pd [r [Hpd [Hr [Hl Hc]]]]].
    exists r, pd. rewrite (candidateFor_id svc _ pd r c Hwk Hc).
    apply In_reservePool in Hr. destruct Hr as [Hv [Hty _]].
    split; [apply (keyedBy_value_get employeeId); [apply Hwk | exact Hv] |].
    split; [exact Hty |]. split; [exact Hpd |]. split; [exact Hl |].
    destruct Hc as [m [src [_ E]]]. subst c. reflexivity.
Qed.

Lemma search_offers_each_reserve_once_witness :
  wellKeyed Sample.twoReserves
  /\ mapResult (map r_employeeId)
       (CrewStateService.findReplacementCrew Sample.twoReserves
          (Sample.request (isoOf Sample.D1_1300) None None) Sample.env)
     = Ok ["20002"; "10001"]
  /\ NoDup ["20002"; "10001"].
Proof.
  split; [exact wellKeyed_twoReserves |]. split; [vm_compute; reflexivity |].
  destruct (CrewStateService.findReplacementCrew Sample.twoReserves
              (Sample.request (isoOf Sample.D1_1300) None None) Sample.env)
    as [l|e] eqn:E; [| vm_compute in E; discriminate E].
  destruct (search_offers_each_reserve_once Sample.twoReserves
              (Sample.request (isoOf Sample.D1_1300) None None) Sample.env l
              wellKeyed_twoReserves E) as [H _].
  assert (El : map r_employeeId l = ["20002"; "10001"]).
  { vm_compute in E. inversion E. reflexivity. }
  rewrite El in H. exact H.
Defined.

Lemma slice0_negative {A : Type} (l : list A) (e : Z) :
  e < 0 ->
  slice0 l e = firstn (Z.to_nat (Z.of_nat (List.length l) + e)) l.
Proof.
  intros He. unfold slice0.
  destruct (Z.ltb_spec e 0) as [_ | H]; [| lia].
  destruct (Z.le_gt_cases 0 (Z.of_nat (List.length l) + e)) as [H | H].
  - rewrite Z.max_l by exact H. reflexivity.
  - rewrite Z.max_r by lia.
    replace (Z.to_nat (Z.of_nat (List.length l) + e)) with 0%nat by lia.
    reflexivity.
Qed.

(** X13. The size of the result for every cap, with M legal reserves and
    a departure time that is a valid instant, far enough from the ends of
    the range of [Date] for the times of the proposed duty to be valid
    too: a cap that is not negative gives min(cap, M) candidates, so a
    cap of zero gives none and an omitted cap at most five; a negative
    cap is not rejected but counted from the end of the ranking, giving
    max(M + cap, 0) candidates.  The result never holds more than M
    candidates. *)
Theorem result_size_for_every_cap :
  forall (svc : ServiceState) (params : FindParams) (env : nat -> AuditSource)
         (t : Z),
    timeValue (p_departureTimeUtc params) = Some t ->
    3600000 - maxTime <= t <= maxTime - 19800000 ->
    exists l,
      CrewStateService.findReplacementCrew svc params env = Ok l
      /\ Z.of_nat (List.length l)
         = (if capOf params <? 0
            then Z.max
                   (Z.of_nat
                      (List.length
                         (legalPool svc params
                            (proposedDutyAt (p_departureTimeUtc params) t)))
                    + capOf params) 0
            else Z.min (capOf params)
                   (Z.of_nat
                      (List.length
                         (legalPool svc params
                            (proposedDutyAt (p_departureTimeUtc params) t)))))
      /\ (List.length l
          <= List.length
               (legalPool svc params
                  (proposedDutyAt (p_departureTimeUtc params) t)))%nat
      /\ (p_maxResults params = None -> (List.length l <= 5)%nat)
      /\ (p_maxResults params = Some 0 -> l = []).
Proof.
  intros svc params env t Ht Hr.
  pose proof (proposedDutyFor_valid _ t Ht Hr) as Hpd.
  set (pd := proposedDutyAt (p_departureTimeUtc params) t) in *.
  destruct (findReplacementCrew_ok svc params env pd Hpd) as [cands [Hf Hres]].
  pose proof (Permutation_length (sort_perm rankScore cands)) as Hlen.
  pose proof (Forall2_length_eq _ _ _ Hf) as Hlen'.
  change (cmpByKey rankScore) with CrewStateService.byRankScoreDesc in Hlen.
  eexists. split; [exact Hres |].
  assert (Hsize :
            Z.of_nat
              (List.length
                 (slice0 (sort CrewStateService.byRankScoreDesc cands)
                    (capOf params)))
            = (if capOf params <? 0
               then Z.max (Z.of_nat (List.length (legalPool svc params pd))
                           + capOf params) 0
               else Z.min (capOf params)
                      (Z.of_nat (List.length (legalPool svc params pd))))).
  { destruct (Z.ltb_spec (capOf params) 0) as [Hneg | Hpos].
    - rewrite slice0_negative by exact Hneg. rewrite length_firstn. lia.
    - rewrite slice0_length by exact Hpos. lia. }
  split; [exact Hsize |].
  split.
  { destruct (Z.ltb_spec (capOf params) 0); lia. }
  split.
  { intros Hnone.
    assert (Hcap : capOf params = 5) by (unfold capOf; rewrite Hnone; reflexivity).
    rewrite Hcap in *. change (5 <? 0) with false in Hsize. lia. }
  intros Hzero.
  assert (Hcap : capOf params = 0) by (unfold capOf; rewrite Hzero; reflexivity).
  rewrite Hcap in *. change (0 <? 0) with false in Hsize.
  destruct (slice0 _ 0); [reflexivity | cbn [List.length] in Hsize; lia].
Qed.

Lemma result_size_for_every_cap_witness :
  timeValue (p_departureTimeUtc
               (Sample.request (isoOf Sample.D1_1300) (Some (-1)%Z) None))
  = Some Sample.D1_1300
  /\ 3600000 - maxTime <= Sample.D1_1300 <= maxTime - 19800000
  /\ mapResult (map r_employeeId)
       (CrewStateService.findReplacementCrew Sample.twoReserves
          (Sample.request (isoOf Sample.D1_1300) (Some (-1)%Z) None) Sample.env)
     = Ok ["20002"]
  /\ exists l,
       CrewStateService.findReplacementCrew Sample.twoReserves
         (Sample.request (isoOf Sample.D1_1300) (Some (-1)%Z) None) Sample.env
       = Ok l
       /\ (List.length l
           <= List.length
                (legalPool Sample.twoReserves
                   (Sample.request (isoOf Sample.D1_1300) (Some (-1)%Z) None)
                   (proposedDutyAt (isoOf Sample.D1_1300) Sample.D1_1300)))%nat.
Proof.
  assert (Hr : 3600000 - maxTime <= Sample.D1_1300 <= maxTime - 19800000)
    by (vm_compute; split; discriminate).
  split; [reflexivity |]. split; [exact Hr |].
  split; [vm_compute; reflexivity |].
  destruct (result_size_for_every_cap Sample.twoReserves
              (Sample.request (isoOf Sample.D1_1300) (Some (-1)%Z) None)
              Sample.env Sample.D1_1300 eq_refl Hr)
    as [l [H1 [_ [H3 _]]]].
  exists l. split; [exact H1 | exact H3].
Defined.

(* ================================================================== *)
(** * Further properties of the crew swap *)
(* ================================================================== *)

(** X14. A swap naming a crew id the store does not hold returns an error
    result that names the missing id and leaves the service untouched,
    whether or not it is a dry run; the original crew id is looked at
    first. *)
Theorem swap_with_unknown_crew_is_an_error :
  forall (src : SwapSource) (input : ExecuteCrewSwapInput) (svc : ServiceState),
    (CrewStateService.getCrewStatus svc (originalCrewId input) = None ->
     Swap.executeCrewSwap src input svc
     = (SwapError
          ("Original crew member " ++ originalCrewId input ++ " not found")
          (Swap.generateTransactionId src),
        svc))
    /\ (CrewStateService.getCrewStatus svc (originalCrewId input) <> None ->
        CrewStateService.getCrewStatus svc (replacementCrewId input) = None ->
        Swap.executeCrewSwap src input svc
        = (SwapError
             ("Replacement crew member " ++ replacementCrewId input ++
              " not found")
             (Swap.generateTransactionId src),
           svc)).
Proof.
  intros src input svc. unfold Swap.executeCrewSwap. split.
  - intros Ho. rewrite Ho. reflexivity.
  - intros Ho Hr. rewrite Hr.
    destruct (CrewStateService.getCrewStatus svc (originalCrewId input));
      [reflexivity | contradiction].
Qed.

Lemma swap_with_unknown_crew_is_an_error_witness :
  CrewStateService.getCrewStatus Sample.dutyAndReserve "99999" = None
  /\ Swap.executeCrewSwap Sample.swapSource
       (mkSwapInput "AA1001" "CA" "99999" "88888" "sick call"
          (isoOf Sample.D1_1300) None None)
       Sample.dutyAndReserve
     = (SwapError "Original crew member 99999 not found" "swap_m4poam80_4fzyo8",
        Sample.dutyAndReserve)
  /\ snd (Swap.executeCrewSwap Sample.swapSource
            (mkSwapInput "AA1001" "CA" "10001" "88888" "sick call"
               (isoOf Sample.D1_1300) None None)
            Sample.dutyAndReserve)
     = Sample.dutyAndReserve.
Proof.
  split; [reflexivity |]. split.
  - rewrite (proj1 (swap_with_unknown_crew_is_an_error Sample.swapSource
                      (mkSwapInput "AA1001" "CA" "99999" "88888" "sick call"
                         (isoOf Sample.D1_1300) None None)
                      Sample.dutyAndReserve) eq_refl).
    vm_compute. reflexivity.
  - rewrite (proj2 (swap_with_unknown_crew_is_an_error Sample.swapSource
                      (mkSwapInput "AA1001" "CA" "10001" "88888" "sick call"
                         (isoOf Sample.D1_1300) None None)
                      Sample.dutyAndReserve)).
    + reflexivity.
    + vm_compute. discriminate.
    + reflexivity.
Defined.

Lemma In_plannedChanges_duty_state input ts o r c :
  In c (Swap.plannedChanges input ts o r) ->
  entity c = "duty_state" ->
  (entityId c = originalCrewId input
   /\ announcedState c
      = Some (Swap.newOriginalState (in_flightNumber input) o))
  \/ (entityId c = replacementCrewId input
      /\ announcedState c
         = Some (Swap.newReplacementState (in_flightNumber input)
                   (effectiveTimeUtc input) r)).
Proof.
  unfold Swap.plannedChanges.
  intros [E | [E | [E | [E | []]]]] He; subst c; cbn [entity] in He;
    try discriminate He.
  - left. split; reflexivity.
  - right. split; reflexivity.
Qed.

(** X15. A swap that is executed, on a well-keyed service holding two
    different crew ids.  Afterwards the state stored for the original
    crew is its old state with the state type RESERVE and with the
    flight removed from the assigned flights, every other field as
    before; the state stored for the replacement crew is its old state
    with the state type DUTY, the flight added at the end of the assigned
    flights and the effective time as report time, every other field as
    before.  Every other crew state and the crew members are untouched;
    the store holds the same ids in the same order and is still well
    keyed; and each duty-state change of the plan announces exactly the
    state now stored under its entity id. *)
Theorem executed_swap_moves_the_two_crews :
  forall (src : SwapSource) (input : ExecuteCrewSwapInput) (svc : ServiceState)
         (o r : CrewDutyState),
    wellKeyed svc ->
    CrewStateService.getCrewStatus svc (originalCrewId input) = Some o ->
    CrewStateService.getCrewStatus svc (replacementCrewId input) = Some r ->
    originalCrewId input <> replacementCrewId input ->
    dryRun input <> Some true ->
    CrewStateService.getCrewStatus (snd (Swap.executeCrewSwap src input svc))
      (originalCrewId input)
    = Some {| employeeId := employeeId o;
              stateStartUtc := stateStartUtc o;
              stateEndUtc := stateEndUtc o;
              stateType := RESERVE;
              currentLocation := currentLocation o;
              dutyHoursCumulative := dutyHoursCumulative o;
              restHoursCumulative := restHoursCumulative o;
              flightHoursMonth := flightHoursMonth o;
              flightHoursYear := flightHoursYear o;
              lastWoclExposure := lastWoclExposure o;
              consecutiveDutyDays := consecutiveDutyDays o;
              assignedFlights :=
                filter (fun f => negb (String.eqb f (in_flightNumber input)))
                       (assignedFlights o);
              cds_reportTimeUtc := cds_reportTimeUtc o |}
    /\ CrewStateService.getCrewStatus (snd (Swap.executeCrewSwap src input svc))
         (replacementCrewId input)
       = Some {| employeeId := employeeId r;
                 stateStartUtc := stateStartUtc r;
                 stateEndUtc := stateEndUtc r;
                 stateType := DUTY;
                 currentLocation := currentLocation r;
                 dutyHoursCumulative := dutyHoursCumulative r;
                 restHoursCumulative := restHoursCumulative r;
                 flightHoursMonth := flightHoursMonth r;
                 flightHoursYear := flightHoursYear r;
                 lastWoclExposure := lastWoclExposure r;
                 consecutiveDutyDays := consecutiveDutyDays r;
                 assignedFlights :=
                   (assignedFlights r ++ [in_flightNumber input])%list;
                 cds_reportTimeUtc := Some (effectiveTimeUtc input) |}
    /\ (forall st,
          CrewStateService.getCrewStatus
            (snd (Swap.executeCrewSwap src input svc)) (originalCrewId input)
          = Some st ->
          ~ In (in_flightNumber input) (assignedFlights st)
          /\ (forall f, f <> in_flightNumber input ->
                (In f (assignedFlights st) <-> In f (assignedFlights o))))
    /\ (forall id,
          id <> originalCrewId input -> id <> replacementCrewId input ->
          CrewStateService.getCrewStatus
            (snd (Swap.executeCrewSwap src input svc)) id
          = CrewStateService.getCrewStatus svc id)
    /\ crewMembers (snd (Swap.executeCrewSwap src input svc)) = crewMembers svc
    /\ keysOf (crewStates (snd (Swap.executeCrewSwap src input svc)))
       = keysOf (crewStates svc)
    /\ wellKeyed (snd (Swap.executeCrewSwap src input svc))
    /\ (forall c,
          In c (Swap.plannedChanges input (iso_text (clockAtSwapTimestamp src))
                  o r) ->
          entity c = "duty_state" ->
          exists s,
            announcedState c = Some s
            /\ CrewStateService.getCrewStatus
                 (snd (Swap.executeCrewSwap src input svc)) (entityId c)
               = Some s).
Proof.
  intros src input svc o r Hwk Ho Hr Hne Hd.
  destruct (swap_executed_updates_store src input svc o r Ho Hr Hd) as [E _].
  rewrite E. clear E.
  pose proof (keyedBy_get employeeId _ _ _ (proj1 Hwk) Ho) as Eo.
  pose proof (keyedBy_get employeeId _ _ _ (proj1 Hwk) Hr) as Er.
  set (o' := Swap.newOriginalState (in_flightNumber input) o).
  set (r' := Swap.newReplacementState (in_flightNumber input)
               (effectiveTimeUtc input) r).
  assert (Eo' : employeeId o' = originalCrewId input) by exact Eo.
  assert (Er' : employeeId r' = replacementCrewId input) by exact Er.
  set (svc1 := CrewStateService.updateCrewState svc o').
  assert (Horig : CrewStateService.getCrewStatus
                    (CrewStateService.updateCrewState svc1 r')
                    (originalCrewId input) = Some o').
  { rewrite (getCrewStatus_update_other svc1 r')
      by (rewrite Er'; exact Hne).
    rewrite <- Eo'. apply getCrewStatus_update_same. }
  assert (Hrepl : CrewStateService.getCrewStatus
                    (CrewStateService.updateCrewState svc1 r')
                    (replacementCrewId input) = Some r').
  { rewrite <- Er'. apply getCrewStatus_update_same. }
  split; [exact Horig |]. split; [exact Hrepl |].
  split.
  { intros st Hst. rewrite Horig in Hst. inversion Hst as [Est]. clear Hst.
    unfold o', Swap.newOriginalState. cbn [assignedFlights].
    split.
    - rewrite filter_In, String.eqb_refl. intros [_ H]. discriminate H.
    - intros f Hf. rewrite filter_In. split; [tauto |].
      intros Hin. split; [exact Hin |].
      destruct (String.eqb_spec f (in_flightNumber input)) as [Ef | _];
        [contradiction | reflexivity]. }
  split.
  { intros id H1 H2.
    rewrite (getCrewStatus_update_other svc1 r') by congruence.
    unfold svc1.
    rewrite (getCrewStatus_update_other svc o') by congruence.
    reflexivity. }
  split; [reflexivity |].
  split.
  { rewrite (keysOf_update svc1 r').
    assert (G1 : CrewStateService.getCrewStatus svc1 (employeeId r') = Some r).
    { rewrite Er'. unfold svc1.
      rewrite (getCrewStatus_update_other svc o')
        by (rewrite Eo'; congruence).
      exact Hr. }
    rewrite G1. unfold svc1.
    rewrite (keysOf_update svc o'), Eo', Ho. reflexivity. }
  split.
  { apply wellKeyed_updateCrewState, wellKeyed_updateCrewState. exact Hwk. }
  intros c Hc He.
  destruct (In_plannedChanges_duty_state _ _ _ _ _ Hc He)
    as [[Eid Ea] | [Eid Ea]].
  - exists o'. rewrite Eid. split; [exact Ea | exact Horig].
  - exists r'. rewrite Eid. split; [exact Ea | exact Hrepl].
Qed.

Lemma wellKeyed_dutyAndReserve : wellKeyed Sample.dutyAndReserve.
Proof.
  unfold Sample.dutyAndReserve.
  repeat first [apply wellKeyed_updateCrewState | apply wellKeyed_addCrewMember].
  exact wellKeyed_empty.
Qed.

Lemma executed_swap_moves_the_two_crews_witness :
  wellKeyed Sample.dutyAndReserve
  /\ originalCrewId (Sample.swapInput None)
     <> replacementCrewId (Sample.swapInput None)
  /\ dryRun (Sample.swapInput None) <> Some true
  /\ map (fun s => (employeeId s, stateType s, assignedFlights s))
       (Map_values
          (crewStates
             (snd (Swap.executeCrewSwap Sample.swapSource
                     (Sample.swapInput None) Sample.dutyAndReserve))))
     = [("10001", RESERVE, ["AA1002"]); ("10002", DUTY, ["AA1001"])]
  /\ keysOf (crewStates
               (snd (Swap.executeCrewSwap Sample.swapSource
                       (Sample.swapInput None) Sample.dutyAndReserve)))
     = keysOf (crewStates Sample.dutyAndReserve).
Proof.
  assert (H1 : originalCrewId (Sample.swapInput None)
               <> replacementCrewId (Sample.swapInput None))
    by (vm_compute; discriminate).
  assert (H2 : dryRun (Sample.swapInput None) <> Some true)
    by (vm_compute; discriminate).
  split; [exact wellKeyed_dutyAndReserve |].
  split; [exact H1 |]. split; [exact H2 |].
  split; [vm_compute; reflexivity |].
  eapply (executed_swap_moves_the_two_crews Sample.swapSource
            (Sample.swapInput None) Sample.dutyAndReserve _ _
            wellKeyed_dutyAndReserve eq_refl eq_refl H1 H2).
Defined.

(** X16. A swap of a crew member with themselves is not rejected: when it
    is executed on a well-keyed service, the crew member ends on DUTY
    with the flight added once more at the end of the assigned flights
    (nothing is removed), and the effective time as report time. *)
Theorem self_swap_ends_on_duty :
  forall (src : SwapSource) (input : ExecuteCrewSwapInput) (svc : ServiceState)
         (o : CrewDutyState),
    wellKeyed svc ->
    CrewStateService.getCrewStatus svc (originalCrewId input) = Some o ->
    replacementCrewId input = originalCrewId input ->
    dryRun input <> Some true ->
    exists s,
      CrewStateService.getCrewStatus (snd (Swap.executeCrewSwap src input svc))
        (originalCrewId input) = Some s
      /\ stateType s = DUTY
      /\ assignedFlights s = (assignedFlights o ++ [in_flightNumber input])%list
      /\ cds_reportTimeUtc s = Some (effectiveTimeUtc input)
      /\ (forall id,
            id <> originalCrewId input ->
            CrewStateService.getCrewStatus
              (snd (Swap.executeCrewSwap src input svc)) id
            = CrewStateService.getCrewStatus svc id).
Proof.
  intros src input svc o Hwk Ho Hsame Hd.
  assert (Hr : CrewStateService.getCrewStatus svc (replacementCrewId input)
               = Some o) by (rewrite Hsame; exact Ho).
  destruct (swap_executed_updates_store src input svc o o Ho Hr Hd) as [E _].
  rewrite E. clear E.
  pose proof (keyedBy_get employeeId _ _ _ (proj1 Hwk) Ho) as Eo.
  set (o' := Swap.newOriginalState (in_flightNumber input) o).
  set (r' := Swap.newReplacementState (in_flightNumber input)
               (effectiveTimeUtc input) o).
  assert (Eo' : employeeId o' = originalCrewId input) by exact Eo.
  assert (Er' : employeeId r' = originalCrewId input) by exact Eo.
  exists r'. split.
  { rewrite <- Er'. apply getCrewStatus_update_same. }
  split; [reflexivity |]. split; [reflexivity |]. split; [reflexivity |].
  intros id Hid.
  rewrite (getCrewStatus_update_other
             (CrewStateService.updateCrewState svc o') r') by congruence.
  rewrite (getCrewStatus_update_other svc o') by congruence.
  reflexivity.
Qed.

Lemma self_swap_ends_on_duty_witness :
  wellKeyed Sample.dutyAndReserve
  /\ map (fun s => (employeeId s, stateType s, assignedFlights s))
       (Map_values
          (crewStates
             (snd (Swap.executeCrewSwap Sample.swapSource
                     (mkSwapInput "AA1001" "CA" "10001" "10001" "test"
                        (isoOf Sample.D1_1300) None None)
                     Sample.dutyAndReserve))))
     = [("10001", DUTY, ["AA1001"; "AA1002"; "AA1001"]); ("10002", RESERVE, [])]
  /\ exists s,
       CrewStateService.getCrewStatus
         (snd (Swap.executeCrewSwap Sample.swapSource
                 (mkSwapInput "AA1001" "CA" "10001" "10001" "test"
                    (isoOf Sample.D1_1300) None None)
                 Sample.dutyAndReserve)) "10001" = Some s
       /\ stateType s = DUTY.
Proof.
  split; [exact wellKeyed_dutyAndReserve |].
  split; [vm_compute; reflexivity |].
  destruct (self_swap_ends_on_duty Sample.swapSource
              (mkSwapInput "AA1001" "CA" "10001" "10001" "test"
                 (isoOf Sample.D1_1300) None None)
              Sample.dutyAndReserve _ wellKeyed_dutyAndReserve eq_refl eq_refl)
    as [s [H1 [H2 _]]].
  - vm_compute. discriminate.
  - exists s. split; [exact H1 | exact H2].
Defined.

Lemma candidate_is_stored_reserve svc params env l c :
  wellKeyed svc ->
  CrewStateService.findReplacementCrew svc params env = Ok l ->
  In c l ->
  exists st,
    CrewStateService.getCrewStatus svc (r_employeeId c) = Some st
    /\ stateType st = RESERVE.
Proof.
  intros Hwk Hres Hin.
  destruct (candidate_of_search svc params env l c Hres Hin)
    as [pd [r [_ [Hr [_ Hc]]]]].
  exists r. rewrite (candidateFor_id svc _ pd r c Hwk Hc).
  apply In_reservePool in Hr. destruct Hr as [Hv [Hty _]].
  split; [apply (keyedBy_value_get employeeId); [apply Hwk | exact Hv] | exact Hty].
Qed.

(** X17. The swap and the search compose: after a swap has been executed
    on a well-keyed service, no replacement search on the resulting
    service offers the crew member who was just put on duty, whatever the
    request; and when the two crew ids differ, the crew member who was
    taken off is back in the reserve pool of every request that matches
    their member record. *)
Theorem replacement_is_no_longer_offered :
  forall (src : SwapSource) (input : ExecuteCrewSwapInput) (svc : ServiceState)
         (o r : CrewDutyState),
    wellKeyed svc ->
    CrewStateService.getCrewStatus svc (originalCrewId input) = Some o ->
    CrewStateService.getCrewStatus svc (replacementCrewId input) = Some r ->
    dryRun input <> Some true ->
    (forall params env l c,
       CrewStateService.findReplacementCrew
         (snd (Swap.executeCrewSwap src input svc)) params env = Ok l ->
       In c l ->
       r_employeeId c <> replacementCrewId input)
    /\ (originalCrewId input <> replacementCrewId input ->
        forall params,
          CrewStateService.matchesRequest svc params o = true ->
          In (Swap.newOriginalState (in_flightNumber input) o)
             (CrewStateService.reservePool
                (snd (Swap.executeCrewSwap src input svc)) params)).
Proof.
  intros src input svc o r Hwk Ho Hr Hd.
  destruct (swap_executed_updates_store src input svc o r Ho Hr Hd)
    as [E Hrepl].
  pose proof (keyedBy_get employeeId _ _ _ (proj1 Hwk) Ho) as Eo.
  pose proof (keyedBy_get employeeId _ _ _ (proj1 Hwk) Hr) as Er.
  assert (Hwk' : wellKeyed (snd (Swap.executeCrewSwap src input svc))).
  { rewrite E. apply wellKeyed_updateCrewState, wellKeyed_updateCrewState.
    exact Hwk. }
  split.
  - intros params env l c Hres Hin Hid.
    destruct (candidate_is_stored_reserve _ params env l c Hwk' Hres Hin)
      as [st [Hst Hty]].
    rewrite Hid, <- Er, Hrepl in Hst. inversion Hst. subst st.
    discriminate Hty.
  - intros Hne params Hm.
    set (o' := Swap.newOriginalState (in_flightNumber input) o).
    unfold CrewStateService.reservePool. apply filter_In. split.
    + apply In_getCrewByState. split; [| reflexivity].
      assert (G : CrewStateService.getCrewStatus
                    (snd (Swap.executeCrewSwap src input svc)) (employeeId o')
                  = Some o').
      { rewrite E.
        rewrite getCrewStatus_update_other
          by (change (employeeId o') with (employeeId o);
              change (employeeId (Swap.newReplacementState
                                    (in_flightNumber input)
                                    (effectiveTimeUtc input) r))
                with (employeeId r);
              congruence).
        apply getCrewStatus_update_same. }
      apply Map_get_In in G. unfold Map_values. apply in_map_iff.
      exists (employeeId o', o'). split; [reflexivity | exact G].
    + unfold CrewStateService.matchesRequest in *.
      rewrite E. exact Hm.
Qed.

Lemma replacement_is_no_longer_offered_witness :
  wellKeyed Sample.twoReserves
  /\ mapResult (map r_employeeId)
       (CrewStateService.findReplacementCrew Sample.twoReserves
          (Sample.request (isoOf Sample.D1_1300) None None) Sample.env)
     = Ok ["20002"; "10001"]
  /\ mapResult (map r_employeeId)
       (CrewStateService.findReplacementCrew
          (snd (Swap.executeCrewSwap Sample.swapSource
                  (mkSwapInput "AA1001" "FO" "10001" "20002" "sick call"
                     (isoOf Sample.D1_1300) None None)
                  Sample.twoReserves))
          (Sample.request (isoOf Sample.D1_1300) None None) Sample.env)
     = Ok ["10001"]
  /\ forall l c,
       CrewStateService.findReplacementCrew
         (snd (Swap.executeCrewSwap Sample.swapSource
                 (mkSwapInput "AA1001" "FO" "10001" "20002" "sick call"
                    (isoOf Sample.D1_1300) None None)
                 Sample.twoReserves))
         (Sample.request (isoOf Sample.D1_1300) None None) Sample.env = Ok l ->
       In c l -> r_employeeId c <> "20002".
Proof.
  split; [exact wellKeyed_twoReserves |].
  split; [vm_compute; reflexivity |]. split; [vm_compute; reflexivity |].
  intros l c.
  eapply (replacement_is_no_longer_offered Sample.swapSource
            (mkSwapInput "AA1001" "FO" "10001" "20002" "sick call"
               (isoOf Sample.D1_1300) None None)
            Sample.twoReserves _ _ wellKeyed_twoReserves eq_refl eq_refl).
  vm_compute. discriminate.
Defined.

Lemma markSent_facts clock k ns :
  map recipientId (Swap.markSent clock k ns) = map recipientId ns
  /\ map message (Swap.markSent clock k ns) = map message ns
  /\ Forall (fun n => n_status n = n_sent /\ sentAt n <> None)
       (Swap.markSent clock k ns).
Proof.
  revert k. induction ns as [|n ns IH]; intros k; simpl.
  - repeat split; constructor.
  - destruct (IH (S k)) as [H1 [H2 H3]]. rewrite H1, H2.
    repeat split. constructor; [split; [reflexivity | discriminate] | exact H3].
Qed.

(** X18. The dry run is an honest preview of the execution.  For a swap
    whose two crew ids are in the store, the executed swap reports the
    same transaction id and timestamp, the same cost impact, and the
    entity, id and action of exactly the four changes the dry run lists;
    it addresses the same recipients as the dry run, each notification
    now marked sent with a time, and offers a rollback, which the dry run
    does not.  Two crew members are notified unless [notifyCrews] is
    false, and then nobody is.  The cost impact is 250 exactly when the
    replacement crew has flown more than 75 hours in the month, else 0. *)
Theorem dry_run_previews_the_execution :
  forall (src : SwapSource) (input : ExecuteCrewSwapInput) (svc : ServiceState)
         (o r : CrewDutyState),
    CrewStateService.getCrewStatus svc (originalCrewId input) = Some o ->
    CrewStateService.getCrewStatus svc (replacementCrewId input) = Some r ->
    exists tx ts changes notes cost sent deadline msg msg',
      fst (Swap.executeCrewSwap src (withDryRun input (Some true)) svc)
      = SwapPreview tx ts tx_pending true msg changes notes cost false
      /\ fst (Swap.executeCrewSwap src (withDryRun input (Some false)) svc)
         = SwapDone tx ts tx_completed (in_flightNumber input)
             (in_position input)
             (map (fun c => mkChangeSummary (entity c) (entityId c) (action c))
                changes)
             sent cost true deadline msg'
      /\ map entityId changes
         = [in_flightNumber input ++ "-" ++ originalCrewId input;
            in_flightNumber input ++ "-" ++ replacementCrewId input;
            originalCrewId input; replacementCrewId input]
      /\ map action changes = [act_delete; act_create; act_update; act_update]
      /\ map ns_recipientId sent = map recipientId notes
      /\ Forall (fun n => ns_status n = n_sent /\ ns_sentAt n <> None) sent
      /\ Forall (fun n => n_status n = n_pending /\ sentAt n = None) notes
      /\ (notifyCrews input = Some false -> notes = [])
      /\ (notifyCrews input <> Some false ->
          map recipientId notes
          = [originalCrewId input; replacementCrewId input])
      /\ totalImpactUsd cost
         = (if gtb (flightHoursMonth r) (ofZ 75) then 250 else 0)
      /\ additionalCost cost = totalImpactUsd cost
      /\ b_overtimePremium (breakdown cost) = totalImpactUsd cost.
Proof.
  intros src input svc o r Ho Hr.
  unfold Swap.executeCrewSwap.
  cbn [withDryRun dryRun originalCrewId replacementCrewId in_flightNumber
       in_position effectiveTimeUtc fst].
  rewrite Ho, Hr. cbn [fst].
  do 9 eexists.
  split; [reflexivity |]. split; [reflexivity |].
  split; [reflexivity |]. split; [reflexivity |].
  destruct (markSent_facts (clockAtSent src) 0
              (Swap.plannedNotifications (withDryRun input (Some false))))
    as [M1 [_ M3]].
  split.
  { rewrite map_map. cbn [ns_recipientId]. exact M1. }
  split.
  { rewrite Forall_forall in *. intros n Hn. apply in_map_iff in Hn.
    destruct Hn as [x [E Hx]]. subst n. cbn [ns_status ns_sentAt].
    exact (M3 x Hx). }
  unfold Swap.plannedNotifications. cbn [withDryRun notifyCrews].
  split.
  { destruct (notifyCrews input) as [[|]|]; repeat constructor. }
  split.
  { intros E. rewrite E. reflexivity. }
  split.
  { intros E. destruct (notifyCrews input) as [[|]|];
      [reflexivity | congruence | reflexivity]. }
  unfold Swap.calculateSwapCost.
  cbn [totalImpactUsd additionalCost breakdown b_overtimePremium].
  destruct (gtb (flightHoursMonth r) (ofZ 75)); repeat split.
Qed.

Lemma dry_run_previews_the_execution_witness :
  CrewStateService.getCrewStatus Sample.dutyAndReserve
    (originalCrewId (Sample.swapInput None)) <> None
  /\ CrewStateService.getCrewStatus Sample.dutyAndReserve
       (replacementCrewId (Sample.swapInput None)) <> None
  /\ exists tx ts changes notes cost,
       fst (Swap.executeCrewSwap Sample.swapSource
              (withDryRun (Sample.swapInput None) (Some true))
              Sample.dutyAndReserve)
       = SwapPreview tx ts tx_pending true
           "Dry run completed successfully - no changes made"
           changes notes cost false
       /\ List.length changes = 4%nat.
Proof.
  split; [vm_compute; discriminate |].
  split; [vm_compute; discriminate |].
  destruct (dry_run_previews_the_execution Sample.swapSource
              (Sample.swapInput None) Sample.dutyAndReserve _ _
              eq_refl eq_refl)
    as [tx [ts [changes [notes [cost [sent [dl [msg [msg' H]]]]]]]]].
  destruct H as [H1 [_ [H3 _]]].
  exists tx, ts, changes, notes, cost. split.
  - rewrite H1. vm_compute in H1. inversion H1. reflexivity.
  - rewrite <- (length_map entityId), H3. reflexivity.
Defined.

(* ================================================================== *)
(** * The find-replacement-crew tool *)
(* ================================================================== *)

Lemma candidate_facts svc params env l c :
  CrewStateService.findReplacementCrew svc params env = Ok l ->
  In c l ->
  isLegal (legality c) = true
  /\ violations (legality c) = []
  /\ gtb (totalUsd (cost c)) (ofZ 1000) = false
  /\ 75 <= rankScore c <= 100.
Proof.
  intros Hres Hin.
  destruct (candidate_of_search svc params env l c Hres Hin)
    as [pd [r [Hpd [_ [Hl [m [src [_ E]]]]]]]].
  destruct (proposedDutyFor_totals _ _ Hpd) as [Hd [Hf _]].
  unfold legalFor in Hl.
  rewrite (isLegal_src_irrelevant src0 src) in Hl.
  pose proof (search_duty_warnings src r pd Hd) as Hw.
  destruct (search_duty_cost r pd Hd Hf) as [Hc _].
  subst c. unfold CrewStateService.candidateOf.
  cbn [legality cost rankScore].
  split; [exact Hl |].
  split; [apply isLegal_iff_no_violation; exact Hl |].
  split; [exact Hc |].
  unfold CrewStateService.calculateRankScore. rewrite Hc.
  destruct (gtb (overtimePremium (CrewStateService.calculateCrewCost r pd))
              (ofZ 0));
    destruct (ltb (dutyHoursCumulative r) (ofZ 20));
    destruct (consecutiveDutyDays r <? 3); lia.
Qed.

Lemma tool_pool_is_service_pool svc input :
  CrewStateService.reservePool svc (FindReplacementCrewTool.serviceParams input)
  = CrewStateService.reservePool svc input.
Proof. reflexivity. Qed.

Lemma In_cond_app {A : Type} (b : bool) (l : list A) (y x : A) :
  In x (if b then (l ++ [y])%list else l) <-> In x l \/ (b = true /\ x = y).
Proof.
  destruct b.
  - rewrite in_app_iff. simpl. intuition.
  - intuition discriminate.
Qed.

Lemma no_high_cost_recommendation (l : list CrewReplacement) :
  (forall c, In c l -> gtb (totalUsd (cost c)) (ofZ 1000) = false) ->
  ~ In "HIGH COST: All options involve premium pay or deadheads"
       (FindReplacementCrewTool.generateOverallRecommendations l).
Proof.
  intros Hall. unfold FindReplacementCrewTool.generateOverallRecommendations.
  destruct l as [|c l']; [cbn; intros [H | []]; discriminate H |].
  set (l := c :: l') in *.
  replace (List.length l =? 0)%nat with false by reflexivity.
  assert (Hf : filter (fun c0 => gtb (totalUsd (cost c0)) (ofZ 1000)) l = []).
  { apply nil_iff_no_member. intros x Hx. apply filter_In in Hx.
    destruct Hx as [Hx Hg]. rewrite (Hall x Hx) in Hg. discriminate Hg. }
  rewrite Hf.
  replace (List.length (@nil CrewReplacement) =? List.length l)%nat with false
    by reflexivity.
  match goal with
  | |- ~ In _ (if (List.length ?rs =? 0)%nat then _ else _) =>
      set (recs := rs);
      assert (Hrecs : ~ In "HIGH COST: All options involve premium pay or deadheads" recs)
  end.
  { unfold recs. rewrite In_cond_app, In_cond_app. simpl.
    intros [[[] | [_ H]] | [_ H]]; discriminate H. }
  destruct (List.length recs =? 0)%nat; [| exact Hrecs].
  rewrite in_app_iff. intros [H | [H | []]]; [exact (Hrecs H) | discriminate H].
Qed.

(** X19. What the find-replacement-crew tool reports for a candidate is
    the same for every candidate: the verdict shown is legal with an
    empty list of violations, the crew is reported rest compliant, the
    remaining duty is always 13 hours, the rank score lies between 75 and
    100 and the recommendation is therefore EXCELLENT or GOOD, never
    ACCEPTABLE or USE WITH CAUTION.  The overall recommendations never
    include the HIGH COST line. *)
Theorem tool_candidates_all_read_legal_with_13_hours_left :
  forall (src : FindSource) (input : FindParams) (svc : ServiceState),
    (forall v,
       In v (candidatesOf
               (FindReplacementCrewTool.findReplacementCrew src input svc)) ->
       lv_isLegal (cv_legality v) = true
       /\ lv_violations (cv_legality v) = []
       /\ restCompliant (cv_legality v) = true
       /\ (exists q, dutyRemainingHours (cv_legality v) = Fin q /\ (q == 13)%Q)
       /\ 75 <= cv_rankScore v <= 100
       /\ (cv_recommendation v
           = "EXCELLENT: Optimal crew choice with no concerns"
           \/ cv_recommendation v
              = "GOOD: Suitable crew with minor considerations"))
    /\ ~ In "HIGH COST: All options involve premium pay or deadheads"
            (recommendationsOf
               (FindReplacementCrewTool.findReplacementCrew src input svc)).
Proof.
  intros src input svc.
  unfold FindReplacementCrewTool.findReplacementCrew.
  destruct (CrewStateService.findReplacementCrew svc
              (FindReplacementCrewTool.serviceParams input) (auditSources src))
    as [l|e] eqn:Hres; cbn [candidatesOf recommendationsOf].
  - split.
    + intros v Hv. apply in_map_iff in Hv. destruct Hv as [c [E Hc]]. subst v.
      destruct (candidate_facts _ _ _ _ _ Hres Hc) as [Hl [Hv [_ Hs]]].
      unfold FindReplacementCrewTool.viewOf.
      cbn [cv_legality lv_isLegal lv_violations restCompliant
           dutyRemainingHours cv_rankScore cv_recommendation].
      unfold FindReplacementCrewTool.calculateRemainingDuty,
        FindReplacementCrewTool.generateRecommendation.
      rewrite Hv. cbn [map filter List.length Nat.eqb find List.find orZero].
      split; [exact Hl |]. split; [reflexivity |]. split; [reflexivity |].
      split; [eexists; split; [reflexivity | reflexivity] |].
      split; [exact Hs |].
      destruct (Z.geb_spec (rankScore c) 90); [left; reflexivity |].
      destruct (Z.geb_spec (rankScore c) 75); [right; reflexivity | lia].
    + apply no_high_cost_recommendation. intros c Hc.
      apply (candidate_facts _ _ _ _ _ Hres Hc).
  - split; [intros v [] | intros []].
Qed.

(** X20. The outcomes of the find-replacement-crew tool.  A departure time
    that is no valid timestamp, with a pool that is not empty, gives the
    error response with the message of the exception; an empty pool gives
    a normal response without candidates whose only recommendation is NO
    LEGAL CREW FOUND; and every normal response counts its candidates as
    [legalCount], reports ten more as searched, names the requested base
    as the only base searched, and holds at most five candidates when no
    cap was given. *)
Theorem tool_outcomes :
  forall (src : FindSource) (input : FindParams) (svc : ServiceState),
    (timeValue (p_departureTimeUtc input) = None ->
     CrewStateService.reservePool svc input <> [] ->
     FindReplacementCrewTool.findReplacementCrew src input svc
     = FindError "Invalid time value" (p_flightNumber input) (p_position input)
         (p_departureTimeUtc input))
    /\ (CrewStateService.reservePool svc input = [] ->
        exists meta,
          FindReplacementCrewTool.findReplacementCrew src input svc
          = FindOk (p_flightNumber input) (p_position input)
              (p_departureTimeUtc input) [] meta
              ["NO LEGAL CREW FOUND: Consider deadhead from another base or cancel flight"]
          /\ legalCount meta = 0 /\ searchedCount meta = 10)
    /\ (forall f p d cs meta recs,
          FindReplacementCrewTool.findReplacementCrew src input svc
          = FindOk f p d cs meta recs ->
          legalCount meta = Z.of_nat (List.length cs)
          /\ searchedCount meta = legalCount meta + 10
          /\ responseTimeMs meta = clockAtResponse src - clockAtStart src
          /\ basesSearched meta = [p_base input]
          /\ recs <> []
          /\ (p_maxResults input = None -> (List.length cs <= 5)%nat)).
Proof.
  intros src input svc.
  unfold FindReplacementCrewTool.findReplacementCrew.
  split; [| split].
  - intros Ht Hp.
    rewrite findReplacementCrew_unfold, tool_pool_is_service_pool.
    destruct (CrewStateService.reservePool svc input) as [|r rs] eqn:Hpool;
      [contradiction |].
    assert (Hin : In r (CrewStateService.reservePool svc input))
      by (rewrite Hpool; left; reflexivity).
    apply In_reservePool in Hin. destruct Hin as [_ [_ [m [Hm _]]]].
    cbn [CrewStateService.collectCandidates].
    rewrite Hm.
    change (p_departureTimeUtc (FindReplacementCrewTool.serviceParams input))
      with (p_departureTimeUtc input).
    rewrite (proposedDutyFor_invalid _ Ht). reflexivity.
  - intros Hp.
    rewrite findReplacementCrew_unfold, tool_pool_is_service_pool, Hp.
    cbn [CrewStateService.collectCandidates bind sort fold_right].
    rewrite slice0_nil. eexists. split; [reflexivity |].
    split; reflexivity.
  - intros f p d cs meta recs.
    destruct (CrewStateService.findReplacementCrew svc
                (FindReplacementCrewTool.serviceParams input)
                (auditSources src)) as [l|e] eqn:Hres; [| discriminate].
    intros H. inversion H. subst. clear H.
    cbn [legalCount searchedCount responseTimeMs basesSearched].
    rewrite length_map.
    split; [reflexivity |]. split; [reflexivity |].
    split; [reflexivity |]. split; [reflexivity |].
    split.
    { unfold FindReplacementCrewTool.generateOverallRecommendations.
      destruct (List.length l =? 0)%nat; [discriminate |].
      match goal with
      | |- (if (List.length ?rs =? 0)%nat then _ else _) <> [] =>
          destruct rs as [|x xs] eqn:E
      end; cbn; discriminate. }
    intros Hnone.
    destruct (findReplacementCrew_ok_cases _ _ _ _ Hres)
      as [[_ E] | [pd [cands [_ [_ E]]]]]; subst l; [simpl; lia |].
    unfold capOf, FindReplacementCrewTool.serviceParams.
    cbn [p_maxResults]. rewrite Hnone.
    rewrite slice0_nonneg by lia. rewrite length_firstn. lia.
Qed.

Lemma tool_candidates_all_read_legal_with_13_hours_left_witness :
  map (fun v => (cv_employeeId v, cv_rankScore v, cv_recommendation v,
                 dutyRemainingHours (cv_legality v)))
    (candidatesOf
       (FindReplacementCrewTool.findReplacementCrew
          (mkFindSource 1734271200000 1734271200008 Sample.env)
          (Sample.request (isoOf Sample.D1_1300) (Some 1) None)
          Sample.twoReserves))
  = [("20002", 100, "EXCELLENT: Optimal crew choice with no concerns",
      Fin (13 - 0))]
  /\ ~ In "HIGH COST: All options involve premium pay or deadheads"
          (recommendationsOf
             (FindReplacementCrewTool.findReplacementCrew
                (mkFindSource 1734271200000 1734271200008 Sample.env)
                (Sample.request (isoOf Sample.D1_1300) (Some 1) None)
                Sample.twoReserves)).
Proof.
  split; [vm_compute; reflexivity |].
  apply (tool_candidates_all_read_legal_with_13_hours_left
           (mkFindSource 1734271200000 1734271200008 Sample.env)
           (Sample.request (isoOf Sample.D1_1300) (Some 1) None)
           Sample.twoReserves).
Defined.

Lemma tool_outcomes_witness :
  timeValue (p_departureTimeUtc (Sample.request notATimestamp None None)) = None
  /\ CrewStateService.reservePool Sample.reserveAway
       (Sample.request notATimestamp None None) <> []
  /\ FindReplacementCrewTool.findReplacementCrew
       (mkFindSource 1734271200000 1734271200008 Sample.env)
       (Sample.request notATimestamp None None) Sample.reserveAway
     = FindError "Invalid time value" "AA1001" "FO" notATimestamp.
Proof.
  assert (Hp : CrewStateService.reservePool Sample.reserveAway
                 (Sample.request notATimestamp None None) <> [])
    by (vm_compute; discriminate).
  split; [reflexivity |]. split; [exact Hp |].
  apply (tool_outcomes (mkFindSource 1734271200000 1734271200008 Sample.env)
           (Sample.request notATimestamp None None) Sample.reserveAway);
    [reflexivity | exact Hp].
Defined.

(* ================================================================== *)
(** * The validate-crew-legality tool *)
(* ================================================================== *)

Lemma dutyHours_valid pdi ts te :
  timeValue (pdi_startTimeUtc pdi) = Some ts ->
  timeValue (pdi_endTimeUtc pdi) = Some te ->
  totalDutyHours (ValidateCrewLegalityTool.dutyPeriodOf pdi)
  = Fin ((inject_Z te - inject_Z ts) / inject_Z 3600000).
Proof.
  intros Hs He. unfold ValidateCrewLegalityTool.dutyPeriodOf, Date_ofString.
  cbn [totalDutyHours]. rewrite Hs, He. reflexivity.
Qed.

Lemma dutyHours_invalid pdi :
  timeValue (pdi_startTimeUtc pdi) = None
  \/ timeValue (pdi_endTimeUtc pdi) = None ->
  totalDutyHours (ValidateCrewLegalityTool.dutyPeriodOf pdi) = NaN.
Proof.
  unfold ValidateCrewLegalityTool.dutyPeriodOf, Date_ofString.
  cbn [totalDutyHours]. intros [H | H]; rewrite H.
  - destruct (timeValue (pdi_endTimeUtc pdi)); reflexivity.
  - destruct (timeValue (pdi_startTimeUtc pdi)); reflexivity.
Qed.

Lemma hours_gt_iff (te ts n : Z) :
  (inject_Z n < (inject_Z te - inject_Z ts) / inject_Z 3600000)%Q
  <-> n * 3600000 < te - ts.
Proof.
  unfold Qlt, Qdiv, Qmult, Qinv, Qminus, Qplus, Qopp, inject_Z. simpl.
  split; intros H; lia.
Qed.

Lemma hasRule_fdp_iff src st d cats :
  In "part117" cats ->
  hasRule "117.25(d)" (violations (LegalityEngine.validateDuty src st d cats))
  <-> gt (totalDutyHours d) (ofZ 13).
Proof.
  intros Hc. split.
  - intros [x [Hx Hr]]. apply In_violations in Hx. destruct Hx as [_ Hx].
    apply part117Violations_by_rule in Hx.
    destruct Hx as [[_ H] | [[H _] | [[H _] | [H _]]]];
      try (rewrite H in Hr; discriminate).
    apply checkFlightDutyPeriod_some in H. tauto.
  - intros Hgt. destruct (checkFlightDutyPeriod_gt d Hgt) as [x Hx].
    exists x. split.
    + apply In_violations. split; [exact Hc |].
      apply In_part117Violations. left. exact Hx.
    + apply checkFlightDutyPeriod_some in Hx. tauto.
Qed.

(** X21. The validate-crew-legality tool on an employee id the store does
    not hold returns the not-found error, flagged not legal, without
    running any check; on a known id it returns the verdict of
    [validateDuty] for the stored state, under the categories given or,
    when none are given, under [part117] and [fatigue_risk]. *)
Theorem validate_tool_looks_the_crew_up :
  forall (src : AuditSource) (input : ValidateCrewLegalityInput)
         (svc : ServiceState),
    (CrewStateService.getCrewStatus svc (vi_employeeId input) = None ->
     ValidateCrewLegalityTool.validateCrewLegality src input svc
     = ValidateError ("Crew member " ++ vi_employeeId input ++ " not found")
         false)
    /\ (forall st,
          CrewStateService.getCrewStatus svc (vi_employeeId input) = Some st ->
          exists cur h f,
            ValidateCrewLegalityTool.validateCrewLegality src input svc
            = ValidateOk (vi_employeeId input)
                (LegalityEngine.validateDuty src st
                   (ValidateCrewLegalityTool.dutyPeriodOf (vi_proposedDuty input))
                   (match vi_checkCategories input with
                    | Some cs => cs
                    | None => ["part117"; "fatigue_risk"]
                    end))
                cur h f
            /\ ccs_location cur = currentLocation st
            /\ ccs_stateType cur = stateType st
            /\ releaseTimeUtc
                 (ValidateCrewLegalityTool.dutyPeriodOf (vi_proposedDuty input))
               = pdi_endTimeUtc (vi_proposedDuty input)).
Proof.
  intros src input svc.
  unfold ValidateCrewLegalityTool.validateCrewLegality. split.
  - intros H. rewrite H. reflexivity.
  - intros st H. rewrite H. do 3 eexists.
    split; [reflexivity |]. repeat split.
Qed.

(** X22. The duty length the validate-crew-legality tool checks is the
    time from the start to the end of the proposed duty.  For a known
    crew member and categories holding [part117] (or none given): with
    valid start and end instants the verdict holds the duty-length
    violation exactly when the end is more than 13 hours after the start,
    so an end before the start is never flagged; and when the start or
    the end is no valid timestamp there is no duty-length violation. *)
Theorem validate_tool_duty_length_from_timestamps :
  forall (src : AuditSource) (input : ValidateCrewLegalityInput)
         (svc : ServiceState) (cur : CrewCurrentState)
         (v : LegalityCheck) (h f : number),
    In "part117" (match vi_checkCategories input with
                  | Some cs => cs
                  | None => ["part117"; "fatigue_risk"]
                  end) ->
    ValidateCrewLegalityTool.validateCrewLegality src input svc
    = ValidateOk (vi_employeeId input) v cur h f ->
    (forall ts te,
       timeValue (pdi_startTimeUtc (vi_proposedDuty input)) = Some ts ->
       timeValue (pdi_endTimeUtc (vi_proposedDuty input)) = Some te ->
       (hasRule "117.25(d)" (violations v) <-> 13 * 3600000 < te - ts)
       /\ (te <= ts -> ~ hasRule "117.25(d)" (violations v)))
    /\ (timeValue (pdi_startTimeUtc (vi_proposedDuty input)) = None
        \/ timeValue (pdi_endTimeUtc (vi_proposedDuty input)) = None ->
        ~ hasRule "117.25(d)" (violations v) /\ h = NaN).
Proof.
  intros src input svc cur v h f Hc.
  unfold ValidateCrewLegalityTool.validateCrewLegality.
  destruct (CrewStateService.getCrewStatus svc (vi_employeeId input))
    as [st'|]; [| discriminate].
  intros H. inversion H. subst. clear H.
  split.
  - intros ts te Hs He.
    assert (Hiff : hasRule "117.25(d)"
                     (violations
                        (LegalityEngine.validateDuty src st'
                           (ValidateCrewLegalityTool.dutyPeriodOf
                              (vi_proposedDuty input))
                           (match vi_checkCategories input with
                            | Some cs => cs
                            | None => ["part117"; "fatigue_risk"]
                            end)))
                   <-> 13 * 3600000 < te - ts).
    { rewrite (hasRule_fdp_iff _ _ _ _ Hc), (dutyHours_valid _ ts te Hs He).
      unfold gt, ofZ. apply hours_gt_iff. }
    split; [exact Hiff |]. intros Hle Hv. apply Hiff in Hv. lia.
  - intros Hinv. rewrite (hasRule_fdp_iff _ _ _ _ Hc).
    split; [rewrite (dutyHours_invalid _ Hinv); intros [] |].
    exact (dutyHours_invalid _ Hinv).
Qed.

Lemma validate_tool_duty_length_from_timestamps_witness :
  exists v cur h f,
    ValidateCrewLegalityTool.validateCrewLegality src0
      (mkValidateInput "10002"
         (mkProposedDutyInput [] (isoOf Sample.D1_1300)
            (isoOf (Sample.D1_1300 + 14 * msPerHour))
            (isoOf (Sample.D1_1300 - msPerHour)))
         None)
      Sample.dutyAndReserve
    = ValidateOk "10002" v cur h f
    /\ hasRule "117.25(d)" (violations v)
    /\ isLegal v = false.
Proof.
  destruct (ValidateCrewLegalityTool.validateCrewLegality src0
              (mkValidateInput "10002"
                 (mkProposedDutyInput [] (isoOf Sample.D1_1300)
                    (isoOf (Sample.D1_1300 + 14 * msPerHour))
                    (isoOf (Sample.D1_1300 - msPerHour)))
                 None)
              Sample.dutyAndReserve) as [m b | e v cur h f] eqn:E;
    [vm_compute in E; discriminate E |].
  assert (Ee : e = "10002") by (vm_compute in E; inversion E; reflexivity).
  subst e. exists v, cur, h, f. split; [reflexivity |].
  destruct (validate_tool_duty_length_from_timestamps src0
              (mkValidateInput "10002"
                 (mkProposedDutyInput [] (isoOf Sample.D1_1300)
                    (isoOf (Sample.D1_1300 + 14 * msPerHour))
                    (isoOf (Sample.D1_1300 - msPerHour)))
                 None)
              Sample.dutyAndReserve cur v h f
              (or_introl eq_refl) E) as [H _].
  destruct (H Sample.D1_1300 (Sample.D1_1300 + 14 * msPerHour)
              eq_refl eq_refl) as [Hiff _].
  split.
  - apply Hiff. vm_compute. reflexivity.
  - vm_compute in E. inversion E. reflexivity.
Defined.

Lemma fold_flight_hours (l : list FlightSegment) (a : number) :
  fold_left (fun sum flight => add sum (flightTimeHours flight)) l a
  = fold_left add (map flightTimeHours l) a.
Proof.
  revert a. induction l as [|f l IH]; intros a; simpl;
    [reflexivity | apply IH].
Qed.

Lemma validateDuty_depends_on src st d d' cats :
  startTimeUtc d = startTimeUtc d' ->
  totalDutyHours d = totalDutyHours d' ->
  totalFlightHours d = totalFlightHours d' ->
  LegalityEngine.validateDuty src st d cats
  = LegalityEngine.validateDuty src st d' cats.
Proof.
  intros Hs Hd Hf.
  unfold LegalityEngine.validateDuty, LegalityEngine.checkFlightDutyPeriod,
    LegalityEngine.checkFlightTime, LegalityEngine.checkRestRequirements,
    LegalityEngine.checkCumulativeLimits, LegalityEngine.checkWoclExposure,
    LegalityEngine.assessFatigueRisk, LegalityEngine.restHours,
    LegalityEngine.violation28Day, LegalityEngine.violation365Day.
  rewrite Hs, Hd, Hf. reflexivity.
Qed.

(** X23. The response of the validate-crew-legality tool depends on the
    proposed duty through its start time, its end time and the list of
    the flight hours of its segments only: two requests for the same
    crew member and categories that agree on these get the same
    response, whatever their report times and the flight numbers,
    airports and times of their segments. *)
Theorem validate_tool_ignores_report_time_and_segment_details :
  forall (src : AuditSource) (input input' : ValidateCrewLegalityInput)
         (svc : ServiceState),
    vi_employeeId input = vi_employeeId input' ->
    vi_checkCategories input = vi_checkCategories input' ->
    pdi_startTimeUtc (vi_proposedDuty input)
    = pdi_startTimeUtc (vi_proposedDuty input') ->
    pdi_endTimeUtc (vi_proposedDuty input)
    = pdi_endTimeUtc (vi_proposedDuty input') ->
    map flightTimeHours (pdi_flights (vi_proposedDuty input))
    = map flightTimeHours (pdi_flights (vi_proposedDuty input')) ->
    ValidateCrewLegalityTool.validateCrewLegality src input svc
    = ValidateCrewLegalityTool.validateCrewLegality src input' svc.
Proof.
  intros src input input' svc Hid Hc Hs He Hf.
  unfold ValidateCrewLegalityTool.validateCrewLegality.
  rewrite <- Hid, <- Hc.
  destruct (CrewStateService.getCrewStatus svc (vi_employeeId input)) as [st|];
    [| reflexivity].
  assert (Hd : totalDutyHours
                 (ValidateCrewLegalityTool.dutyPeriodOf (vi_proposedDuty input))
               = totalDutyHours
                   (ValidateCrewLegalityTool.dutyPeriodOf (vi_proposedDuty input'))).
  { unfold ValidateCrewLegalityTool.dutyPeriodOf. cbn [totalDutyHours].
    rewrite Hs, He. reflexivity. }
  assert (Hh : totalFlightHours
                 (ValidateCrewLegalityTool.dutyPeriodOf (vi_proposedDuty input))
               = totalFlightHours
                   (ValidateCrewLegalityTool.dutyPeriodOf (vi_proposedDuty input'))).
  { unfold ValidateCrewLegalityTool.dutyPeriodOf. cbn [totalFlightHours].
    rewrite !fold_flight_hours, Hf. reflexivity. }
  rewrite (validateDuty_depends_on src st
             (ValidateCrewLegalityTool.dutyPeriodOf (vi_proposedDuty input))
             (ValidateCrewLegalityTool.dutyPeriodOf (vi_proposedDuty input'))
             _ Hs Hd Hh).
  rewrite Hd, Hh. reflexivity.
Qed.

Lemma validate_tool_ignores_report_time_and_segment_details_witness :
  ValidateCrewLegalityTool.validateCrewLegality src0
    (mkValidateInput "10002"
       (mkProposedDutyInput
          [mkSegment "AA1001" (isoOf Sample.D1_1300)
             (isoOf (Sample.D1_1300 + 4 * msPerHour)) (ofZ 4) "ORD" "DFW"]
          (isoOf Sample.D1_1300) (isoOf (Sample.D1_1300 + 5 * msPerHour))
          (isoOf (Sample.D1_1300 - msPerHour)))
       None)
    Sample.dutyAndReserve
  = ValidateCrewLegalityTool.validateCrewLegality src0
      (mkValidateInput "10002"
         (mkProposedDutyInput
            [mkSegment "UA77" notATimestamp notATimestamp (ofZ 4) "LAX" "SEA"]
            (isoOf Sample.D1_1300) (isoOf (Sample.D1_1300 + 5 * msPerHour))
            (isoOf (Sample.D1_1300 - 12 * msPerHour)))
         None)
      Sample.dutyAndReserve.
Proof.
  apply validate_tool_ignores_report_time_and_segment_details; reflexivity.
Defined.

(* ================================================================== *)
(** * The get-crew-status-realtime tool *)
(* ================================================================== *)

Lemma formatAll_ids clock k l :
  map sv_employeeId (GetCrewStatusRealtimeTool.formatAll clock k l)
  = map employeeId l
  /\ map sv_location (GetCrewStatusRealtimeTool.formatAll clock k l)
     = map currentLocation l
  /\ map (fun v => csv_type (sv_currentState v))
       (GetCrewStatusRealtimeTool.formatAll clock k l)
     = map stateType l.
Proof.
  revert k. induction l as [|s l IH]; intros k; simpl.
  - repeat split.
  - destruct (IH (S (S k))) as [H1 [H2 H3]]. rewrite H1, H2, H3. repeat split.
Qed.

Lemma getCrewByStateName_known svc ty :
  CrewStateService.getCrewByStateName svc (stateType_name ty)
  = CrewStateService.getCrewByState svc ty.
Proof.
  unfold CrewStateService.getCrewByStateName, CrewStateService.getCrewByState.
  apply filter_ext. intros st. destruct (stateType st), ty; reflexivity.
Qed.

Lemma getCrewByStateName_unknown svc s :
  (forall ty, stateType_name ty <> s) ->
  CrewStateService.getCrewByStateName svc s = [].
Proof.
  intros H. unfold CrewStateService.getCrewByStateName.
  apply nil_iff_no_member. intros st Hin. apply filter_In in Hin.
  destruct Hin as [_ E]. apply String.eqb_eq in E. exact (H _ E).
Qed.

Lemma truthy_some s : truthy (Some s) = true <-> s <> "".
Proof. destruct s; simpl; split; congruence. Qed.

(** X24. How the get-crew-status-realtime tool picks its query.  An
    employee id that is not empty wins over any location or state type:
    an unknown id gives the not-found error, a known one exactly one
    entry.  Otherwise a location that is not empty is used, and otherwise
    a state type; each lists the crew of [getCrewAtLocation] or of
    [getCrewByState] in the order of the store, with their number as
    count, and a state type that names no state gives an empty list and
    not an error.  With none of the three (or only empty strings) the
    tool answers with an error.  The position filter and the upcoming
    flag of the request change nothing. *)
Theorem status_tool_query_precedence :
  forall (clock : nat -> Z) (input : GetCrewStatusInput) (svc : ServiceState),
    (forall id,
       gi_employeeId input = Some id -> id <> "" ->
       (CrewStateService.getCrewStatus svc id = None ->
        GetCrewStatusRealtimeTool.getCrewStatusRealtime clock input svc
        = StatusError ("Crew member " ++ id ++ " not found"))
       /\ (forall st,
             CrewStateService.getCrewStatus svc id = Some st ->
             GetCrewStatusRealtimeTool.getCrewStatusRealtime clock input svc
             = StatusCrew
                 [GetCrewStatusRealtimeTool.formatCrewStatus
                    (clock 0%nat) (clock 1%nat) st]
                 1 None None (iso_text (clock 2%nat))))
    /\ (truthy (gi_employeeId input) = false ->
        forall loc,
          gi_location input = Some loc -> loc <> "" ->
          exists crew ts,
            GetCrewStatusRealtimeTool.getCrewStatusRealtime clock input svc
            = StatusCrew crew
                (Z.of_nat
                   (List.length (CrewStateService.getCrewAtLocation svc loc)))
                (Some loc) None ts
            /\ map sv_employeeId crew
               = map employeeId (CrewStateService.getCrewAtLocation svc loc)
            /\ Forall (fun v => sv_location v = loc) crew)
    /\ (truthy (gi_employeeId input) = false ->
        truthy (gi_location input) = false ->
        forall s,
          gi_stateType input = Some s -> s <> "" ->
          exists crew ts,
            GetCrewStatusRealtimeTool.getCrewStatusRealtime clock input svc
            = StatusCrew crew (Z.of_nat (List.length crew)) None (Some s) ts
            /\ (forall ty,
                  s = stateType_name ty ->
                  map sv_employeeId crew
                  = map employeeId (CrewStateService.getCrewByState svc ty))
            /\ ((forall ty, stateType_name ty <> s) -> crew = []))
    /\ (truthy (gi_employeeId input) = false ->
        truthy (gi_location input) = false ->
        truthy (gi_stateType input) = false ->
        GetCrewStatusRealtimeTool.getCrewStatusRealtime clock input svc
        = StatusError "Must provide either employeeId, location, or stateType")
    /\ (forall pos upcoming,
          GetCrewStatusRealtimeTool.getCrewStatusRealtime clock
            (mkGetCrewStatusInput (gi_employeeId input) (gi_location input)
               (gi_stateType input) pos upcoming) svc
          = GetCrewStatusRealtimeTool.getCrewStatusRealtime clock input svc).
Proof.
  intros clock input svc.
  unfold GetCrewStatusRealtimeTool.getCrewStatusRealtime.
  split.
  { intros id Hid Hne. rewrite Hid.
    rewrite (proj2 (truthy_some id) Hne). split.
    - intros H. rewrite H. reflexivity.
    - intros st H. rewrite H. reflexivity. }
  split.
  { intros He loc Hloc Hne. rewrite He, Hloc.
    rewrite (proj2 (truthy_some loc) Hne).
    do 2 eexists. split; [reflexivity |].
    destruct (formatAll_ids clock 0 (CrewStateService.getCrewAtLocation svc loc))
      as [H1 [H2 _]].
    split; [exact H1 |].
    rewrite Forall_forall. intros v Hv.
    apply (in_map sv_location) in Hv. rewrite H2 in Hv.
    apply in_map_iff in Hv. destruct Hv as [st [E Hst]].
    unfold CrewStateService.getCrewAtLocation in Hst. apply filter_In in Hst.
    destruct Hst as [_ Hl]. apply String.eqb_eq in Hl. congruence. }
  split.
  { intros He Hl s Hs Hne. rewrite He, Hl, Hs.
    rewrite (proj2 (truthy_some s) Hne).
    destruct (formatAll_ids clock 0 (CrewStateService.getCrewByStateName svc s))
      as [H1 _].
    do 2 eexists. split.
    - rewrite <- (length_map sv_employeeId), H1, length_map. reflexivity.
    - split.
      + intros ty E. subst s. rewrite H1, getCrewByStateName_known. reflexivity.
      + intros Hun. rewrite (getCrewByStateName_unknown svc s Hun). reflexivity. }
  split.
  { intros He Hl Hs. rewrite He, Hl, Hs. reflexivity. }
  intros pos upcoming. reflexivity.
Qed.

Lemma status_tool_query_precedence_witness :
  GetCrewStatusRealtimeTool.getCrewStatusRealtime
    (fun k => 1734271200000 + Z.of_nat k)
    (mkGetCrewStatusInput (Some "99999") (Some "ORD") (Some "RESERVE") None None)
    Sample.dutyAndReserve
  = StatusError "Crew member 99999 not found"
  /\ exists crew ts,
       GetCrewStatusRealtimeTool.getCrewStatusRealtime
         (fun k => 1734271200000 + Z.of_nat k)
         (mkGetCrewStatusInput (Some "") None (Some "STANDBY") None None)
         Sample.dutyAndReserve
       = StatusCrew crew 0 None (Some "STANDBY") ts
       /\ crew = [].
Proof.
  destruct (status_tool_query_precedence
              (fun k => 1734271200000 + Z.of_nat k)
              (mkGetCrewStatusInput (Some "99999") (Some "ORD") (Some "RESERVE")
                 None None)
              Sample.dutyAndReserve) as [H1 _].
  split.
  - apply (H1 "99999" eq_refl); [discriminate | reflexivity].
  - destruct (status_tool_query_precedence
                (fun k => 1734271200000 + Z.of_nat k)
                (mkGetCrewStatusInput (Some "") None (Some "STANDBY") None None)
                Sample.dutyAndReserve) as [_ [_ [H3 _]]].
    destruct (H3 eq_refl eq_refl "STANDBY" eq_refl) as [crew [ts [E [_ Hun]]]];
      [discriminate |].
    assert (Ec : crew = []).
    { apply Hun. intros ty. destruct ty; discriminate. }
    exists crew, ts. split; [| exact Ec].
    rewrite E, Ec. reflexivity.
Defined.

Lemma hoursUntilEnd_valid now st te :
  timeValue (stateEndUtc st) = Some te ->
  GetCrewStatusRealtimeTool.hoursUntilEnd now st
  = Fin ((inject_Z te - inject_Z now) / inject_Z 3600000).
Proof.
  intros H. unfold GetCrewStatusRealtimeTool.hoursUntilEnd, Date_ofString.
  rewrite H. reflexivity.
Qed.

Lemma hoursUntilEnd_invalid now st :
  timeValue (stateEndUtc st) = None ->
  GetCrewStatusRealtimeTool.hoursUntilEnd now st = NaN.
Proof.
  intros H. unfold GetCrewStatusRealtimeTool.hoursUntilEnd, Date_ofString.
  rewrite H. reflexivity.
Qed.

Lemma hours_le_zero (te now : Z) :
  te <= now ->
  ((inject_Z te - inject_Z now) / inject_Z 3600000 <= 0)%Q.
Proof.
  intros H. unfold Qle, Qdiv, Qmult, Qinv, Qminus, Qplus, Qopp, inject_Z.
  simpl. lia.
Qed.

Lemma toFixed1_zero (q : Q) : (q == 0)%Q -> toFixed1 (Fin q) = "0.0".
Proof.
  intros H. unfold toFixed1.
  assert (E1 : Qfloor (Qabs q * inject_Z 10 + (1 # 2)) = 0).
  { rewrite H. reflexivity. }
  assert (E2 : Qle_bool 0 q = true).
  { apply Qle_bool_iff. rewrite H. apply Qle_refl. }
  rewrite E1, E2. reflexivity.
Qed.

Lemma shown_hours_of_past_end (h : Q) :
  (h <= 0)%Q -> toFixed1 (max (ofZ 0) (Fin h)) = "0.0".
Proof.
  intros H. unfold max, ofZ.
  destruct (Qle_bool (inject_Z 0) h) eqn:E.
  - apply Qle_bool_iff in E. apply toFixed1_zero.
    apply Qle_antisym; [exact H | exact E].
  - reflexivity.
Qed.

Lemma stateType_eqb_eq a b : stateType_eqb a b = true <-> a = b.
Proof. destruct a, b; simpl; split; congruence. Qed.

Lemma In_generateStatusFlags now st x :
  In x (GetCrewStatusRealtimeTool.generateStatusFlags now st)
  <-> (stateType st = SICK /\ x = "UNAVAILABLE_SICK")
      \/ (stateType st = VACATION /\ x = "UNAVAILABLE_VACATION")
      \/ (lt (GetCrewStatusRealtimeTool.hoursUntilEnd now st) (ofZ 2)
          /\ stateType st = DUTY /\ x = "APPROACHING_TIMEOUT")
      \/ (gt (flightHoursMonth st) (ofZ 90) /\ x = "HIGH_MONTHLY_HOURS")
      \/ (5 <= consecutiveDutyDays st /\ x = "FATIGUE_RISK")
      \/ (lt (dutyHoursCumulative st) (ofZ 10) /\ x = "FRESH_CREW").
Proof.
  unfold GetCrewStatusRealtimeTool.generateStatusFlags. cbv zeta.
  rewrite !In_cond_app. cbn [In app].
  rewrite andb_true_iff, !stateType_eqb_eq, !ltb_lt, gtb_gt.
  rewrite (Z.geb_le (consecutiveDutyDays st) 5). tauto.
Qed.

(** X25. What the get-crew-status-realtime tool says of one crew state.
    The crew is shown available exactly when the state is RESERVE and
    ends, at a valid instant, after the current time; a next
    availability is given exactly for a state DUTY.  A state whose end is
    not after the current time shows 0.0 hours remaining, check-in
    PENDING and not available; a state whose end is no valid timestamp
    shows NaN hours, check-in OK and not available.  The flag FATIGUE_RISK
    is set exactly from 5 consecutive duty days on, the threshold of the
    engine's consecutive-duty advisory; APPROACHING_TIMEOUT only for a
    state DUTY ending in less than two hours; the two UNAVAILABLE flags
    exactly for SICK and VACATION. *)
Theorem status_view_of_a_crew_state :
  forall (now now' : Z) (st : CrewDutyState),
    (isAvailable
       (sv_availability (GetCrewStatusRealtimeTool.formatCrewStatus now now' st))
     = true
     <-> stateType st = RESERVE
         /\ exists te, timeValue (stateEndUtc st) = Some te /\ now < te)
    /\ (av_nextAvailableUtc
          (sv_availability
             (GetCrewStatusRealtimeTool.formatCrewStatus now now' st)) <> None
        <-> stateType st = DUTY)
    /\ (forall te,
          timeValue (stateEndUtc st) = Some te -> te <= now ->
          csv_hoursRemaining
            (sv_currentState
               (GetCrewStatusRealtimeTool.formatCrewStatus now now' st))
          = "0.0"
          /\ checkInStatus
               (sv_availability
                  (GetCrewStatusRealtimeTool.formatCrewStatus now now' st))
             = "PENDING")
    /\ (timeValue (stateEndUtc st) = None ->
        csv_hoursRemaining
          (sv_currentState
             (GetCrewStatusRealtimeTool.formatCrewStatus now now' st))
        = "NaN"
        /\ checkInStatus
             (sv_availability
                (GetCrewStatusRealtimeTool.formatCrewStatus now now' st))
           = "OK")
    /\ (forall d,
          In "FATIGUE_RISK"
            (sv_flags (GetCrewStatusRealtimeTool.formatCrewStatus now now' st))
          <-> hasRule "FRMS_CONSECUTIVE_DUTY"
                (LegalityEngine.assessFatigueRisk st d))
    /\ (In "FATIGUE_RISK"
          (sv_flags (GetCrewStatusRealtimeTool.formatCrewStatus now now' st))
        <-> 5 <= consecutiveDutyDays st)
    /\ (In "APPROACHING_TIMEOUT"
          (sv_flags (GetCrewStatusRealtimeTool.formatCrewStatus now now' st))
        <-> stateType st = DUTY
            /\ exists te,
                 timeValue (stateEndUtc st) = Some te
                 /\ te - now' < 2 * 3600000)
    /\ (In "UNAVAILABLE_SICK"
          (sv_flags (GetCrewStatusRealtimeTool.formatCrewStatus now now' st))
        <-> stateType st = SICK)
    /\ (In "UNAVAILABLE_VACATION"
          (sv_flags (GetCrewStatusRealtimeTool.formatCrewStatus now now' st))
        <-> stateType st = VACATION).
Proof.
  intros now now' st.
  unfold GetCrewStatusRealtimeTool.formatCrewStatus.
  cbn [sv_availability isAvailable av_nextAvailableUtc checkInStatus
       sv_currentState csv_hoursRemaining sv_flags].
  assert (Hfat : In "FATIGUE_RISK"
                    (GetCrewStatusRealtimeTool.generateStatusFlags now' st)
                 <-> 5 <= consecutiveDutyDays st).
  { rewrite In_generateStatusFlags.
    split; [| intros H; right; right; right; right; left; tauto].
    intros [[_ H] | [[_ H] | [[_ [_ H]] | [[_ H] | [[H _] | [_ H]]]]]];
      try discriminate H. exact H. }
  split.
  { rewrite andb_true_iff, stateType_eqb_eq, gtb_gt.
    destruct (timeValue (stateEndUtc st)) as [te|] eqn:E.
    - rewrite (hoursUntilEnd_valid now st te E). unfold gt, ofZ.
      rewrite (hours_gt_iff te now 0). split.
      + intros [H1 H2]. split; [exact H1 |]. exists te. split; [reflexivity | lia].
      + intros [H1 [te' [E' H2]]]. inversion E'. subst te'.
        split; [exact H1 | lia].
    - rewrite (hoursUntilEnd_invalid now st E). split.
      + intros [_ []].
      + intros [_ [te [E' _]]]. discriminate E'. }
  split.
  { destruct (stateType st); simpl; split; congruence. }
  split.
  { intros te E Hle. rewrite (hoursUntilEnd_valid now st te E).
    split; [apply shown_hours_of_past_end, hours_le_zero; exact Hle |].
    assert (Hlt : ltb (Fin ((inject_Z te - inject_Z now) / inject_Z 3600000))
                      (ofZ 2) = true).
    { apply ltb_lt. unfold lt, gt, ofZ. apply hours_lt_iff. lia. }
    rewrite Hlt. reflexivity. }
  split.
  { intros E. rewrite (hoursUntilEnd_invalid now st E). split; reflexivity. }
  split.
  { intros d. rewrite Hfat, hasRule_assessFatigueRisk_consecutive. reflexivity. }
  split; [exact Hfat |].
  split.
  { rewrite In_generateStatusFlags. split.
    - intros [[_ H] | [[_ H] | [[Hl [Hd _]] | [[_ H] | [[_ H] | [_ H]]]]]];
        try discriminate H.
      split; [exact Hd |].
      destruct (timeValue (stateEndUtc st)) as [te|] eqn:E.
      + exists te. split; [reflexivity |].
        rewrite (hoursUntilEnd_valid now' st te E) in Hl.
        apply (hours_lt_iff te now' 2). exact Hl.
      + rewrite (hoursUntilEnd_invalid now' st E) in Hl. destruct Hl.
    - intros [Hd [te [E Hl]]]. right; right; left.
      split; [| split; [exact Hd | reflexivity]].
      rewrite (hoursUntilEnd_valid now' st te E).
      apply (hours_lt_iff te now' 2). exact Hl. }
  split.
  { rewrite In_generateStatusFlags.
    split; [| intros H; left; tauto].
    intros [[H _] | [[_ H] | [[_ [_ H]] | [[_ H] | [[_ H] | [_ H]]]]]];
      try discriminate H. exact H. }
  rewrite In_generateStatusFlags.
  split; [| intros H; right; left; tauto].
  intros [[_ H] | [[H _] | [[_ [_ H]] | [[_ H] | [[_ H] | [_ H]]]]]];
    try discriminate H. exact H.
Qed.

(* ================================================================== *)
(** * The optimize-reserve-callout tool *)
(* ================================================================== *)

Lemma recommendationsFrom_facts svc req pf clock i reserves :
  map rec_employeeId
    (OptimizeReserveCalloutTool.recommendationsFrom svc req pf clock i reserves)
  = map employeeId reserves
  /\ Forall (fun r => costPerHour (metrics r) = ofZ 100
                      \/ costPerHour (metrics r) = ofZ 150)
       (OptimizeReserveCalloutTool.recommendationsFrom svc req pf clock i reserves).
Proof.
  revert i. induction reserves as [|s l IH]; intros i; simpl.
  - split; [reflexivity | constructor].
  - destruct (IH (S i)) as [H1 H2]. rewrite H1. split; [reflexivity |].
    constructor; [| exact H2].
    unfold OptimizeReserveCalloutTool.recommendationFor.
    cbn [metrics costPerHour].
    destruct (gtb (flightHoursMonth s) (ofZ 75)); [right | left]; reflexivity.
Qed.

Lemma insert_perm_any {A : Type} (cmp : A -> A -> Z) (x : A) (l : list A) :
  Permutation (insert cmp x l) (x :: l).
Proof.
  induction l as [|y l IH]; simpl.
  - apply Permutation_refl.
  - destruct (cmp x y <=? 0).
    + apply Permutation_refl.
    + eapply Permutation_trans; [apply perm_skip; exact IH | apply perm_swap].
Qed.

Lemma sort_perm_any {A : Type} (cmp : A -> A -> Z) (l : list A) :
  Permutation (sort cmp l) l.
Proof.
  induction l as [|x l IH]; simpl.
  - apply perm_nil.
  - eapply Permutation_trans; [apply insert_perm_any | apply perm_skip; exact IH].
Qed.

Lemma fold_pick_In {A : Type} (pick : A -> A -> A) (l : list A) (a : A) :
  (forall x y, pick x y = x \/ pick x y = y) ->
  In (fold_left pick l a) (a :: l).
Proof.
  intros Hp. revert a. induction l as [|b l IH]; intros a; simpl.
  - left. reflexivity.
  - destruct (IH (pick a b)) as [E | Hin].
    + simpl. rewrite <- E.
      destruct (Hp a b) as [E' | E']; rewrite E'; [left | right; left];
        reflexivity.
    + right. right. exact Hin.
Qed.

Lemma fold_lowest_cost (l : list ReserveRecommendation) (a : ReserveRecommendation) :
  Forall (fun r => costPerHour (metrics r) = ofZ 100
                   \/ costPerHour (metrics r) = ofZ 150) (a :: l) ->
  (exists r, In r (a :: l) /\ costPerHour (metrics r) = ofZ 100) ->
  costPerHour
    (metrics
       (fold_left (fun least r =>
                     if ltb (costPerHour (metrics r)) (costPerHour (metrics least))
                     then r else least) l a))
  = ofZ 100.
Proof.
  revert a. induction l as [|b l IH]; intros a Hall Hex; simpl.
  - destruct Hex as [r [[E | []] Hr]]. subst r. exact Hr.
  - inversion Hall as [|x xs Ha Hrest]. subst.
    inversion Hrest as [|y ys Hb Hl]. subst.
    apply IH.
    + constructor; [| exact Hl].
      destruct (ltb (costPerHour (metrics b)) (costPerHour (metrics a)));
        assumption.
    + destruct Hex as [r [[E | [E | Hin]] Hr]].
      * subst r. rewrite Hr.
        destruct Hb as [Hb | Hb]; rewrite Hb.
        -- exists a. split; [left; reflexivity | exact Hr].
        -- exists a. split; [left; reflexivity | exact Hr].
      * subst r. rewrite Hr.
        destruct Ha as [Ha | Ha]; rewrite Ha.
        -- exists a. split; [left; reflexivity | exact Ha].
        -- exists b. split; [left; reflexivity | exact Hr].
      * exists r. split; [right; exact Hin | exact Hr].
Qed.

Lemma firstn_nil_iff {A : Type} (k : nat) (l : list A) :
  l <> [] -> firstn k l = [] <-> k = 0%nat.
Proof.
  intros Hne. destruct l as [|a l]; [contradiction |].
  destruct k; simpl; split; intros H; try reflexivity; discriminate.
Qed.

Lemma slice0_nil_iff {A : Type} (l : list A) (e : Z) :
  l <> [] ->
  slice0 l e = [] <-> e = 0 \/ e <= - Z.of_nat (List.length l).
Proof.
  intros Hne. unfold slice0. rewrite (firstn_nil_iff _ l Hne).
  assert (Hlen : 0 < Z.of_nat (List.length l)).
  { destruct l; [contradiction | simpl; lia]. }
  destruct (Z.ltb_spec e 0) as [Hneg | Hpos]; lia.
Qed.

(** X26. The outcomes of the optimize-reserve-callout tool, with n stored
    RESERVE states whose member has the requested base and position.  For
    n = 0 it returns the error response.  For n > 0 and a cap that leaves
    no recommendation (a cap of zero, or a negative cap of -n or below)
    it throws a TypeError, from the reduction of the empty list.
    Otherwise it returns a response that counts n reserves in total and
    as many recommended as it lists, at least one and at most n, each for
    a reserve of the pool; its fairest and its lowest-cost option are
    among the recommendations, and the lowest-cost option costs 100 per
    hour as soon as one of the recommended reserves does. *)
Theorem callout_tool_outcomes :
  forall (src : CalloutSource) (input : OptimizeReserveCalloutInput)
         (svc : ServiceState),
    let pool :=
      filter (CrewStateService.matchesBasePosition svc (oi_base input)
                (oi_position input))
             (CrewStateService.getCrewByState svc RESERVE) in
    let cap := match oi_maxResults input with Some n => n | None => 5 end in
    (pool = [] ->
     OptimizeReserveCalloutTool.optimizeReserveCallout src input svc
     = CalloutReturns
         (CalloutError
            ("No reserves available at " ++ oi_base input ++ " for position " ++
             oi_position input)
            (oi_base input) (oi_position input) (oi_requiredTimeUtc input)))
    /\ (pool <> [] ->
        cap = 0 \/ cap <= - Z.of_nat (List.length pool) ->
        OptimizeReserveCalloutTool.optimizeReserveCallout src input svc
        = CalloutThrowsTypeError "Reduce of empty array with no initial value")
    /\ (pool <> [] ->
        ~ (cap = 0 \/ cap <= - Z.of_nat (List.length pool)) ->
        exists pf recs status ts,
          OptimizeReserveCalloutTool.optimizeReserveCallout src input svc
          = CalloutReturns
              (CalloutOk (oi_base input) (oi_position input)
                 (oi_requiredTimeUtc input) (oi_duration input) pf recs
                 status ts)
          /\ totalReserves status = Z.of_nat (List.length pool)
          /\ recommendedCount status = Z.of_nat (List.length recs)
          /\ (0 < List.length recs <= List.length pool)%nat
          /\ (forall r, In r recs ->
                In (rec_employeeId r) (map employeeId pool))
          /\ In (lowestCostOption status) recs
          /\ In (fairestOption status) recs
          /\ ((exists r, In r recs /\ costPerHour (metrics r) = ofZ 100) ->
              costPerHour (metrics (lowestCostOption status)) = ofZ 100)).
Proof.
  intros src input svc pool cap.
  unfold OptimizeReserveCalloutTool.optimizeReserveCallout.
  fold pool. fold cap.
  set (pf := match oi_priorityFactor input with
             | Some p => p
             | None => "fairness"
             end).
  set (recs0 := OptimizeReserveCalloutTool.recommendationsFrom svc
                  (oi_requiredTimeUtc input) pf (clockAtFatigue src) 0 pool).
  set (sorted := sort OptimizeReserveCalloutTool.byRankScoreDesc recs0).
  destruct (recommendationsFrom_facts svc (oi_requiredTimeUtc input) pf
              (clockAtFatigue src) 0 pool) as [Hids Hcost].
  fold recs0 in Hids, Hcost.
  pose proof (sort_perm_any OptimizeReserveCalloutTool.byRankScoreDesc recs0)
    as Hperm.
  fold sorted in Hperm.
  assert (Hlen : List.length sorted = List.length pool).
  { rewrite (Permutation_length Hperm), <- (length_map rec_employeeId), Hids,
      length_map. reflexivity. }
  split.
  { intros Hp. rewrite Hp. reflexivity. }
  assert (Hpool : pool <> [] -> (List.length pool =? 0)%nat = false).
  { intros Hne. destruct pool; [contradiction | reflexivity]. }
  assert (Hsne : pool <> [] -> sorted <> []).
  { intros Hne E. rewrite E in Hlen. destruct pool; [contradiction | discriminate]. }
  split.
  { intros Hne Hcap. rewrite (Hpool Hne).
    assert (E : slice0 sorted cap = []).
    { apply (slice0_nil_iff sorted cap (Hsne Hne)). rewrite Hlen. exact Hcap. }
    rewrite E. reflexivity. }
  intros Hne Hcap. rewrite (Hpool Hne).
  destruct (slice0 sorted cap) as [|first rest] eqn:E.
  { exfalso. apply Hcap. rewrite <- Hlen.
    apply (slice0_nil_iff sorted cap (Hsne Hne)). exact E. }
  cbn [OptimizeReserveCalloutTool.reduce1].
  do 4 eexists. split; [reflexivity |].
  cbn [totalReserves recommendedCount lowestCostOption fairestOption].
  assert (Hsub : forall r, In r (first :: rest) -> In r recs0).
  { intros r Hr. rewrite <- E in Hr. apply In_slice0 in Hr.
    exact (Permutation_in _ Hperm Hr). }
  split; [reflexivity |]. split; [reflexivity |].
  split.
  { split; [simpl; lia |].
    rewrite <- E, <- Hlen. unfold slice0. rewrite length_firstn. lia. }
  split.
  { intros r Hr. rewrite <- Hids. apply in_map. exact (Hsub r Hr). }
  split.
  { apply fold_pick_In. intros x y. destruct (ltb _ _); [right | left]; reflexivity. }
  split.
  { apply fold_pick_In. intros x y. destruct (ltb _ _); [right | left]; reflexivity. }
  apply fold_lowest_cost.
  rewrite Forall_forall in *. intros r Hr. exact (Hcost r (Hsub r Hr)).
Qed.

Lemma callout_tool_outcomes_witness :
  OptimizeReserveCalloutTool.optimizeReserveCallout
    (mkCalloutSource (fun _ => 1734271200000) 1734271200000)
    (mkOptimizeInput "ORD" "FO" (isoOf Sample.D1_1300) (ofZ 5) None (Some 0))
    Sample.twoReserves
  = CalloutThrowsTypeError "Reduce of empty array with no initial value"
  /\ exists e b p t,
       OptimizeReserveCalloutTool.optimizeReserveCallout
         (mkCalloutSource (fun _ => 1734271200000) 1734271200000)
         (mkOptimizeInput "LAX" "FO" (isoOf Sample.D1_1300) (ofZ 5) None None)
         Sample.twoReserves
       = CalloutReturns (CalloutError e b p t).
Proof.
  destruct (callout_tool_outcomes
              (mkCalloutSource (fun _ => 1734271200000) 1734271200000)
              (mkOptimizeInput "ORD" "FO" (isoOf Sample.D1_1300) (ofZ 5) None
                 (Some 0))
              Sample.twoReserves) as [_ [H2 _]].
  split.
  - apply H2; [vm_compute; discriminate | left; reflexivity].
  - destruct (callout_tool_outcomes
                (mkCalloutSource (fun _ => 1734271200000) 1734271200000)
                (mkOptimizeInput "LAX" "FO" (isoOf Sample.D1_1300) (ofZ 5) None
                   None)
                Sample.twoReserves) as [H1 _].
    do 4 eexists. apply H1. reflexivity.
Defined.

Lemma hours_ge_iff (te tr n : Z) :
  geb (Fin ((inject_Z te - inject_Z tr) / inject_Z 3600000)) (ofZ n)
  = (n * 3600000 <=? te - tr).
Proof.
  unfold geb, ofZ. apply eq_true_iff_eq. rewrite Qle_bool_iff, Z.leb_le.
  unfold Qle, Qdiv, Qmult, Qinv, Qminus, Qplus, Qopp, inject_Z. simpl.
  split; intros H; lia.
Qed.

(** X27. The availability score of the callout tool has four tiers,
    decided by the time from the required report time to the end of the
    reserve's state: 100 from 12 hours on, 80 from 8 hours, 60 from 4
    hours and 40 below, so a state that ends before the required time
    scores 40; and 40 is also the score when either timestamp does not
    parse. *)
Theorem availability_score_tiers :
  forall (reserve : CrewDutyState) (required : IsoString),
    (forall te tr,
       timeValue (stateEndUtc reserve) = Some te ->
       timeValue required = Some tr ->
       OptimizeReserveCalloutTool.calculateAvailabilityScore reserve required
       = (if 12 * 3600000 <=? te - tr then ofZ 100
          else if 8 * 3600000 <=? te - tr then ofZ 80
          else if 4 * 3600000 <=? te - tr then ofZ 60
          else ofZ 40))
    /\ (timeValue (stateEndUtc reserve) = None \/ timeValue required = None ->
        OptimizeReserveCalloutTool.calculateAvailabilityScore reserve required
        = ofZ 40)
    /\ (OptimizeReserveCalloutTool.calculateAvailabilityScore reserve required
        = ofZ 100
        \/ OptimizeReserveCalloutTool.calculateAvailabilityScore reserve required
           = ofZ 80
        \/ OptimizeReserveCalloutTool.calculateAvailabilityScore reserve required
           = ofZ 60
        \/ OptimizeReserveCalloutTool.calculateAvailabilityScore reserve required
           = ofZ 40).
Proof.
  intros reserve required.
  unfold OptimizeReserveCalloutTool.calculateAvailabilityScore, Date_ofString.
  split.
  { intros te tr He Hr. rewrite He, Hr.
    change (div (sub (getTime (Some te)) (getTime (Some tr))) (ofZ (1000 * 60 * 60)))
      with (Fin ((inject_Z te - inject_Z tr) / inject_Z 3600000)).
    rewrite !hours_ge_iff. reflexivity. }
  split.
  { intros [H | H]; rewrite H.
    - reflexivity.
    - destruct (timeValue (stateEndUtc reserve)); reflexivity. }
  destruct (geb _ (ofZ 12)); [left; reflexivity |].
  destruct (geb _ (ofZ 8)); [right; left; reflexivity |].
  destruct (geb _ (ofZ 4)); [right; right; left; reflexivity |].
  right; right; right; reflexivity.
Qed.
